(** * dnmos/weba: the Travelpayouts ETL pipeline

    A shallow embedding of
      src/etl/pipeline/etl_pipeline.py
      src/etl/extract/extract_travelpayouts_payments.py
      src/etl/extract/extract_travelpayouts_payment_actions.py
      src/etl/extract/extract_travelpayouts_action_details.py
    and the properties the specification states about them.

    Conventions.
    - A Python [str] is the list of its code points ([pystr]).  Literals are
      written as UTF-8 text and decoded by [py].
    - The character classes of [re] follow the Unicode data of CPython 3.11
      (Unicode 14.0): [\d] is a decimal digit of any script, [\s] the white
      space of Unicode, and [re.IGNORECASE] takes the capitals and the case
      partners of the letters in the patterns of the source.
    - PROCESSED_DATA_PATH is taken unset, so that the data folder is the
      default of the source, data/tpo_api_data.  Its folders exist or can be
      created: a script whose [os.makedirs] at module level raises does not
      reach the part modelled here and counts as a process that ends with
      a status of its own.
    - [pd.read_csv] types the columns of a file anew.  For the files the
      extractors hand to each other this is the oracle [read_back] of the
      world outside; for the ledger, whose one column is searched for a
      period, see [read_year_month_column].
    - The files are an association list from path to content; its order is
      the order in which a directory listing returns the entries.  The
      ledger, which no extractor opens, is kept apart from them.
    - The world outside the program (remote API, process launcher, disk
      writes) is an oracle [env] indexed by a clock that every interaction
      advances, so that the same request may be answered differently later.
    - A process ends with an exit status: 0 at the end of a script and at
      [exit()] without argument, 1 after an exception that nothing catches.
      [subprocess.run(..., check=True)] raises CalledProcessError when the
      status is not 0.
    - The logging calls the properties speak of are kept as a list of
      events. *)

From Stdlib Require Import List NArith ZArith Bool String Ascii Lia.
From Stdlib Require Import Sorted Permutation.
Import ListNotations.

Set Implicit Arguments.

(* ================================================================== *)
(** ** Python strings *)

Module Str.

Definition pystr := list N.

(** UTF-8 decoding of a literal (well-formed input only). *)
Fixpoint decode_utf8 (bs : list N) : pystr :=
  match bs with
  | [] => []
  | b0 :: r0 =>
    if (b0 <? 128)%N then b0 :: decode_utf8 r0
    else if (b0 <? 224)%N then
      match r0 with
      | b1 :: r1 => ((b0 - 192) * 64 + (b1 - 128))%N :: decode_utf8 r1
      | _ => []
      end
    else if (b0 <? 240)%N then
      match r0 with
      | b1 :: b2 :: r2 =>
        ((b0 - 224) * 4096 + (b1 - 128) * 64 + (b2 - 128))%N :: decode_utf8 r2
      | _ => []
      end
    else
      match r0 with
      | b1 :: b2 :: b3 :: r3 =>
        ((b0 - 240) * 262144 + (b1 - 128) * 4096 + (b2 - 128) * 64 + (b3 - 128))%N
          :: decode_utf8 r3
      | _ => []
      end
  end.

Definition py (s : string) : pystr :=
  decode_utf8 (map N_of_ascii (list_ascii_of_string s)).

Fixpoint str_eqb (a b : pystr) : bool :=
  match a, b with
  | [], [] => true
  | x :: a', y :: b' => (x =? y)%N && str_eqb a' b'
  | _, _ => false
  end.

(** [a <= b] on [str]: lexicographic on code points. *)
Fixpoint str_leb (a b : pystr) : bool :=
  match a, b with
  | [], _ => true
  | _ :: _, [] => false
  | x :: a', y :: b' =>
    if (x <? y)%N then true else if (x =? y)%N then str_leb a' b' else false
  end.

Definition str_ltb (a b : pystr) : bool := negb (str_leb b a).
Definition str_geb (a b : pystr) : bool := str_leb b a.

(** [s.startswith(p)], returning what follows the prefix. *)
Fixpoint strip_prefix (p s : pystr) : option pystr :=
  match p with
  | [] => Some s
  | x :: p' =>
    match s with
    | y :: s' => if (x =? y)%N then strip_prefix p' s' else None
    | [] => None
    end
  end.

Definition starts_with (p s : pystr) : bool :=
  match strip_prefix p s with Some _ => true | None => false end.

(** [sub in s]. *)
Fixpoint contains (sub s : pystr) : bool :=
  starts_with sub s ||
  match s with
  | [] => false
  | _ :: s' => contains sub s'
  end.

Definition ends_with (suf s : pystr) : bool := starts_with (rev suf) (rev s).

Definition slash : N := 47%N.

(** [os.path.basename] on POSIX: what follows the last slash. *)
Fixpoint after_last_slash (cur s : pystr) : pystr :=
  match s with
  | [] => cur
  | c :: s' => if (c =? slash)%N then after_last_slash s' s' else after_last_slash cur s'
  end.

Definition basename (p : pystr) : pystr := after_last_slash p p.

(** [os.path.join] of a non-empty directory without trailing slash and a
    relative name. *)
Definition path_join (d n : pystr) : pystr := d ++ slash :: n.

(** Character classes of [re] on [str] patterns, with the Unicode data of
    CPython 3.11 (Unicode 14.0). *)

(** The zero of each of the 66 decimal digit systems (general category Nd):
    0, the Arabic-Indic zero U+0660, ...; the nine code points after a zero
    are the digits 1 to 9 of its system. *)
Definition digit_zeros : list N :=
  [48; 1632; 1776; 1984; 2406; 2534; 2662; 2790; 2918; 3046; 3174; 3302;
   3430; 3558; 3664; 3792; 3872; 4160; 4240; 6112; 6160; 6470; 6608; 6784;
   6800; 6992; 7088; 7232; 7248; 42528; 43216; 43264; 43472; 43504; 43600;
   44016; 65296; 66720; 68912; 69734; 69872; 69942; 70096; 70384; 70736;
   70864; 71248; 71360; 71472; 71904; 72016; 72784; 73040; 73120; 92768;
   92864; 93008; 120782; 120792; 120802; 120812; 120822; 123200; 123632;
   125264; 130032]%N.

(** [\d]: a decimal digit of any script. *)
Definition is_digit (c : N) : bool :=
  existsb (fun z => ((z <=? c) && (c <=? z + 9))%N) digit_zeros.

(** 0-9: the digits from which [pd.read_csv] reads a number. *)
Definition is_ascii_digit (c : N) : bool := ((48 <=? c) && (c <=? 57))%N.

Definition is_space (c : N) : bool :=
  (((9 <=? c) && (c <=? 13)) || ((28 <=? c) && (c <=? 32)) ||
   (c =? 133) || (c =? 160) || (c =? 5760) ||
   ((8192 <=? c) && (c <=? 8202)) || (c =? 8232) || (c =? 8233) ||
   (c =? 8239) || (c =? 8287) || (c =? 12288))%N.

(** The lower case of a character, for the Latin and the Cyrillic capitals
    (A-Z, U+0400-U+040F, U+0410-U+042F); every other character stands for
    itself.  That is [str.lower] on every text the patterns of the source
    can match: the letters of the month names, their capitals and their
    case partners below. *)
Definition to_lower (c : N) : N :=
  if ((65 <=? c) && (c <=? 90))%N then (c + 32)%N
  else if ((1024 <=? c) && (c <=? 1039))%N then (c + 80)%N
  else if ((1040 <=? c) && (c <=? 1071))%N then (c + 32)%N
  else c.

(** [str.lower()]. *)
Definition lower (s : pystr) : pystr := map to_lower s.

(** The characters that [re.IGNORECASE] takes for a lower-case letter of a
    pattern besides those whose lower case it is (re/_casefix.py): the
    rounded ve U+1C80 for U+0432, the long-legged de U+1C81 for U+0434, the
    narrow o U+1C82 for U+043E, the wide es U+1C83 for U+0441, the tall te
    and the three-legged te U+1C84, U+1C85 for U+0442, the tall hard sign
    U+1C86 for U+044A.  No other letter of the patterns of the source has
    such a partner. *)
Definition case_partners (x : N) : list N :=
  if (x =? 1074)%N then [7296%N]
  else if (x =? 1076)%N then [7297%N]
  else if (x =? 1086)%N then [7298%N]
  else if (x =? 1089)%N then [7299%N]
  else if (x =? 1090)%N then [7300%N; 7301%N]
  else if (x =? 1098)%N then [7302%N]
  else [].

(** Does the character [y] of a text match the lower-case letter [x] of a
    pattern compiled with [re.IGNORECASE]? *)
Definition ci_eq (x y : N) : bool :=
  (to_lower y =? x)%N || existsb (N.eqb y) (case_partners x).

(** The texts whose code points lie below U+0500 (Latin, Greek, Cyrillic):
    there the decimal digits are 0-9 and no letter has a case partner. *)
Definition in_alphabet (s : pystr) : bool := forallb (fun c => (c <? 1280)%N) s.

(** [\d{n}] at the head of [s]: the digits and the rest. *)
Fixpoint take_digits (n : nat) (s : pystr) : option (pystr * pystr) :=
  match n with
  | O => Some ([], s)
  | S n' =>
    match s with
    | c :: s' =>
      if is_digit c then
        match take_digits n' s' with
        | Some (ds, r) => Some (c :: ds, r)
        | None => None
        end
      else None
    | [] => None
    end
  end.

(** A literal under [re.IGNORECASE]; [p] is lower case.  Returns the text
    matched and the rest. *)
Fixpoint strip_prefix_ci (p s : pystr) : option (pystr * pystr) :=
  match p with
  | [] => Some ([], s)
  | x :: p' =>
    match s with
    | y :: s' =>
      if ci_eq x y then
        match strip_prefix_ci p' s' with
        | Some (m, r) => Some (y :: m, r)
        | None => None
        end
      else None
    | [] => None
    end
  end.

(** [\s*], greedy. *)
Fixpoint skip_spaces (s : pystr) : pystr :=
  match s with
  | c :: s' => if is_space c then skip_spaces s' else s
  | [] => []
  end.

(** [re.search]: the match at the leftmost position where [here] succeeds. *)
Fixpoint re_search (A : Type) (here : pystr -> option A) (s : pystr) : option A :=
  match here s with
  | Some a => Some a
  | None =>
    match s with
    | [] => None
    | _ :: s' => re_search here s'
    end
  end.

End Str.
Import Str.

(* ================================================================== *)
(** ** Constants and file-name patterns *)

Definition TPO_API_DATA_PATH : pystr := Eval vm_compute in py "data/tpo_api_data".
Definition PAYMENTS_SUBFOLDER : pystr := Eval vm_compute in py "payments".
Definition PAYMENT_ACTIONS_SUBFOLDER : pystr := Eval vm_compute in py "payment_actions".
Definition ACTION_DETAILS_SUBFOLDER : pystr := Eval vm_compute in py "action_details".
Definition PAYMENTS_METADATA_FILENAME : pystr := Eval vm_compute in py "payments_metadata.csv".
Definition MIN_YEAR_MONTH : pystr := Eval vm_compute in py "201801".

Definition EXTRACTED_csv : pystr := Eval vm_compute in py "_EXTRACTED.csv".
Definition tpo_payments_ : pystr := Eval vm_compute in py "tpo_payments_".
Definition tpo_payment_actions_ : pystr := Eval vm_compute in py "tpo_payment_actions_".
Definition tpo_action_details_ : pystr := Eval vm_compute in py "tpo_action_details_".

(** The pattern [<stem>(\d{6})_EXTRACTED\.csv] at the head of [s]. *)
Definition period_here (stem s : pystr) : option pystr :=
  match strip_prefix stem s with
  | Some r =>
    match take_digits 6 r with
    | Some (ds, r') =>
      match strip_prefix EXTRACTED_csv r' with
      | Some _ => Some ds
      | None => None
      end
    | None => None
    end
  | None => None
  end.

(** [re.search(r"tpo_payments_(\d{6})_EXTRACTED\.csv", s)], group 1. *)
Definition search_payments_period (s : pystr) : option pystr :=
  re_search (period_here tpo_payments_) s.

(** [re.search(r"tpo_payment_actions_(\d{6})_EXTRACTED\.csv", s)], group 1. *)
Definition search_actions_period (s : pystr) : option pystr :=
  re_search (period_here tpo_payment_actions_) s.

(** etl_pipeline.py, [extract_year_month_from_filename]. *)
Definition extract_year_month_from_filename (filename : pystr) : pystr :=
  match search_payments_period filename with
  | Some ym => ym
  | None => []
  end.

(** f"<stem>{year_month}_EXTRACTED.csv" *)
Definition extracted_name (stem ym : pystr) : pystr := stem ++ ym ++ EXTRACTED_csv.

Definition payments_csv_filepath (ym : pystr) : pystr :=
  path_join (path_join TPO_API_DATA_PATH PAYMENTS_SUBFOLDER) (extracted_name tpo_payments_ ym).
Definition actions_csv_filepath (ym : pystr) : pystr :=
  path_join (path_join TPO_API_DATA_PATH PAYMENT_ACTIONS_SUBFOLDER)
            (extracted_name tpo_payment_actions_ ym).
Definition details_csv_filepath (ym : pystr) : pystr :=
  path_join (path_join TPO_API_DATA_PATH ACTION_DETAILS_SUBFOLDER)
            (extracted_name tpo_action_details_ ym).

(* ================================================================== *)
(** ** extract_travelpayouts_payments.py: comment to period *)

(** A JSON value as the extractor sees it: a string, or anything else with
    the text [to_csv] writes for it. *)
Inductive value :=
| VStr (s : pystr)
| VOther (text : pystr).

Definition value_text (v : value) : pystr :=
  match v with VStr s => s | VOther t => t end.

(** The alternation of the pattern, in its order, with [month_dict]. *)
Definition month_dict : list (pystr * pystr) := Eval vm_compute in
  [ (py "январь", py "01"); (py "февраль", py "02"); (py "март", py "03");
    (py "апрель", py "04"); (py "май", py "05"); (py "июнь", py "06");
    (py "июль", py "07"); (py "август", py "08"); (py "сентябрь", py "09");
    (py "октябрь", py "10"); (py "ноябрь", py "11"); (py "декабрь", py "12") ].

Definition za_ : pystr := Eval vm_compute in py "за ".

(** The alternatives are tried in order; the first whose continuation
    [\s*(\d{4})] also matches wins. *)
Fixpoint month_then_year (alts : list (pystr * pystr)) (s : pystr)
  : option (pystr * pystr) :=
  match alts with
  | [] => None
  | (name, _) :: alts' =>
    match strip_prefix_ci name s with
    | Some (m, r) =>
      match take_digits 4 (skip_spaces r) with
      | Some (y, _) => Some (m, y)
      | None => month_then_year alts' s
      end
    | None => month_then_year alts' s
    end
  end.

(** The whole pattern at the head of [s]: groups 1 and 2. *)
Definition comment_here (s : pystr) : option (pystr * pystr) :=
  match strip_prefix_ci za_ s with
  | Some (_, r) => month_then_year month_dict r
  | None => None
  end.

Fixpoint dict_get (d : list (pystr * pystr)) (k : pystr) : option pystr :=
  match d with
  | [] => None
  | (k', v) :: d' => if str_eqb k' k then Some v else dict_get d' k
  end.

(** [extract_year_month_from_comment] on a cell of [df['comment']]; the
    argument [None] is a missing cell (NaN), the result [None] is Python's
    None. *)
Definition extract_year_month_from_comment (comment : option value) : option pystr :=
  match comment with
  | Some (VStr c) =>
    match re_search comment_here c with
    | Some (m, year) =>
      match dict_get month_dict (lower m) with
      | Some month => Some (year ++ month)
      | None => None
      end
    | None => None
    end
  | _ => None
  end.

(* ================================================================== *)
(** ** etl_pipeline.py: the processed-period ledger *)

(** processed_dates.csv: absent, present but rejected by [pd.read_csv], or
    the header [year_month] followed by one cell per line, as
    [mark_period_as_processed] writes it. *)
Inductive ledger_file :=
| LedgerMissing
| LedgerUnreadable
| LedgerRows (cells : list pystr).

(** [pd.read_csv] infers the type of a column from its cells.  A column
    whose cells are all integer literals is read as int64: the line 202001
    comes back as the number 202001, not as the text it was written from.
    A column with a cell that is no number keeps the text of its cells
    (dtype object).  The model is exact on the columns whose cells are all
    literals of 0-9 of at most 18 digits, which is what the orchestrator
    writes for the periods of file names in 0-9, and on columns with a cell
    of plain text and no empty cell.  Beyond that (signs, fractions, empty
    cells and the other spellings of NaN beside numbers, longer literals)
    pandas may read numbers where the model keeps text; the statements on
    the content of the ledger are made for the first kind of column only. *)
Inductive column :=
| Int64Column (vals : list N)
| ObjectColumn (vals : list pystr).

Definition is_int_literal (s : pystr) : bool :=
  match s with
  | [] => false
  | _ => forallb is_ascii_digit s && (List.length s <=? 18)%nat
  end.

Definition int_of_digits (s : pystr) : N :=
  fold_left (fun a c => (a * 10 + (c - 48))%N) s 0%N.

Fixpoint uint_text (u : Decimal.uint) : pystr :=
  match u with
  | Decimal.Nil => []
  | Decimal.D0 u' => 48%N :: uint_text u'
  | Decimal.D1 u' => 49%N :: uint_text u'
  | Decimal.D2 u' => 50%N :: uint_text u'
  | Decimal.D3 u' => 51%N :: uint_text u'
  | Decimal.D4 u' => 52%N :: uint_text u'
  | Decimal.D5 u' => 53%N :: uint_text u'
  | Decimal.D6 u' => 54%N :: uint_text u'
  | Decimal.D7 u' => 55%N :: uint_text u'
  | Decimal.D8 u' => 56%N :: uint_text u'
  | Decimal.D9 u' => 57%N :: uint_text u'
  end.

(** [str(n)] *)
Definition text_of_int (n : N) : pystr := uint_text (N.to_uint n).

Definition read_year_month_column (cells : list pystr) : column :=
  match cells with
  | [] => ObjectColumn []
  | _ =>
    if forallb is_int_literal cells then Int64Column (map int_of_digits cells)
    else ObjectColumn cells
  end.

(** [s in column.values] for a [str] s: numpy compares s with the elements
    one by one, and a str equals no int64 and no NaN. *)
Definition str_in_values (s : pystr) (c : column) : bool :=
  match c with
  | Int64Column _ => false
  | ObjectColumn vals =>
    existsb (fun v => match v with [] => false | _ => str_eqb s v end) vals
  end.

(** What [to_csv] writes for the column. *)
Definition column_text (c : column) : list pystr :=
  match c with
  | Int64Column vals => map text_of_int vals
  | ObjectColumn vals => vals
  end.

(** [is_period_processed]. *)
Definition is_period_processed (l : ledger_file) (year_month : pystr) : bool :=
  match l with
  | LedgerRows cells => str_in_values year_month (read_year_month_column cells)
  | LedgerUnreadable => false
  | LedgerMissing => false
  end.

(** [mark_period_as_processed]: the ledger that was read is written back
    with one more line.  Writing is taken to succeed. *)
Definition mark_period_as_processed (l : ledger_file) (year_month : pystr) : ledger_file :=
  match l with
  | LedgerRows cells =>
    LedgerRows (column_text (read_year_month_column cells) ++ [year_month])
  | LedgerUnreadable => LedgerUnreadable
  | LedgerMissing => LedgerRows [year_month]
  end.

(* ================================================================== *)
(** ** Files, and the world outside *)

(** A row of a frame: the text of its cells by column; a column that is not
    listed holds NaN in that row. *)
Definition row := list (pystr * pystr).

(** A frame, and the CSV file it is written to and read back from. *)
Record table := { columns : list pystr; rows : list row }.

(** A file: a CSV table, or something [pd.read_csv] raises on. *)
Inductive file :=
| Csv (t : table)
| Unparsable.

(** The files by path, in the order of a listing, and the clock. *)
Record disk := { clock : nat; files : list (pystr * file) }.

Fixpoint lookup (p : pystr) (fs : list (pystr * file)) : option file :=
  match fs with
  | [] => None
  | (q, f) :: fs' => if str_eqb q p then Some f else lookup p fs'
  end.

(** Writing a file: in place when the path exists, as a new entry
    otherwise. *)
Fixpoint upsert (p : pystr) (f : file) (fs : list (pystr * file)) : list (pystr * file) :=
  match fs with
  | [] => [(p, f)]
  | (q, g) :: fs' => if str_eqb q p then (q, f) :: fs' else (q, g) :: upsert p f fs'
  end.

(** One interaction with the outside that leaves the files alone. *)
Definition tick (d : disk) : disk := {| clock := S (clock d); files := files d |}.

Definition write (p : pystr) (f : file) (d : disk) : disk :=
  {| clock := S (clock d); files := upsert p f (files d) |}.

Fixpoint mem (k : pystr) (l : list pystr) : bool :=
  match l with
  | [] => false
  | x :: l' => str_eqb x k || mem k l'
  end.

Fixpoint dedup (seen l : list pystr) : list pystr :=
  match l with
  | [] => []
  | x :: l' => if mem x seen then dedup seen l' else x :: dedup (x :: seen) l'
  end.

(** [pd.DataFrame(list of dicts)]: the columns are the keys in order of first
    appearance. *)
Definition frame (rs : list row) : table :=
  {| columns := dedup [] (List.concat (map (map fst) rs)); rows := rs |}.

(** [row[k]], as text. *)
Fixpoint cell (r : row) (k : pystr) : pystr :=
  match r with
  | [] => []
  | (k', v) :: r' => if str_eqb k' k then v else cell r' k
  end.

(** The result of [pd.read_csv(path)]. *)
Inductive read_result :=
| ReadOk (t : table)
| ReadFileNotFound
| ReadError.

(** A JSON object of the payments endpoint. *)
Definition record := list (pystr * value).

Fixpoint record_get (r : record) (k : pystr) : option value :=
  match r with
  | [] => None
  | (k', v) :: r' => if str_eqb k' k then Some v else record_get r' k
  end.

(** What [subprocess.run(["python", script, ...])] meets.  The scripts
    below are modelled from their check of the token on; a process that
    ends before or beside that (script missing, a failed import, an
    [os.makedirs] at module level that raises, a signal) is [Exits]. *)
Inductive launch :=
| Runs                 (* the interpreter executes the script *)
| Exits (code : Z)     (* the process ends with this status *)
| NoInterpreter        (* FileNotFoundError *)
| OSFailure.           (* any other exception of subprocess.run *)

(** What a GET through [requests] comes to, step by step. *)
Inductive reply (A : Type) :=
| RequestFailed     (* requests.get raised: there is no response object *)
| ErrorStatus       (* response.raise_for_status() raised *)
| NotJson           (* response.json() raised *)
| Json (data : A).

Arguments RequestFailed {A}.
Arguments ErrorStatus {A}.
Arguments NotJson {A}.

(** The JSON of get_user_actions_affecting_payment, by what the loop of
    [extract_payment_actions] does with it
    ([if actions_data and "actions" in actions_data: all_actions.extend(...)]):
    - [NoActionsKey]: the else branch is taken: the answer is falsy, or a
      dict, a list or a string without "actions";
    - [Actions l]: a dict whose "actions" is the list [l] of objects;
    - [Throws]: the test or [extend] raises TypeError: a dict whose
      "actions" is null, a number or a boolean; a number other than 0, or
      true; a list or a string that contains "actions".
    A dict whose "actions" is a string, a dict, or a list with an item that
    is no object is not modelled. *)
Inductive actions_json :=
| NoActionsKey
| Actions (l : list row)
| Throws.

(** The JSON of get_action_details: falsy, or an object with what
    [process_action_details] makes of it (None when it raises). *)
Inductive detail_json :=
| Falsy
| Truthy (processed : option row).

(** A value, or an exception that nothing around catches. *)
Inductive result (A : Type) :=
| Value (a : A)
| Exception.

Arguments Exception {A}.

(** The world outside.  [read_back] is what [pd.read_csv] makes of a file
    that [to_csv] wrote from a frame: pandas types every column anew (the
    cell 007 of a column of integers comes back as 7), so that the frame
    read is in general not the frame written; a cell of the frame read is
    the text of the value read.  How pandas chooses the types is not
    modelled: every statement holds for any [read_back]. *)
Record env := {
  token_set : bool;
  launch_at : nat -> launch;
  api_user_payments : nat -> reply (list record);
  api_user_actions : nat -> pystr -> reply actions_json;
  api_action_details : nat -> pystr -> reply detail_json;
  to_csv_ok : nat -> pystr -> bool;
  read_back : table -> table
}.

(** [pd.read_csv(path)]. *)
Definition read_csv (e : env) (d : disk) (path : pystr) : read_result :=
  match lookup path (files d) with
  | Some (Csv t) => ReadOk (read_back e t)
  | Some Unparsable => ReadError
  | None => ReadFileNotFound
  end.

Definition col_comment : pystr := Eval vm_compute in py "comment".
Definition col_year_month : pystr := Eval vm_compute in py "year_month".
Definition col_payment_uuid : pystr := Eval vm_compute in py "payment_uuid".
Definition col_action_id : pystr := Eval vm_compute in py "action_id".
Definition col_filepath : pystr := Eval vm_compute in py "filepath".

(* ================================================================== *)
(** ** extract_travelpayouts_payments.py: the script *)

Definition year_month_of (r : record) : option pystr :=
  extract_year_month_from_comment (record_get r col_comment).

Definition has_key (k : pystr) (r : record) : bool :=
  match record_get r k with Some _ => true | None => false end.

Definition tagged (ym : pystr) (r : record) : bool :=
  match year_month_of r with
  | Some ym' => str_eqb ym' ym
  | None => false
  end.

Definition notna (r : record) : bool :=
  match year_month_of r with Some _ => true | None => false end.

(** The row of [df] for a record once [df['year_month']] is assigned. *)
Definition with_year_month (ym : pystr) (r : record) : row :=
  map (fun kv => (fst kv, value_text (snd kv)))
      (filter (fun kv => negb (str_eqb (fst kv) col_year_month)) r)
  ++ [(col_year_month, ym)].

(** The rows of [df[df['year_month'] == year_month]]. *)
Definition period_rows (data : list record) (ym : pystr) : list row :=
  map (with_year_month ym) (filter (tagged ym) data).

Fixpoint omap (A B : Type) (f : A -> option B) (l : list A) : list B :=
  match l with
  | [] => []
  | x :: l' =>
    match f x with
    | Some y => y :: omap f l'
    | None => omap f l'
    end
  end.

(** [df['year_month'].unique()] after the filter. *)
Definition unique_year_months (data : list record) : list pystr :=
  dedup [] (omap year_month_of data).

(** The columns of [df]: the keys of all the records in order of first
    appearance, and year_month. *)
Definition data_columns (data : list record) : list pystr :=
  dedup [] (List.concat (map (map fst) data) ++ [col_year_month]).

(** The frame [df_year_month] that [to_csv] writes for a period. *)
Definition period_table (data : list record) (ym : pystr) : table :=
  {| columns := data_columns data; rows := period_rows data ym |}.

Definition metadata_row (ym path : pystr) (r : row) : row :=
  [(col_year_month, ym); (col_payment_uuid, cell r col_payment_uuid); (col_filepath, path)].

(** The loop over [unique_year_months]; [None] when an exception left it. *)
Fixpoint write_periods (e : env) (has_uuid : bool) (data : list record)
         (yms : list pystr) (d : disk) : option (list row) * disk :=
  match yms with
  | [] => (Some [], d)
  | ym :: rest =>
    let rs := period_rows data ym in
    let path := payments_csv_filepath ym in
    if to_csv_ok e (clock d) path then
      let d1 := write path (Csv (period_table data ym)) d in
      if has_uuid then
        match write_periods e has_uuid data rest d1 with
        | (Some meta, d2) => (Some (map (metadata_row ym path) rs ++ meta), d2)
        | (None, d2) => (None, d2)
        end
      else (None, d1)
    else (None, tick d)
  end.

Definition metadata_filepath : pystr := path_join TPO_API_DATA_PATH PAYMENTS_METADATA_FILENAME.

(** The script, top to bottom; the result is the exit status.  [exit()] and
    the end of the script both leave with status 0; every exception is caught
    and logged. *)
Definition payments_script (e : env) (d : disk) : Z * disk :=
  if negb (token_set e) then (0%Z, d)
  else
    match api_user_payments e (clock d) with
    | Json data =>
      let d0 := tick d in
      if negb (existsb (has_key col_comment) data) then (0%Z, d0)
      else
        match filter notna data with
        | [] => (0%Z, d0)
        | _ =>
          match write_periods e (existsb (has_key col_payment_uuid) data) data
                              (unique_year_months data) d0 with
          | (Some meta, d1) =>
            if to_csv_ok e (clock d1) metadata_filepath
            then (0%Z, write metadata_filepath (Csv (frame meta)) d1)
            else (0%Z, tick d1)
          | (None, d1) => (0%Z, d1)
          end
        end
    | _ => (0%Z, tick d)
    end.

(* ================================================================== *)
(** ** extract_travelpayouts_payment_actions.py *)

(** [get_payment_actions]: the data, or None after any exception. *)
Definition get_payment_actions (e : env) (k : nat) (payment_uuid : pystr)
  : option actions_json :=
  match api_user_actions e k payment_uuid with
  | Json data => Some data
  | _ => None
  end.

(** [save_actions_to_csv] on [{"actions": actions}]; the boolean is its
    result. *)
Definition save_actions_to_csv (e : env) (actions : list row) (path : pystr) (d : disk)
  : bool * disk :=
  if to_csv_ok e (clock d) path
  then (true, write path (Csv (frame actions)) d)
  else (false, tick d).

(** The loop over [payments_df.iterrows()]: [all_actions] and the clock, or
    None when an answer made the loop raise; nothing around it catches. *)
Fixpoint collect_actions (e : env) (k : nat) (rs : list row) : option (list row) * nat :=
  match rs with
  | [] => (Some [], k)
  | r :: rs' =>
    match get_payment_actions e k (cell r col_payment_uuid) with
    | Some Throws => (None, S k)
    | answer =>
      let found :=
        match answer with
        | Some (Actions l) => l
        | _ => []
        end in
      match collect_actions e (S k) rs' with
      | (Some more, k') => (Some (found ++ more), k')
      | (None, k') => (None, k')
      end
    end
  end.

(** [extract_payment_actions]: what it returns, or the exception that
    leaves it. *)
Definition extract_payment_actions (e : env) (d : disk) (payments_csv_path : pystr)
  : result bool * disk :=
  match read_csv e d payments_csv_path with
  | ReadFileNotFound => (Value false, d)
  | ReadError => (Value false, d)
  | ReadOk payments_df =>
    if negb (mem col_payment_uuid (columns payments_df))
       || negb (mem col_year_month (columns payments_df))
    then (Value false, d)
    else
      match search_payments_period (basename payments_csv_path) with
      | None => (Value false, d)
      | Some year_month =>
        match collect_actions e (clock d) (rows payments_df) with
        | (None, k) => (Exception, {| clock := k; files := files d |})
        | (Some all_actions, k) =>
          let d1 := {| clock := k; files := files d |} in
          match all_actions with
          | [] => (Value true, d1)
          | _ =>
            let '(_, d2) := save_actions_to_csv e all_actions
                                                (actions_csv_filepath year_month) d1 in
            (Value true, d2)
          end
        end
      end
  end.

(** The script run as a program on one path argument: what
    [extract_payment_actions] returns is dropped and the script ends; an
    exception that leaves it ends the process with status 1. *)
Definition payment_actions_script (e : env) (d : disk) (path : pystr) : Z * disk :=
  if negb (token_set e) then (0%Z, d)
  else
    match extract_payment_actions e d path with
    | (Value _, d') => (0%Z, d')
    | (Exception, d') => (1%Z, d')
    end.

(* ================================================================== *)
(** ** extract_travelpayouts_action_details.py *)

(** [get_action_details]: the data, or None.  Its first handler reads the
    local [response]; when [requests.get] itself raised, that name was never
    bound, and the UnboundLocalError leaves the function. *)
Definition get_action_details (e : env) (k : nat) (action_id : pystr)
  : result (option detail_json) :=
  match api_action_details e k action_id with
  | Json data => Value (Some data)
  | RequestFailed => Exception
  | ErrorStatus => Value None
  | NotJson => Value None
  end.

(** The loop over [actions_df.iterrows()]: [all_action_details] and the
    clock, or None when an exception ended the script. *)
Fixpoint collect_details (e : env) (k : nat) (rs : list row) : option (list row) * nat :=
  match rs with
  | [] => (Some [], k)
  | r :: rs' =>
    match get_action_details e k (cell r col_action_id) with
    | Exception => (None, S k)
    | Value (Some (Truthy (Some processed_details))) =>
      match collect_details e (S k) rs' with
      | (Some more, k') => (Some (processed_details :: more), k')
      | (None, k') => (None, k')
      end
    | Value _ => collect_details e (S k) rs'
    end
  end.

(** [save_actions_details_to_csv]. *)
Definition save_actions_details_to_csv (e : env) (all_details : list row) (path : pystr)
           (d : disk) : bool * disk :=
  match all_details with
  | [] => (false, d)
  | _ =>
    if to_csv_ok e (clock d) path
    then (true, write path (Csv (frame all_details)) d)
    else (false, tick d)
  end.

(** The script run as a program on one path argument. *)
Definition action_details_script (e : env) (d : disk) (actions_csv_path : pystr) : Z * disk :=
  if negb (token_set e) then (0%Z, d)
  else
    match read_csv e d actions_csv_path with
    | ReadFileNotFound => (0%Z, d)
    | ReadError => (0%Z, d)
    | ReadOk actions_df =>
      match rows actions_df with
      | [] => (0%Z, d)
      | _ =>
        if negb (mem col_action_id (columns actions_df)) then (0%Z, d)
        else
          match search_actions_period (basename actions_csv_path) with
          | None => (0%Z, d)
          | Some year_month =>
            match collect_details e (clock d) (rows actions_df) with
            | (None, k) => (1%Z, {| clock := k; files := files d |})
            | (Some all_action_details, k) =>
              let d1 := {| clock := k; files := files d |} in
              let '(_, d2) := save_actions_details_to_csv
                                e all_action_details (details_csv_filepath year_month) d1 in
              (0%Z, d2)
            end
          end
      end
    end.

(* ================================================================== *)
(** ** etl_pipeline.py: the orchestrator *)

Inductive script :=
| EXTRACT_PAYMENTS_SCRIPT
| EXTRACT_PAYMENT_ACTIONS_SCRIPT
| EXTRACT_ACTION_DETAILS_SCRIPT.

(** The process [python script_path *args]: its exit status.  The two
    downstream scripts check the token before they parse their argument. *)
Definition script_process (e : env) (s : script) (arg : option pystr) (d : disk) : Z * disk :=
  match s, arg with
  | EXTRACT_PAYMENTS_SCRIPT, _ => payments_script e d
  | EXTRACT_PAYMENT_ACTIONS_SCRIPT, Some p => payment_actions_script e d p
  | EXTRACT_ACTION_DETAILS_SCRIPT, Some p => action_details_script e d p
  | _, None => ((if token_set e then 2 else 0)%Z, d)
  end.

(** What a call of [run_script] comes to: a boolean, or an exception that
    neither of its handlers catches. *)
Inductive outcome :=
| Returned (b : bool)
| Raised.

(** [run_script]: [check=True] turns a non-zero status into
    CalledProcessError, hence False. *)
Definition run_script (e : env) (s : script) (arg : option pystr) (d : disk) : outcome * disk :=
  match launch_at e (clock d) with
  | Runs =>
    let '(code, d') := script_process e s arg (tick d) in
    (Returned (code =? 0)%Z, d')
  | Exits code => (Returned (code =? 0)%Z, tick d)
  | NoInterpreter => (Returned false, tick d)
  | OSFailure => (Raised, tick d)
  end.

Record world := { the_disk : disk; ledger : ledger_file }.

(** The log, reduced to the lines the properties speak of. *)
Inductive event :=
| PaymentsRun (r : outcome)
| Evaluated (year_month : pystr)
| Skipped (year_month : pystr)
| Started (year_month : pystr)
| StageRun (s : script) (year_month : pystr) (arg : pystr) (r : outcome)
| Marked (year_month : pystr)
| BadName (filename : pystr)
| Errored (path : pystr).

Definition payments_folder_path : pystr := path_join TPO_API_DATA_PATH PAYMENTS_SUBFOLDER.
Definition payments_folder_slash : pystr := Eval vm_compute in payments_folder_path ++ [slash].
Definition dot_csv : pystr := Eval vm_compute in py ".csv".
Definition payments_metadata : pystr := Eval vm_compute in py "payments_metadata".

(** [fnmatch(name, "tpo_payments_*.csv")] *)
Definition fnmatch_payments (name : pystr) : bool :=
  match strip_prefix tpo_payments_ name with
  | Some r => ends_with dot_csv r
  | None => false
  end.

(** Is [p] an entry of the payments folder that the pattern accepts? *)
Definition globbed (p : pystr) : bool :=
  match strip_prefix payments_folder_slash p with
  | Some name => negb (existsb (N.eqb slash) name) && fnmatch_payments name
  | None => false
  end.

(** [glob.glob(os.path.join(payments_folder_path, "tpo_payments_*.csv"))] *)
Definition glob_payments (fs : list (pystr * file)) : list pystr :=
  filter globbed (map fst fs).

(** [list.sort(key=...)]: stable, ascending. *)
Fixpoint insert_by (key : pystr -> pystr) (x : pystr) (l : list pystr) : list pystr :=
  match l with
  | [] => [x]
  | y :: l' => if str_leb (key x) (key y) then x :: l else y :: insert_by key x l'
  end.

Fixpoint sort_by (key : pystr -> pystr) (l : list pystr) : list pystr :=
  match l with
  | [] => []
  | x :: l' => insert_by key x (sort_by key l')
  end.

(** [payments_csv_files] after the comprehension and the sort. *)
Definition payments_csv_files (fs : list (pystr * file)) : list pystr :=
  sort_by extract_year_month_from_filename
          (filter (fun f => negb (contains payments_metadata f)) (glob_payments fs)).

(** Steps 4 to 6 of the loop body for one period. *)
Definition process_period (e : env) (w : world) (payments_csv_path year_month : pystr)
  : list event * world :=
  let actions_path := actions_csv_filepath year_month in
  match run_script e EXTRACT_PAYMENT_ACTIONS_SCRIPT (Some payments_csv_path) (the_disk w) with
  | (Returned true, d1) =>
    match run_script e EXTRACT_ACTION_DETAILS_SCRIPT (Some actions_path) d1 with
    | (Returned true, d2) =>
      ([StageRun EXTRACT_PAYMENT_ACTIONS_SCRIPT year_month payments_csv_path (Returned true);
        StageRun EXTRACT_ACTION_DETAILS_SCRIPT year_month actions_path (Returned true);
        Marked year_month],
       {| the_disk := d2; ledger := mark_period_as_processed (ledger w) year_month |})
    | (Returned false, d2) =>
      ([StageRun EXTRACT_PAYMENT_ACTIONS_SCRIPT year_month payments_csv_path (Returned true);
        StageRun EXTRACT_ACTION_DETAILS_SCRIPT year_month actions_path (Returned false)],
       {| the_disk := d2; ledger := ledger w |})
    | (Raised, d2) =>
      ([StageRun EXTRACT_PAYMENT_ACTIONS_SCRIPT year_month payments_csv_path (Returned true);
        StageRun EXTRACT_ACTION_DETAILS_SCRIPT year_month actions_path Raised;
        Errored payments_csv_path],
       {| the_disk := d2; ledger := ledger w |})
    end
  | (Returned false, d1) =>
    ([StageRun EXTRACT_PAYMENT_ACTIONS_SCRIPT year_month payments_csv_path (Returned false)],
     {| the_disk := d1; ledger := ledger w |})
  | (Raised, d1) =>
    ([StageRun EXTRACT_PAYMENT_ACTIONS_SCRIPT year_month payments_csv_path Raised;
      Errored payments_csv_path],
     {| the_disk := d1; ledger := ledger w |})
  end.

(** The body of the loop over [payments_csv_files]. *)
Definition process_file (e : env) (w : world) (payments_csv_path : pystr)
  : list event * world :=
  let filename := basename payments_csv_path in
  match search_payments_period filename with
  | Some year_month =>
    if str_geb year_month MIN_YEAR_MONTH && negb (is_period_processed (ledger w) year_month)
    then
      let '(log, w') := process_period e w payments_csv_path year_month in
      (Evaluated year_month :: Started year_month :: log, w')
    else ([Evaluated year_month; Skipped year_month], w)
  | None => ([BadName filename], w)
  end.

Fixpoint process_files (e : env) (w : world) (paths : list pystr) : list event * world :=
  match paths with
  | [] => ([], w)
  | p :: paths' =>
    let '(log, w1) := process_file e w p in
    let '(log', w2) := process_files e w1 paths' in
    (log ++ log', w2)
  end.

(** The [__main__] block. *)
Definition etl_pipeline (e : env) (w : world) : list event * world :=
  match run_script e EXTRACT_PAYMENTS_SCRIPT None (the_disk w) with
  | (Returned true, d1) =>
    let '(log, w') := process_files e {| the_disk := d1; ledger := ledger w |}
                                    (payments_csv_files (files d1)) in
    (PaymentsRun (Returned true) :: log, w')
  | (r, d1) => ([PaymentsRun r], {| the_disk := d1; ledger := ledger w |})
  end.

(* ================================================================== *)
(** ** Reading the log *)

(** The period an event belongs to. *)
Definition event_period (ev : event) : option pystr :=
  match ev with
  | Evaluated ym | Skipped ym | Started ym | Marked ym => Some ym
  | StageRun _ ym _ _ => Some ym
  | PaymentsRun _ | BadName _ | Errored _ => None
  end.

Definition evaluated (ev : event) : option pystr :=
  match ev with Evaluated ym => Some ym | _ => None end.


Definition marked (ev : event) : option pystr :=
  match ev with Marked ym => Some ym | _ => None end.

(** The period the loop reads off a path of [payments_csv_files]. *)
Definition period_of_path (p : pystr) : option pystr :=
  search_payments_period (basename p).

(** The candidate periods of a run: those the loop reads off the sorted
    files, in its order. *)
Definition candidate_periods (fs : list (pystr * file)) : list pystr :=
  omap period_of_path (payments_csv_files fs).

Definition str_le (a b : pystr) : Prop := str_leb a b = true.

(** The order of the sort. *)
Definition key_le (key : pystr -> pystr) (a b : pystr) : Prop := str_le (key a) (key b).

(** What stands right before a [Marked] event. *)
Definition both_stages_reported_success (before : list event) (ym : pystr) : Prop :=
  exists log0 path,
    before = log0 ++
      [StageRun EXTRACT_PAYMENT_ACTIONS_SCRIPT ym path (Returned true);
       StageRun EXTRACT_ACTION_DETAILS_SCRIPT ym (actions_csv_filepath ym) (Returned true)]
    /\ period_of_path path = Some ym.


(** The stages are run on the file of the period, and on the actions file
    named after it. *)
Definition stage_argument_fits (ev : event) : Prop :=
  match ev with
  | StageRun EXTRACT_PAYMENT_ACTIONS_SCRIPT ym arg _ => period_of_path arg = Some ym
  | StageRun EXTRACT_ACTION_DETAILS_SCRIPT ym arg _ => arg = actions_csv_filepath ym
  | StageRun EXTRACT_PAYMENTS_SCRIPT _ _ _ => False
  | _ => True
  end.

(** Nothing is started, run or marked for a period below the minimum. *)
Definition untouched (ym : pystr) (ev : event) : Prop :=
  ev <> Started ym /\ (forall s arg r, ev <> StageRun s ym arg r) /\ ev <> Marked ym.

(** The failures of the stages as the specification counts them: the stage
    cannot do its work and says so in its log.  The payments extractor has
    no token, gets no JSON from the API, or finds no comment in it. *)
Definition payments_extraction_fails (e : env) (d : disk) : Prop :=
  token_set e = false \/
  (forall data, api_user_payments e (clock d) <> Json data) \/
  (exists data, api_user_payments e (clock d) = Json data /\
                existsb (has_key col_comment) data = false).

(** The payment-actions extractor has no token, or
    [extract_payment_actions] returns False: the payments file cannot be
    read, lacks a column, or has no period in its name. *)
Definition actions_stage_fails (e : env) (d : disk) (path : pystr) : Prop :=
  token_set e = false \/ fst (extract_payment_actions e d path) = Value false.

(** The action-details extractor has no token, or leaves through one of
    its error exits: the actions file is not found or cannot be read, lacks
    the column action_id, or has no period in its name. *)
Definition details_stage_fails (e : env) (d : disk) (path : pystr) : Prop :=
  token_set e = false \/
  read_csv e d path = ReadFileNotFound \/
  read_csv e d path = ReadError \/
  (exists t, read_csv e d path = ReadOk t /\ mem col_action_id (columns t) = false) \/
  search_actions_period (basename path) = None.

(* ================================================================== *)
(** ** The properties as the specification words them *)

(** "A period must never be marked done while any downstream artifact is
    missing": at the end of a run every marked period has its two files. *)
Definition marked_periods_have_artifacts (e : env) (w : world) : Prop :=
  forall ym,
    In (Marked ym) (fst (etl_pipeline e w)) ->
    lookup (actions_csv_filepath ym) (files (the_disk (snd (etl_pipeline e w)))) <> None /\
    lookup (details_csv_filepath ym) (files (the_disk (snd (etl_pipeline e w)))) <> None.



(** No match of the comment pattern starts inside [pre] when [pre] is
    followed by [suf]. *)
Definition no_match_starts_in (pre suf : pystr) : Prop :=
  forall x y, pre = x ++ y -> y <> [] -> comment_here (y ++ suf) = None.

(** The call failed, or its answer carries no action. *)
Definition no_actions (r : reply actions_json) : Prop :=
  match r with
  | Json (Actions (_ :: _)) => False
  | Json Throws => False
  | _ => True
  end.

(* ================================================================== *)
(** ** Scenarios *)

Definition payment (uuid comment : string) : record :=
  [(col_payment_uuid, VStr (py uuid)); (col_comment, VStr (py comment))].

Definition empty_world : world :=
  {| the_disk := {| clock := 0; files := [] |}; ledger := LedgerMissing |}.

(** One payment of January 2024 with no action behind it. *)
Definition env_no_actions : env :=
  {| token_set := true;
     launch_at := fun _ => Runs;
     api_user_payments := fun _ => Json [payment "p1" "Выплата за январь 2024"];
     api_user_actions := fun _ _ => Json (Actions []);
     api_action_details := fun _ _ => ErrorStatus;
     to_csv_ok := fun _ _ => true;
     read_back := fun t => t |}.

(** One payment of January 2024 with one action behind it; the API rejects
    every request for the detail of an action. *)
Definition env_no_details : env :=
  {| token_set := true;
     launch_at := fun _ => Runs;
     api_user_payments := fun _ => Json [payment "p1" "Выплата за январь 2024"];
     api_user_actions := fun _ _ => Json (Actions [[(col_action_id, py "a1")]]);
     api_action_details := fun _ _ => ErrorStatus;
     to_csv_ok := fun _ _ => true;
     read_back := fun t => t |}.

(** Three months, met in the order March, January, February; every payment
    has one action, named after it, but February's, which has none. *)
Definition env_quiet_february : env :=
  {| token_set := true;
     launch_at := fun _ => Runs;
     api_user_payments := fun _ =>
       Json [payment "p3" "Выплата за март 2020";
             payment "p1" "Выплата за январь 2020";
             payment "p2" "Выплата за февраль 2020"];
     api_user_actions := fun _ uuid =>
       if str_eqb uuid (py "p2") then Json (Actions [])
       else Json (Actions [[(col_action_id, uuid)]]);
     api_action_details := fun _ id => Json (Truthy (Some [(col_action_id, id)]));
     to_csv_ok := fun _ _ => true;
     read_back := fun t => t |}.

(** Three months, met in the order March, January, February; every payment
    has one action, named after it; the connection drops when the detail of
    February's action is asked for. *)
Definition env_three_months : env :=
  {| token_set := true;
     launch_at := fun _ => Runs;
     api_user_payments := fun _ =>
       Json [payment "p3" "Выплата за март 2020";
             payment "p1" "Выплата за январь 2020";
             payment "p2" "Выплата за февраль 2020"];
     api_user_actions := fun _ uuid => Json (Actions [[(col_action_id, uuid)]]);
     api_action_details := fun _ id =>
       if str_eqb id (py "p2") then RequestFailed
       else Json (Truthy (Some [(col_action_id, id)]));
     to_csv_ok := fun _ _ => true;
     read_back := fun t => t |}.

(** A payment of December 2017 and one of January 2018. *)
Definition env_old_period : env :=
  {| token_set := true;
     launch_at := fun _ => Runs;
     api_user_payments := fun _ =>
       Json [payment "p0" "Выплата за декабрь 2017";
             payment "p1" "Выплата за январь 2018"];
     api_user_actions := fun _ uuid => Json (Actions [[(col_action_id, uuid)]]);
     api_action_details := fun _ id => Json (Truthy (Some [(col_action_id, id)]));
     to_csv_ok := fun _ _ => true;
     read_back := fun t => t |}.

(** The payments script cannot be started: python leaves with status 2. *)
Definition env_no_script : env :=
  {| token_set := true;
     launch_at := fun _ => Exits 2;
     api_user_payments := fun _ => RequestFailed;
     api_user_actions := fun _ _ => RequestFailed;
     api_action_details := fun _ _ => ErrorStatus;
     to_csv_ok := fun _ _ => true;
     read_back := fun t => t |}.

(** The remote API is down. *)
Definition env_api_down : env :=
  {| token_set := true;
     launch_at := fun _ => Runs;
     api_user_payments := fun _ => RequestFailed;
     api_user_actions := fun _ _ => RequestFailed;
     api_action_details := fun _ _ => ErrorStatus;
     to_csv_ok := fun _ _ => true;
     read_back := fun t => t |}.

Definition in_payments (name : string) : pystr := path_join payments_folder_path (py name).

Definition one_payment_table : table :=
  {| columns := [col_payment_uuid; col_comment; col_year_month];
     rows := [[(col_payment_uuid, py "p1"); (col_comment, py "за май 2024");
               (col_year_month, py "202405")]] |}.

(** A payments folder with a stray name, the index under the payments
    prefix, and one well-named file; a ledger that already has a line. *)
Definition world_odd_names : world :=
  {| the_disk :=
       {| clock := 0;
          files := [ (in_payments "tpo_payments_foo.csv", Csv one_payment_table);
                     (in_payments "tpo_payments_metadata.csv", Csv one_payment_table);
                     (in_payments "tpo_payments_202405_EXTRACTED.csv", Csv one_payment_table) ] |};
     ledger := LedgerRows [py "202404"] |}.

(** A payments file without the payment_uuid column, under a good name and
    under a name without period; an actions file likewise. *)
Definition table_without_ids : table :=
  {| columns := [col_comment; col_year_month];
     rows := [[(col_comment, py "за май 2024"); (col_year_month, py "202405")]] |}.

Definition one_action_table : table :=
  {| columns := [col_action_id]; rows := [[(col_action_id, py "a1")]] |}.

Definition disk_of_failures : disk :=
  {| clock := 0;
     files := [ (py "in/tpo_payments_202405_EXTRACTED.csv", Csv table_without_ids);
                (py "in/payments.csv", Csv one_payment_table);
                (py "in/tpo_payment_actions_202405_EXTRACTED.csv", Csv table_without_ids);
                (py "in/actions.csv", Csv one_action_table) ] |}.

(** The state of the second scenario once the payments script has run, and
    at the start of February's turn. *)
Definition world_after_payments : world :=
  {| the_disk := snd (run_script env_three_months EXTRACT_PAYMENTS_SCRIPT None
                                 (the_disk empty_world));
     ledger := ledger empty_world |}.

Definition world_before_february : world :=
  snd (process_file env_three_months world_after_payments
                    (payments_csv_filepath (py "202001"))).

(** A run in which February's details script ends with status 1: the
    connection drops inside [get_action_details]. *)
Definition partial_failure_example : Prop :=
  In (StageRun EXTRACT_ACTION_DETAILS_SCRIPT (py "202002")
               (actions_csv_filepath (py "202002")) (Returned false))
     (fst (etl_pipeline env_three_months empty_world)) /\
  ledger (snd (etl_pipeline env_three_months empty_world))
  = LedgerRows [py "202001"; py "202003"] /\
  omap evaluated (fst (etl_pipeline env_three_months empty_world))
  = [py "202001"; py "202002"; py "202003"].

(** The state of the run with a quiet February at the start of February's
    turn. *)
Definition world_before_quiet_february : world :=
  snd (process_file env_quiet_february
                    {| the_disk := snd (run_script env_quiet_february EXTRACT_PAYMENTS_SCRIPT None
                                                   (the_disk empty_world));
                       ledger := ledger empty_world |}
                    (payments_csv_filepath (py "202001"))).

(** What the code does in that run: February has no actions file, its
    details stage is reported as a success, and February is on the ledger. *)
Definition quiet_february_example : Prop :=
  lookup (actions_csv_filepath (py "202002"))
         (files (the_disk (snd (etl_pipeline env_quiet_february empty_world)))) = None /\
  In (StageRun EXTRACT_ACTION_DETAILS_SCRIPT (py "202002")
               (actions_csv_filepath (py "202002")) (Returned true))
     (fst (etl_pipeline env_quiet_february empty_world)) /\
  ledger (snd (etl_pipeline env_quiet_february empty_world))
  = LedgerRows [py "202001"; py "202002"; py "202003"].

(** The API is down and the one payments file, left by an earlier run,
    cannot be parsed. *)
Definition world_unreadable_file : world :=
  {| the_disk := {| clock := 0;
                    files := [(payments_csv_filepath (py "202001"), Unparsable)] |};
     ledger := LedgerMissing |}.

(** What the code does in that run: the payments extractor fails, the
    actions stage cannot read its input, the details stage finds no input,
    each is taken for a success, and the period is on the ledger. *)
Definition unreadable_file_example : Prop :=
  actions_stage_fails
    env_api_down
    (tick (snd (run_script env_api_down EXTRACT_PAYMENTS_SCRIPT None
                           (the_disk world_unreadable_file))))
    (payments_csv_filepath (py "202001")) /\
  fst (etl_pipeline env_api_down world_unreadable_file)
  = [PaymentsRun (Returned true);
     Evaluated (py "202001"); Started (py "202001");
     StageRun EXTRACT_PAYMENT_ACTIONS_SCRIPT (py "202001")
              (payments_csv_filepath (py "202001")) (Returned true);
     StageRun EXTRACT_ACTION_DETAILS_SCRIPT (py "202001")
              (actions_csv_filepath (py "202001")) (Returned true);
     Marked (py "202001")] /\
  ledger (snd (etl_pipeline env_api_down world_unreadable_file))
  = LedgerRows [py "202001"].

(** The turn of [p] is given up and the loop goes on with [rest]. *)
Definition turn_abandoned (e : env) (w : world) (p : pystr) (rest : list pystr) : Prop :=
  ledger (snd (process_file e w p)) = ledger w /\
  (forall ym, ~ In (Marked ym) (fst (process_file e w p))) /\
  process_files e w (p :: rest)
  = (fst (process_file e w p) ++ fst (process_files e (snd (process_file e w p)) rest),
     snd (process_files e (snd (process_file e w p)) rest)) /\
  omap evaluated (fst (process_files e (snd (process_file e w p)) rest))
  = omap period_of_path rest.

(** The disk of the first scenario once the payments script has run. *)
Definition disk_january : disk :=
  snd (payments_script env_no_actions (the_disk empty_world)).



From Stdlib Require DecimalFacts DecimalN.

(* ================================================================== *)
(** ** Further notions: the ledger *)

(** The decimal numeral a text of digits spells. *)
Definition uint_cons (c : N) (u : Decimal.uint) : Decimal.uint :=
  match (c - 48)%N with
  | 0%N => Decimal.D0 u
  | 1%N => Decimal.D1 u
  | 2%N => Decimal.D2 u
  | 3%N => Decimal.D3 u
  | 4%N => Decimal.D4 u
  | 5%N => Decimal.D5 u
  | 6%N => Decimal.D6 u
  | 7%N => Decimal.D7 u
  | 8%N => Decimal.D8 u
  | _ => Decimal.D9 u
  end.

Fixpoint uint_of_text (s : pystr) : Decimal.uint :=
  match s with
  | [] => Decimal.Nil
  | c :: s' => uint_cons c (uint_of_text s')
  end.

(** The text does not begin with the digit 0. *)
Definition no_leading_zero (s : pystr) : bool :=
  match s with
  | c :: _ => negb (c =? 48)%N
  | [] => true
  end.

(** A ledger whose lines, if any, are all integer literals: what the
    orchestrator leaves behind, since it marks periods of six digits. *)
Definition numeric_ledger (l : ledger_file) : Prop :=
  match l with
  | LedgerRows cells => forallb is_int_literal cells = true
  | _ => True
  end.

(** The periods for which a turn got as far as "Начинаем обработку". *)
Definition started (ev : event) : option pystr :=
  match ev with Started ym => Some ym | _ => None end.

(* ================================================================== *)
(** ** Further notions: the downstream extractors *)


(** The rows with the time of their call, the first being made at [k]. *)
Definition timed (k : nat) (rs : list row) : list (nat * row) :=
  combine (seq k (List.length rs)) rs.

(** The connection drops at the call made for some row. *)
Definition connection_drops (e : env) (k : nat) (rs : list row) : Prop :=
  exists i r, nth_error rs i = Some r /\
              api_action_details e (k + i) (cell r col_action_id) = RequestFailed.

(** What one turn of the loop of the actions extractor adds: the actions
    of the answer to the call made at time [k] for the payment of the row,
    nothing when the call fails or its answer has no "actions". *)
Definition obtained_actions (e : env) (k : nat) (r : row) : list row :=
  match api_user_actions e k (cell r col_payment_uuid) with
  | Json (Actions l) => l
  | _ => []
  end.

(** The answer to the call made for some row makes the loop raise. *)
Definition answer_throws (e : env) (k : nat) (rs : list row) : Prop :=
  exists i r, nth_error rs i = Some r /\
              api_user_actions e (k + i) (cell r col_payment_uuid) = Json Throws.

(** No answer of the actions endpoint makes the loop raise. *)
Definition never_throws (e : env) : Prop :=
  forall k uuid, api_user_actions e k uuid <> Json Throws.



(* ================================================================== *)
(** ** Further notions: names and comments *)

Definition payments_ : pystr := Eval vm_compute in py "payments_".
Definition etadata : pystr := Eval vm_compute in py "etadata".

(** A period identifier as the extractors form it: six digits 0-9. *)
Definition six_digits (ym : pystr) : Prop :=
  List.length ym = 6%nat /\ forallb is_ascii_digit ym = true.

(** A comment that names a period: "за", a month of the pattern, white
    space, four digits; [pre] and [post] stand around. *)
Definition names_period (pre z m sp y post mm : pystr) : Prop :=
  lower z = za_ /\ In (lower m, mm) month_dict /\
  forallb is_space sp = true /\
  List.length y = 4%nat /\ forallb is_digit y = true /\
  no_match_starts_in pre (z ++ m ++ sp ++ y ++ post).

(* ================================================================== *)
(** ** Further notions: the payments extractor *)

(** How many rows the file of a period holds. *)
Definition period_size (data : list record) (ym : pystr) : nat :=
  List.length (period_rows data ym).

(** The rows of payments_metadata.csv after a run in which every write
    succeeded: period by period, one row per payment. *)
Definition metadata_rows (data : list record) : list row :=
  List.concat
    (map (fun ym => map (metadata_row ym (payments_csv_filepath ym)) (period_rows data ym))
         (unique_year_months data)).

(** Every write of the run succeeds. *)
Definition writes_succeed (e : env) : Prop :=
  forall k p, to_csv_ok e k p = true.

(** The payments of [env_three_months]. *)
Definition three_months : list record :=
  [payment "p3" "Выплата за март 2020";
   payment "p1" "Выплата за январь 2020";
   payment "p2" "Выплата за февраль 2020"].

(* ================================================================== *)
(** ** Further notions: runs of the orchestrator *)

(** Every [subprocess.run] of the run starts the interpreter on the script,
    and the script gets past its set-up at module level. *)
Definition always_launches (e : env) : Prop := forall k, launch_at e k = Runs.

(** No request for the detail of an action fails below HTTP. *)
Definition never_drops (e : env) : Prop :=
  forall k id, api_action_details e k id <> RequestFailed.

Definition has_period (p : pystr) : bool :=
  match period_of_path p with Some _ => true | None => false end.

(** The files of the loop before they are sorted. *)
Definition listed_payments (fs : list (pystr * file)) : list pystr :=
  filter (fun f => negb (contains payments_metadata f)) (glob_payments fs).

(** A server that is down for good, with no token on this side either. *)
Definition env_nothing_works : env :=
  {| token_set := false;
     launch_at := fun _ => Runs;
     api_user_payments := fun _ => RequestFailed;
     api_user_actions := fun _ _ => RequestFailed;
     api_action_details := fun _ _ => ErrorStatus;
     to_csv_ok := fun _ _ => false;
     read_back := fun t => t |}.

(* ================================================================== *)
(** ** extract_travelpayouts_action_details.py: [process_action_details] *)

(** A value of [response.json()].  Of a number the function can only test
    whether it is zero; its text is carried along.  An object is the dict
    after parsing: its keys are pairwise different and keep their order. *)
#[warnings="-register-all"]
Inductive json :=
| JNull
| JBool (b : bool)
| JNum (zero : bool) (text : pystr)
| JStr (s : pystr)
| JArr (items : list json)
| JObj (fields : list (pystr * json)).

Module Keys.
Definition action_id : pystr := Eval vm_compute in py "action_id".
Definition campaign_id : pystr := Eval vm_compute in py "campaign_id".
Definition action_state : pystr := Eval vm_compute in py "action_state".
Definition sub_id : pystr := Eval vm_compute in py "sub_id".
Definition price : pystr := Eval vm_compute in py "price".
Definition profit : pystr := Eval vm_compute in py "profit".
Definition booked_at : pystr := Eval vm_compute in py "booked_at".
Definition profit_diff : pystr := Eval vm_compute in py "profit_diff".
Definition updated_at : pystr := Eval vm_compute in py "updated_at".
Definition history : pystr := Eval vm_compute in py "history".
Definition history_action_state : pystr := Eval vm_compute in py "history_action_state".
Definition history_price : pystr := Eval vm_compute in py "history_price".
Definition history_profit : pystr := Eval vm_compute in py "history_profit".
Definition history_profit_diff : pystr := Eval vm_compute in py "history_profit_diff".
Definition history_updated_at : pystr := Eval vm_compute in py "history_updated_at".
Definition metadata : pystr := Eval vm_compute in py "metadata".
Definition name : pystr := Eval vm_compute in py "name".
Definition value : pystr := Eval vm_compute in py "value".
Definition metadata_ : pystr := Eval vm_compute in py "metadata_".
End Keys.

(** [d[k]] where the key is there. *)
Fixpoint jfind (o : list (pystr * json)) (k : pystr) : option json :=
  match o with
  | [] => None
  | (k', v) :: o' => if str_eqb k' k then Some v else jfind o' k
  end.

(** [d.get(k)]: Python's None is JSON's null. *)
Definition jget (o : list (pystr * json)) (k : pystr) : json :=
  match jfind o k with Some v => v | None => JNull end.

(** [bool(x)]. *)
Definition truthy (j : json) : bool :=
  match j with
  | JNull => false
  | JBool b => b
  | JNum zero _ => negb zero
  | JStr [] => false
  | JStr (_ :: _) => true
  | JArr [] => false
  | JArr (_ :: _) => true
  | JObj [] => false
  | JObj (_ :: _) => true
  end.

(** [data[k] = v]: in place when the key is there, at the end when new. *)
Fixpoint assign (data : list (pystr * json)) (k : pystr) (v : json)
  : list (pystr * json) :=
  match data with
  | [] => [(k, v)]
  | (k', v') :: data' =>
    if str_eqb k' k then (k', v) :: data' else (k', v') :: assign data' k v
  end.

Definition assign_all (data items : list (pystr * json)) : list (pystr * json) :=
  fold_left (fun d kv => assign d (fst kv) (snd kv)) items data.

(** [x[0]] of a truthy value; None when it raises: a dict has no key 0, a
    number and a boolean have no items. *)
Definition first_item (j : json) : option json :=
  match j with
  | JArr (x :: _) => Some x
  | JStr (c :: _) => Some (JStr [c])
  | _ => None
  end.

(** The basic fields, in the order in which they are assigned. *)
Definition main_fields : list pystr :=
  [Keys.action_id; Keys.campaign_id; Keys.action_state; Keys.sub_id;
   Keys.price; Keys.profit; Keys.booked_at].

(** The fields taken from the first entry of the history: the key of
    [data] and the key of the entry. *)
Definition history_fields : list (pystr * pystr) :=
  [(Keys.history_action_state, Keys.action_state);
   (Keys.history_price, Keys.price);
   (Keys.history_profit, Keys.profit);
   (Keys.history_profit_diff, Keys.profit_diff);
   (Keys.history_updated_at, Keys.updated_at)].

(** The block on history: the five assignments, or None when an exception
    leaves it ([.get] on something that is no dict, or a failing [[0]]). *)
Definition history_part (o : list (pystr * json)) : option (list (pystr * json)) :=
  let absent := map (fun kk => (fst kk, JNull)) history_fields in
  match jfind o Keys.history with
  | Some h =>
    if truthy h then
      match first_item h with
      | Some (JObj entry) => Some (map (fun kk => (fst kk, jget entry (snd kk))) history_fields)
      | _ => None
      end
    else Some absent
  | None => Some absent
  end.

(** [for item in x]; None when [x] is not iterable.  A string gives its
    characters, a dict its keys. *)
Definition iterate (j : json) : option (list json) :=
  match j with
  | JArr l => Some l
  | JStr s => Some (map (fun c => JStr [c]) s)
  | JObj f => Some (map (fun kv => JStr (fst kv)) f)
  | _ => None
  end.

(** [item['name']: item['value']] for one item of the comprehension. *)
Inductive pair_result :=
| Pair (name : pystr) (value : json)
| Raises           (* no dict, a missing key, or a name that cannot be hashed *)
| OtherName.       (* a name that is null, a boolean or a number *)

Definition item_pair (item : json) : pair_result :=
  match item with
  | JObj f =>
    match jfind f Keys.name, jfind f Keys.value with
    | Some n, Some v =>
      match n with
      | JStr s => Pair s v
      | JArr _ | JObj _ => Raises
      | JNull | JBool _ | JNum _ _ => OtherName
      end
    | _, _ => Raises
    end
  | _ => Raises
  end.

(** What the comprehension comes to.  Names that are no strings but can be
    hashed (null, booleans, numbers) are keys by Python's equality of
    numbers and are formatted by [str]; that part is not modelled. *)
Inductive gathered :=
| Gathered (pairs : list (pystr * json))
| Failed
| Unmodelled.

Fixpoint gather (items : list json) : gathered :=
  match items with
  | [] => Gathered []
  | item :: rest =>
    match item_pair item, gather rest with
    | Raises, _ => Failed
    | _, Failed => Failed
    | OtherName, _ => Unmodelled
    | _, Unmodelled => Unmodelled
    | Pair n v, Gathered l => Gathered ((n, v) :: l)
    end
  end.

(** The block on metadata: the items of [metadata_dict] in its order. *)
Definition metadata_part (o : list (pystr * json)) : gathered :=
  match jfind o Keys.metadata with
  | Some m =>
    if truthy m then
      match iterate m with
      | Some items =>
        match gather items with
        | Gathered pairs => Gathered (assign_all [] pairs)
        | other => other
        end
      | None => Failed
      end
    else Gathered []
  | None => Gathered []
  end.

Inductive processed :=
| Data (data : list (pystr * json))
| NoData        (* the function returns None *)
| Beyond.       (* a metadata name outside the model *)

(** [process_action_details]. *)
Definition process_action_details (action_details : json) : processed :=
  match action_details with
  | JNull => NoData
  | JObj o =>
    let data := assign_all [] (map (fun k => (k, jget o k)) main_fields) in
    match history_part o with
    | None => NoData
    | Some hist =>
      let data := assign_all data hist in
      match metadata_part o with
      | Gathered metadata_dict =>
        Data (assign_all data
                (map (fun kv => (Keys.metadata_ ++ fst kv, snd kv)) metadata_dict))
      | Failed => NoData
      | Unmodelled => Beyond
      end
    end
  | _ => NoData
  end.

(** The twelve keys every result starts with. *)
Definition fixed_keys : list pystr := main_fields ++ map fst history_fields.

(** The last value given to a name. *)
Definition last_value (pairs : list (pystr * json)) (n : pystr) : option json :=
  jfind (rev pairs) n.

(** The history is there, is truthy, and is no list that starts with an
    object. *)
Definition history_malformed (o : list (pystr * json)) : Prop :=
  exists h, jfind o Keys.history = Some h /\ truthy h = true /\
            forall entry rest, h <> JArr (JObj entry :: rest).

(** The metadata is there, is truthy, and is no list, or a list with an
    item that is no object with a name that can be hashed and a value. *)
Definition metadata_malformed (o : list (pystr * json)) : Prop :=
  exists m, jfind o Keys.metadata = Some m /\ truthy m = true /\
            forall items, m = JArr items -> Exists (fun it => item_pair it = Raises) items.

(** Every name of the metadata is a string. *)
Definition names_are_strings (o : list (pystr * json)) : Prop :=
  forall items, jfind o Keys.metadata = Some (JArr items) ->
                Forall (fun it => item_pair it <> OtherName) items.

(** An action with a history of two entries and a metadata name given
    twice. *)
Definition sample_items : list json :=
  [JObj [(Keys.name, JStr (py "city")); (Keys.value, JStr (py "Rome"))];
   JObj [(Keys.name, JStr (py "nights")); (Keys.value, JNum false (py "3"))];
   JObj [(Keys.name, JStr (py "city")); (Keys.value, JStr (py "Oslo"))]].

Definition sample_pairs : list (pystr * json) :=
  [(py "city", JStr (py "Rome"));
   (py "nights", JNum false (py "3"));
   (py "city", JStr (py "Oslo"))].

Definition sample_fields : list (pystr * json) :=
  [(Keys.action_id, JStr (py "a1"));
   (Keys.price, JNum false (py "10.5"));
   (Keys.history,
    JArr [JObj [(Keys.action_state, JStr (py "paid"))];
          JObj [(Keys.action_state, JStr (py "processing"))]]);
   (Keys.metadata, JArr sample_items)].

Definition sample_action : json := JObj sample_fields.

Definition sample_data : list (pystr * json) := Eval vm_compute in
  match process_action_details sample_action with
  | Data d => d
  | _ => []
  end.
(* ================================================================== *)
(** ** Facts about strings *)

Lemma str_eqb_eq (a b : pystr) : str_eqb a b = true <-> a = b.
Proof.
  revert b; induction a as [|x a IH]; intros [|y b]; simpl; split; intro H;
    try reflexivity; try discriminate.
  - apply andb_true_iff in H as [Hx Hr]. apply N.eqb_eq in Hx.
    apply IH in Hr. now subst.
  - injection H as -> ->. rewrite N.eqb_refl. now apply IH.
Qed.

Lemma str_eqb_refl (a : pystr) : str_eqb a a = true.
Proof. now apply str_eqb_eq. Qed.

Lemma str_leb_refl (a : pystr) : str_leb a a = true.
Proof.
  induction a as [|x a IH]; simpl; [reflexivity|].
  rewrite N.ltb_irrefl, N.eqb_refl. exact IH.
Qed.

Lemma str_leb_total (a b : pystr) : str_leb a b = false -> str_leb b a = true.
Proof.
  revert b; induction a as [|x a IH]; intros [|y b]; simpl; try discriminate;
    try reflexivity.
  destruct (N.ltb_spec x y), (N.eqb_spec x y), (N.ltb_spec y x), (N.eqb_spec y x);
    try discriminate; try reflexivity; try lia; auto.
Qed.

Lemma str_leb_trans (a b c : pystr) :
  str_leb a b = true -> str_leb b c = true -> str_leb a c = true.
Proof.
  revert b c; induction a as [|x a IH]; intros [|y b] [|z c]; simpl;
    try discriminate; try reflexivity.
  destruct (N.ltb_spec x y), (N.eqb_spec x y), (N.ltb_spec y z), (N.eqb_spec y z),
           (N.ltb_spec x z), (N.eqb_spec x z);
    try discriminate; try reflexivity; try lia; eauto.
Qed.


Lemma strip_prefix_some (p s r : pystr) : strip_prefix p s = Some r -> s = p ++ r.
Proof.
  revert s; induction p as [|x p IH]; intros s H; simpl in *.
  - now injection H as ->.
  - destruct s as [|y s]; [discriminate|].
    destruct (N.eqb_spec x y); [|discriminate].
    subst. f_equal. now apply IH.
Qed.

Lemma strip_prefix_app (p r : pystr) : strip_prefix p (p ++ r) = Some r.
Proof.
  induction p as [|x p IH]; simpl; [reflexivity|].
  now rewrite N.eqb_refl.
Qed.

Lemma take_digits_some (n : nat) (s ds r : pystr) :
  take_digits n s = Some (ds, r) ->
  s = ds ++ r /\ List.length ds = n /\ forallb is_digit ds = true.
Proof.
  revert s ds r; induction n as [|n IH]; intros s ds r H; simpl in *.
  - injection H as <- <-. auto.
  - destruct s as [|c s]; [discriminate|].
    destruct (is_digit c) eqn:Hc; [|discriminate].
    destruct (take_digits n s) as [[ds' r']|] eqn:E; [|discriminate].
    injection H as <- <-. destruct (IH _ _ _ E) as (-> & <- & Hd).
    simpl. rewrite Hc, Hd. auto.
Qed.

Lemma take_digits_app (ds r : pystr) :
  forallb is_digit ds = true -> take_digits (List.length ds) (ds ++ r) = Some (ds, r).
Proof.
  induction ds as [|c ds IH]; simpl; intro H; [reflexivity|].
  apply andb_true_iff in H as [Hc Hd]. now rewrite Hc, IH.
Qed.

(** [re.search] finds a match exactly where the pattern matches. *)
Lemma re_search_some (A : Type) (here : pystr -> option A) (s : pystr) (a : A) :
  re_search here s = Some a -> exists pre suf, s = pre ++ suf /\ here suf = Some a.
Proof.
  induction s as [|c s IH]; simpl; intro H.
  - destruct (here []) eqn:E; [|discriminate]. injection H as ->.
    now exists [], [].
  - destruct (here (c :: s)) eqn:E.
    + injection H as ->. now exists [], (c :: s).
    + destruct (IH H) as (pre & suf & -> & Hs). now exists (c :: pre), suf.
Qed.

(** The leftmost match wins. *)
Lemma re_search_leftmost (A : Type) (here : pystr -> option A) (pre suf : pystr) (a : A) :
  (forall x y, pre = x ++ y -> y <> [] -> here (y ++ suf) = None) ->
  here suf = Some a ->
  re_search here (pre ++ suf) = Some a.
Proof.
  induction pre as [|c pre IH]; simpl; intros Hno Hs.
  - destruct suf; simpl; now rewrite Hs.
  - assert (Hc : here (c :: pre ++ suf) = None)
      by (apply (Hno [] (c :: pre) eq_refl); discriminate).
    rewrite Hc. apply IH; [|exact Hs].
    intros x y -> Hy. apply (Hno (c :: x) y); [reflexivity|exact Hy].
Qed.

Lemma after_last_slash_none (cur s : pystr) :
  existsb (N.eqb slash) s = false -> after_last_slash cur s = cur.
Proof.
  revert cur; induction s as [|c s IH]; cbn [existsb after_last_slash];
    intros cur H; [reflexivity|].
  apply orb_false_iff in H as [Hc Hs].
  rewrite N.eqb_sym in Hc. rewrite Hc. now apply IH.
Qed.

(* ================================================================== *)
(** ** Facts about the sort *)

Section Sort.
Variable key : pystr -> pystr.

Lemma insert_by_perm (x : pystr) (l : list pystr) :
  Permutation (insert_by key x l) (x :: l).
Proof.
  induction l as [|y l IH]; simpl; [reflexivity|].
  destruct (str_leb (key x) (key y)); [reflexivity|].
  rewrite IH. apply perm_swap.
Qed.

Lemma sort_by_perm (l : list pystr) : Permutation (sort_by key l) l.
Proof.
  induction l as [|x l IH]; simpl; [reflexivity|].
  rewrite insert_by_perm. now constructor.
Qed.

Lemma insert_by_sorted (x : pystr) (l : list pystr) :
  StronglySorted (key_le key) l -> StronglySorted (key_le key) (insert_by key x l).
Proof.
  induction 1 as [|y l Hs IH Hall]; simpl.
  - constructor; constructor.
  - destruct (str_leb (key x) (key y)) eqn:E.
    + constructor; [now constructor|].
      constructor; [exact E|].
      eapply Forall_impl; [|exact Hall].
      intros z Hz. unfold key_le, str_le in *. eapply str_leb_trans; eauto.
    + constructor; [exact IH|].
      eapply Permutation_Forall; [symmetry; apply insert_by_perm|].
      constructor; [|exact Hall].
      now apply str_leb_total.
Qed.

Lemma sort_by_sorted (l : list pystr) : StronglySorted (key_le key) (sort_by key l).
Proof.
  induction l as [|x l IH]; simpl; [constructor|].
  now apply insert_by_sorted.
Qed.

(** Stability: entries of equal key keep their order. *)
Lemma insert_by_filter (k : pystr) (x : pystr) (l : list pystr) :
  StronglySorted (key_le key) l ->
  filter (fun p => str_eqb (key p) k) (insert_by key x l)
  = filter (fun p => str_eqb (key p) k) (x :: l).
Proof.
  induction 1 as [|y l Hs IH Hall]; [reflexivity|].
  cbn [insert_by].
  destruct (str_leb (key x) (key y)) eqn:E; [reflexivity|].
  cbn [filter] in *. rewrite IH.
  destruct (str_eqb (key x) k) eqn:Ex, (str_eqb (key y) k) eqn:Ey; try reflexivity.
  apply str_eqb_eq in Ex, Ey. rewrite Ex, Ey, str_leb_refl in E. discriminate.
Qed.

Lemma sort_by_stable (k : pystr) (l : list pystr) :
  filter (fun p => str_eqb (key p) k) (sort_by key l)
  = filter (fun p => str_eqb (key p) k) l.
Proof.
  induction l as [|x l IH]; [reflexivity|].
  cbn [sort_by]. rewrite insert_by_filter by apply sort_by_sorted.
  cbn [filter]. now rewrite IH.
Qed.
End Sort.

(* ================================================================== *)
(** ** Facts about the candidate files *)

Lemma omap_app (A B : Type) (f : A -> option B) (l1 l2 : list A) :
  omap f (l1 ++ l2) = omap f l1 ++ omap f l2.
Proof.
  induction l1 as [|x l1 IH]; simpl; [reflexivity|].
  destruct (f x); simpl; now rewrite IH.
Qed.

Lemma omap_in (A B : Type) (f : A -> option B) (l : list A) (y : B) :
  In y (omap f l) <-> exists x, In x l /\ f x = Some y.
Proof.
  induction l as [|x l IH]; simpl.
  - split; [contradiction|]. now intros (? & [] & _).
  - destruct (f x) eqn:E; simpl; rewrite IH; split.
    + intros [->|(x' & Hx & Hf)]; eauto.
    + intros (x' & [->|Hx] & Hf); [left; congruence|eauto].
    + intros (x' & Hx & Hf); eauto.
    + intros (x' & [->|Hx] & Hf); [congruence|eauto].
Qed.


(** A globbed path is the payments folder followed by a plain name. *)
Lemma globbed_name (p : pystr) :
  globbed p = true ->
  exists name, p = payments_folder_slash ++ name /\ existsb (N.eqb slash) name = false.
Proof.
  unfold globbed. intro H.
  destruct (strip_prefix payments_folder_slash p) as [name|] eqn:E; [|discriminate].
  apply strip_prefix_some in E. apply andb_true_iff in H as [Hs _].
  exists name. split; [exact E|]. now apply negb_true_iff.
Qed.

Lemma search_in_payments_folder (name : pystr) :
  search_payments_period (payments_folder_slash ++ name) = search_payments_period name.
Proof. reflexivity. Qed.

Lemma basename_in_payments_folder (name : pystr) :
  existsb (N.eqb slash) name = false -> basename (payments_folder_slash ++ name) = name.
Proof.
  intro H. change (basename (payments_folder_slash ++ name)) with (after_last_slash name name).
  now apply after_last_slash_none.
Qed.

(** On a globbed path the sort key is the period the loop reads, or the
    empty string when the name carries none. *)
Lemma key_of_globbed (p : pystr) :
  globbed p = true ->
  extract_year_month_from_filename p
  = match period_of_path p with Some ym => ym | None => [] end.
Proof.
  intro H. destruct (globbed_name p H) as (name & -> & Hn).
  unfold extract_year_month_from_filename, period_of_path.
  now rewrite search_in_payments_folder, basename_in_payments_folder.
Qed.

Lemma payments_csv_files_perm (fs : list (pystr * file)) :
  Permutation (payments_csv_files fs)
              (filter (fun f => negb (contains payments_metadata f)) (glob_payments fs)).
Proof. apply sort_by_perm. Qed.

Lemma payments_csv_files_in (fs : list (pystr * file)) (p : pystr) :
  In p (payments_csv_files fs) ->
  globbed p = true /\ contains payments_metadata p = false /\ In p (map fst fs).
Proof.
  intro H. apply (Permutation_in _ (payments_csv_files_perm fs)) in H.
  apply filter_In in H as [H Hm]. apply filter_In in H as [H Hg].
  repeat split; auto. now apply negb_true_iff.
Qed.

(* ================================================================== *)
(** ** Facts about the extractors *)

Lemma payments_script_status (e : env) (d : disk) : fst (payments_script e d) = 0%Z.
Proof.
  unfold payments_script.
  destruct (negb (token_set e)); [reflexivity|].
  destruct (api_user_payments e (clock d)) as [| | |data]; try reflexivity.
  destruct (negb (existsb (has_key col_comment) data)); [reflexivity|].
  destruct (filter notna data); [reflexivity|].
  destruct (write_periods _ _ _ _ _) as [[meta|] d1]; [|reflexivity].
  now destruct (to_csv_ok e (clock d1) metadata_filepath).
Qed.

(** The actions script ends with status 1 exactly when an exception leaves
    [extract_payment_actions]. *)
Lemma payment_actions_script_status (e : env) (d : disk) (path : pystr) :
  fst (payment_actions_script e d path)
  = if token_set e
    then match fst (extract_payment_actions e d path) with
         | Exception => 1%Z
         | Value _ => 0%Z
         end
    else 0%Z.
Proof.
  unfold payment_actions_script.
  destruct (token_set e); [|reflexivity]. cbn [negb].
  now destruct (extract_payment_actions e d path) as [[b|] d'].
Qed.

Lemma payment_actions_script_zero (e : env) (d : disk) (path : pystr) :
  fst (extract_payment_actions e d path) <> Exception ->
  fst (payment_actions_script e d path) = 0%Z.
Proof.
  intro H. rewrite payment_actions_script_status.
  destruct (token_set e); [|reflexivity].
  destruct (fst (extract_payment_actions e d path)); [reflexivity|now elim H].
Qed.

(** When no call yields an action, [all_actions] stays empty. *)
Lemma collect_actions_nothing (e : env) (rs : list row) (k : nat) :
  (forall k' uuid, no_actions (api_user_actions e k' uuid)) ->
  fst (collect_actions e k rs) = Some [].
Proof.
  intro Hno. revert k; induction rs as [|r rs IH]; intro k; [reflexivity|].
  cbn [collect_actions]. specialize (IH (S k)).
  destruct (collect_actions e (S k) rs) as [more k'].
  cbn [fst] in IH. subst more. unfold get_payment_actions.
  pose proof (Hno k (cell r col_payment_uuid)) as Hk.
  destruct (api_user_actions e k (cell r col_payment_uuid)) as [| | |[|[|a l]|]];
    try reflexivity; now elim Hk.
Qed.

(* ================================================================== *)
(** ** Facts about the loop *)

Lemma process_files_cons (e : env) (w : world) (p : pystr) (ps : list pystr) :
  process_files e w (p :: ps)
  = (fst (process_file e w p) ++ fst (process_files e (snd (process_file e w p)) ps),
     snd (process_files e (snd (process_file e w p)) ps)).
Proof.
  simpl. destruct (process_file e w p) as [log w1]. simpl.
  now destruct (process_files e w1 ps).
Qed.

(** The cases of one turn of the loop. *)
Ltac file_cases e w p :=
  unfold process_file, process_period, period_of_path in *;
  let ym := fresh "ym" in
  let d1 := fresh "d1" in
  let d2 := fresh "d2" in
  destruct (search_payments_period (basename p)) as [ym|] eqn:Hym;
  [ destruct (str_geb ym MIN_YEAR_MONTH && negb (is_period_processed (ledger w) ym)) eqn:Hgo;
    [ destruct (run_script e EXTRACT_PAYMENT_ACTIONS_SCRIPT (Some p) (the_disk w))
        as [[[|]|] d1] eqn:Hr1;
      [ destruct (run_script e EXTRACT_ACTION_DETAILS_SCRIPT
                             (Some (actions_csv_filepath ym)) d1)
          as [[[|]|] d2] eqn:Hr2 | | ]
    | ]
  | ];
  cbn [fst snd app omap evaluated marked event_period fold_left ledger the_disk] in *.

Lemma process_files_Forall (e : env) (P : event -> Prop) (ps : list pystr) :
  (forall w p, In p ps -> Forall P (fst (process_file e w p))) ->
  forall w, Forall P (fst (process_files e w ps)).
Proof.
  induction ps as [|p ps IH]; intros H w; [constructor|].
  rewrite process_files_cons. cbn [fst]. apply Forall_app. split.
  - apply H. now left.
  - apply IH. intros w' p' Hp'. apply H. now right.
Qed.

(** Every file of the list is looked at, in the order of the list, whatever
    the stages return. *)
Lemma process_file_evaluated (e : env) (w : world) (p : pystr) :
  omap evaluated (fst (process_file e w p))
  = match period_of_path p with Some ym => [ym] | None => [] end.
Proof. file_cases e w p; reflexivity. Qed.

Lemma process_files_evaluated (e : env) (ps : list pystr) (w : world) :
  omap evaluated (fst (process_files e w ps)) = omap period_of_path ps.
Proof.
  revert w; induction ps as [|p ps IH]; intro w; [reflexivity|].
  rewrite process_files_cons. cbn [fst].
  rewrite omap_app, process_file_evaluated, IH. simpl.
  now destruct (period_of_path p).
Qed.


(** The ledger changes by the [Marked] events and by nothing else. *)
Lemma process_file_ledger (e : env) (w : world) (p : pystr) :
  ledger (snd (process_file e w p))
  = fold_left mark_period_as_processed (omap marked (fst (process_file e w p))) (ledger w).
Proof. file_cases e w p; reflexivity. Qed.

Lemma process_files_ledger (e : env) (ps : list pystr) (w : world) :
  ledger (snd (process_files e w ps))
  = fold_left mark_period_as_processed (omap marked (fst (process_files e w ps))) (ledger w).
Proof.
  revert w; induction ps as [|p ps IH]; intro w; [reflexivity|].
  rewrite process_files_cons. cbn [fst snd].
  now rewrite omap_app, fold_left_app, IH, process_file_ledger.
Qed.

Lemma app_split_at (A : Type) (x : A) (a b l1 l2 : list A) :
  l1 ++ x :: l2 = a ++ b ->
  (exists a2, a = l1 ++ x :: a2 /\ l2 = a2 ++ b) \/
  (exists b1, l1 = a ++ b1 /\ b = b1 ++ x :: l2).
Proof.
  revert l1; induction a as [|y a IH]; intros l1 H; simpl in *.
  - right. now exists l1.
  - destruct l1 as [|z l1]; simpl in H; injection H as -> H.
    + left. now exists a.
    + destruct (IH _ H) as [(a2 & -> & ->)|(b1 & -> & ->)].
      * left. now exists a2.
      * right. now exists b1.
Qed.

Lemma process_file_marked (e : env) (w : world) (p : pystr)
      (l1 l2 : list event) (ym : pystr) :
  fst (process_file e w p) = l1 ++ Marked ym :: l2 ->
  both_stages_reported_success l1 ym.
Proof.
  intro H. unfold both_stages_reported_success.
  file_cases e w p;
    repeat (destruct l1 as [|? l1]; simpl in H; try discriminate).
  injection H as <- <- <- <- <- _.
  exists [Evaluated ym0; Started ym0], p. now split.
Qed.

Lemma process_files_marked (e : env) (ps : list pystr) (w : world)
      (l1 l2 : list event) (ym : pystr) :
  fst (process_files e w ps) = l1 ++ Marked ym :: l2 ->
  both_stages_reported_success l1 ym.
Proof.
  revert w l1; induction ps as [|p ps IH]; intros w l1 H.
  - destruct l1; discriminate.
  - rewrite process_files_cons in H. cbn [fst] in H. symmetry in H.
    apply app_split_at in H as [(a2 & Ha & _)|(b1 & -> & Hb)].
    + eapply process_file_marked; eauto.
    + apply IH in Hb as (log0 & path & -> & Hp).
      exists (fst (process_file e w p) ++ log0), path.
      now rewrite <- app_assoc.
Qed.

(** A turn in which a stage did not report success leaves the ledger as it
    was and marks nothing. *)
Lemma process_file_failure (e : env) (w : world) (p : pystr)
      (s : script) (ym arg : pystr) (r : outcome) :
  In (StageRun s ym arg r) (fst (process_file e w p)) ->
  r <> Returned true ->
  ledger (snd (process_file e w p)) = ledger w /\
  forall ym', ~ In (Marked ym') (fst (process_file e w p)).
Proof.
  intros Hin Hr.
  file_cases e w p; simpl in Hin;
    repeat match goal with
           | H : _ \/ _ |- _ => destruct H
           | H : False |- _ => destruct H
           | H : _ = StageRun _ _ _ _ |- _ => first [discriminate H | injection H as <- <- <- <-]
           end;
    try (exfalso; apply Hr; reflexivity);
    (split; [reflexivity|]);
    intros ym' Hm; simpl in Hm;
    repeat match goal with
           | H : _ \/ _ |- _ => destruct H
           | H : False |- _ => destruct H
           | H : _ = Marked _ |- _ => discriminate H
           end.
Qed.

Lemma process_file_arguments (e : env) (w : world) (p : pystr) :
  Forall stage_argument_fits (fst (process_file e w p)).
Proof. file_cases e w p; repeat constructor; assumption. Qed.

Lemma below_minimum_differs (ym ym' : pystr) :
  str_ltb ym MIN_YEAR_MONTH = true -> str_geb ym' MIN_YEAR_MONTH = true -> ym' <> ym.
Proof.
  unfold str_ltb, str_geb. intros Hlt Hge ->. rewrite Hge in Hlt. discriminate.
Qed.

Lemma process_file_minimum (e : env) (w : world) (p ym : pystr) :
  str_ltb ym MIN_YEAR_MONTH = true ->
  Forall (untouched ym) (fst (process_file e w p)).
Proof.
  intro Hlt. apply Forall_forall. intros ev Hin.
  file_cases e w p;
    try (apply andb_true_iff in Hgo as [Hge _];
         pose proof (below_minimum_differs Hlt Hge) as Hne);
    simpl in Hin;
    repeat match goal with
           | H : _ \/ _ |- _ => destruct H
           | H : False |- _ => destruct H
           end;
    subst ev; unfold untouched; repeat split; intros; try discriminate; congruence.
Qed.

(** A file whose name carries no period is logged and passed over. *)
Lemma process_files_bad_name (e : env) (w : world) (p : pystr) (rest : list pystr) :
  period_of_path p = None ->
  process_files e w (p :: rest)
  = (BadName (basename p) :: fst (process_files e w rest), snd (process_files e w rest)).
Proof.
  intro H. rewrite process_files_cons. unfold process_file.
  unfold period_of_path in H. now rewrite H.
Qed.

(* ================================================================== *)
(** ** Facts about the order of the periods *)










(* ================================================================== *)
(** ** Facts about the whole run *)

Lemma etl_pipeline_Forall (e : env) (w : world) (P : event -> Prop) :
  (forall r, P (PaymentsRun r)) ->
  (forall w' p, Forall P (fst (process_file e w' p))) ->
  Forall P (fst (etl_pipeline e w)).
Proof.
  intros Hp Hf. unfold etl_pipeline.
  destruct (run_script e EXTRACT_PAYMENTS_SCRIPT None (the_disk w)) as [[[|]|] d1];
    cbn [fst]; try (constructor; [apply Hp|constructor]).
  pose proof (@process_files_Forall e P (payments_csv_files (files d1))
                (fun w' p _ => Hf w' p) {| the_disk := d1; ledger := ledger w |}) as H.
  destruct (process_files _ _ _) as [log w']. cbn [fst] in *.
  constructor; [apply Hp|exact H].
Qed.

Lemma etl_pipeline_ledger (e : env) (w : world) :
  ledger (snd (etl_pipeline e w))
  = fold_left mark_period_as_processed (omap marked (fst (etl_pipeline e w))) (ledger w).
Proof.
  unfold etl_pipeline.
  destruct (run_script e EXTRACT_PAYMENTS_SCRIPT None (the_disk w)) as [[[|]|] d1];
    cbn [fst snd]; try reflexivity.
  pose proof (process_files_ledger e (payments_csv_files (files d1))
                {| the_disk := d1; ledger := ledger w |}) as H.
  destruct (process_files _ _ _) as [log w']. exact H.
Qed.


(** A failed payments script has written nothing. *)
Lemma payments_run_failure (e : env) (d d1 : disk) (r : outcome) :
  run_script e EXTRACT_PAYMENTS_SCRIPT None d = (r, d1) ->
  r <> Returned true ->
  files d1 = files d.
Proof.
  unfold run_script. intros H Hr.
  destruct (launch_at e (clock d)); try (injection H as <- <-; reflexivity).
  cbn [script_process] in H.
  pose proof (payments_script_status e (tick d)) as Hs.
  destruct (payments_script e (tick d)) as [code d']. cbn [fst] in Hs. subst code.
  injection H as <- <-. now elim Hr.
Qed.

(* ================================================================== *)
(** ** Facts about the file-name pattern *)

Lemma re_search_here (A : Type) (here : pystr -> option A) (s : pystr) (a : A) :
  here s = Some a -> re_search here s = Some a.
Proof. intro H. destruct s; simpl; now rewrite H. Qed.

Lemma period_here_some (stem s ym : pystr) :
  period_here stem s = Some ym ->
  List.length ym = 6 /\ forallb is_digit ym = true /\
  exists b, s = extracted_name stem ym ++ b.
Proof.
  unfold period_here, extracted_name. intro H.
  destruct (strip_prefix stem s) as [r|] eqn:E1; [|discriminate].
  destruct (take_digits 6 r) as [[ds r']|] eqn:E2; [|discriminate].
  destruct (strip_prefix EXTRACTED_csv r') as [b|] eqn:E3; [|discriminate].
  injection H as ->.
  apply strip_prefix_some in E1, E3. apply take_digits_some in E2 as (-> & Hl & Hd).
  subst. repeat split; auto. exists b. now rewrite <- !app_assoc.
Qed.

Lemma period_here_name (stem ym : pystr) :
  List.length ym = 6 -> forallb is_digit ym = true ->
  period_here stem (extracted_name stem ym) = Some ym.
Proof.
  intros Hl Hd. unfold period_here, extracted_name.
  rewrite strip_prefix_app. rewrite <- Hl, take_digits_app by exact Hd.
  rewrite <- (app_nil_r EXTRACTED_csv) at 2. now rewrite strip_prefix_app.
Qed.

Lemma metadata_not_candidate (fs : list (pystr * file)) (p : pystr) :
  contains payments_metadata p = true -> ~ In p (payments_csv_files fs).
Proof.
  intros Hc Hin. apply payments_csv_files_in in Hin as (_ & Hm & _). congruence.
Qed.

(** The candidate periods are the periods of the globbed files other than
    the index, and nothing else. *)
Lemma candidate_periods_in (fs : list (pystr * file)) (ym : pystr) :
  In ym (candidate_periods fs) <->
  exists p, In p (map fst fs) /\ globbed p = true /\
            contains payments_metadata p = false /\ period_of_path p = Some ym.
Proof.
  unfold candidate_periods. rewrite omap_in. split.
  - intros (p & Hp & Hym). exists p.
    apply payments_csv_files_in in Hp as (Hg & Hm & Hin). auto.
  - intros (p & Hin & Hg & Hm & Hym). exists p. split; [|exact Hym].
    apply (Permutation_in _ (Permutation_sym (payments_csv_files_perm fs))).
    apply filter_In. split; [|now rewrite Hm].
    apply filter_In. now split.
Qed.

(* ================================================================== *)
(** ** Facts about the files the payments script writes *)

Lemma lookup_upsert (p q : pystr) (f : file) (fs : list (pystr * file)) :
  lookup q (upsert p f fs) = if str_eqb p q then Some f else lookup q fs.
Proof.
  induction fs as [|[k g] fs IH]; simpl; [reflexivity|].
  destruct (str_eqb k p) eqn:E; simpl.
  - apply str_eqb_eq in E. subst k. now destruct (str_eqb p q).
  - rewrite IH. destruct (str_eqb k q) eqn:Ek, (str_eqb p q) eqn:Ep; try reflexivity.
    apply str_eqb_eq in Ek, Ep. subst. now rewrite str_eqb_refl in E.
Qed.




(* ================================================================== *)
(** ** Facts about the comment pattern *)




(* ================================================================== *)
(** ** Facts about the ledger as pandas reads it *)

(** A ledger of integer literals is read as an int64 column, in which no
    [str] is found. *)
Lemma int_ledger_matches_nothing (cells : list pystr) (ym : pystr) :
  forallb is_int_literal cells = true ->
  is_period_processed (LedgerRows cells) ym = false.
Proof.
  intro H. unfold is_period_processed, read_year_month_column.
  destruct cells as [|c cells]; [reflexivity|]. now rewrite H.
Qed.

(* ================================================================== *)
(** ** Facts about the downstream scripts *)

Lemma action_details_bad_name (e : env) (d : disk) (path : pystr) :
  search_actions_period (basename path) = None ->
  action_details_script e d path = (0%Z, d).
Proof.
  intro H. unfold action_details_script. rewrite H.
  destruct (negb (token_set e)); [reflexivity|].
  destruct (read_csv e d path) as [t| |]; try reflexivity.
  destruct (rows t); [reflexivity|].
  now destruct (negb (mem col_action_id (columns t))).
Qed.

Lemma action_details_no_column (e : env) (d : disk) (path : pystr) (t : table) :
  read_csv e d path = ReadOk t ->
  mem col_action_id (columns t) = false ->
  action_details_script e d path = (0%Z, d).
Proof.
  intros Hr Hc. unfold action_details_script. rewrite Hr, Hc.
  destruct (negb (token_set e)); [reflexivity|].
  now destruct (rows t).
Qed.

Lemma action_details_not_found (e : env) (d : disk) (path : pystr) :
  read_csv e d path = ReadFileNotFound ->
  action_details_script e d path = (0%Z, d).
Proof.
  intros Hr. unfold action_details_script. rewrite Hr.
  now destruct (negb (token_set e)).
Qed.

Lemma extract_payment_actions_failures (e : env) (d : disk) (path : pystr) :
  read_csv e d path = ReadFileNotFound \/
  (exists t, read_csv e d path = ReadOk t /\
             (mem col_payment_uuid (columns t) = false \/
              mem col_year_month (columns t) = false)) \/
  search_payments_period (basename path) = None ->
  extract_payment_actions e d path = (Value false, d).
Proof.
  unfold extract_payment_actions.
  intros [H|[(t & H & Hc)|H]]; rewrite H; try reflexivity.
  - destruct Hc as [Hc|Hc]; rewrite Hc; [reflexivity|].
    now rewrite orb_true_r.
  - destruct (read_csv e d path) as [t| |]; try reflexivity.
    now destruct (negb (mem col_payment_uuid (columns t)) ||
                  negb (mem col_year_month (columns t))).
Qed.

(** A valid payments file behind which no action is found. *)
Lemma extract_payment_actions_nothing (e : env) (d : disk) (path : pystr)
      (t : table) (ym : pystr) :
  read_csv e d path = ReadOk t ->
  mem col_payment_uuid (columns t) = true ->
  mem col_year_month (columns t) = true ->
  search_payments_period (basename path) = Some ym ->
  (forall k uuid, no_actions (api_user_actions e k uuid)) ->
  fst (extract_payment_actions e d path) = Value true /\
  files (snd (extract_payment_actions e d path)) = files d.
Proof.
  intros Hr Hu Hy Hp Hno. unfold extract_payment_actions.
  rewrite Hr, Hu, Hy, Hp. cbn [negb orb].
  pose proof (collect_actions_nothing e (rows t) (clock d) Hno) as Hnil.
  destruct (collect_actions e (clock d) (rows t)) as [all_actions k].
  cbn [fst] in Hnil. subst all_actions. split; reflexivity.
Qed.

(* ================================================================== *)
(** ** Facts about digits and the numbers they spell *)

Lemma ascii_digit_is_digit (c : N) : is_ascii_digit c = true -> is_digit c = true.
Proof.
  intro H. unfold is_digit, digit_zeros. cbn [existsb].
  change (48 + 9)%N with 57%N. unfold is_ascii_digit in H. now rewrite H.
Qed.

Lemma ascii_digits_are_digits (s : pystr) :
  forallb is_ascii_digit s = true -> forallb is_digit s = true.
Proof.
  induction s as [|c s IH]; [reflexivity|]. cbn [forallb]. intro H.
  apply andb_true_iff in H as [Hc Hs]. now rewrite (ascii_digit_is_digit c Hc), IH.
Qed.

(** Below U+0500 the decimal digits are 0-9. *)
Lemma digit_in_alphabet (c : N) :
  is_digit c = true -> (c <? 1280)%N = true -> is_ascii_digit c = true.
Proof.
  intros H Hc. unfold is_digit in H. apply existsb_exists in H as (z & Hz & H).
  assert (Hall : forallb (fun z => (z =? 48) || (1632 <=? z))%N digit_zeros = true)
    by reflexivity.
  rewrite forallb_forall in Hall. specialize (Hall z Hz).
  apply andb_true_iff in H as [H1 H2]. apply N.leb_le in H1, H2.
  apply N.ltb_lt in Hc. apply orb_true_iff in Hall as [Hall|Hall].
  - apply N.eqb_eq in Hall. subst z. unfold is_ascii_digit.
    apply andb_true_iff. split; apply N.leb_le; lia.
  - apply N.leb_le in Hall. lia.
Qed.

Lemma digits_in_alphabet (s : pystr) :
  forallb is_digit s = true -> in_alphabet s = true ->
  forallb is_ascii_digit s = true.
Proof.
  unfold in_alphabet. induction s as [|c s IH]; [reflexivity|]. cbn [forallb].
  intros H Ha. apply andb_true_iff in H as [Hc Hs]. apply andb_true_iff in Ha as [Hac Has].
  now rewrite (digit_in_alphabet c Hc Hac), IH.
Qed.

Lemma in_alphabet_app (a b : pystr) :
  in_alphabet (a ++ b) = in_alphabet a && in_alphabet b.
Proof. apply forallb_app. Qed.

Lemma is_ascii_digit_cases (c : N) :
  is_ascii_digit c = true ->
  c = 48%N \/ c = 49%N \/ c = 50%N \/ c = 51%N \/ c = 52%N \/
  c = 53%N \/ c = 54%N \/ c = 55%N \/ c = 56%N \/ c = 57%N.
Proof.
  unfold is_ascii_digit. intro H. apply andb_true_iff in H as [H1 H2].
  apply N.leb_le in H1, H2. lia.
Qed.

Ltac digit_cases c H :=
  apply is_ascii_digit_cases in H;
  destruct H as [H|[H|[H|[H|[H|[H|[H|[H|[H|H]]]]]]]]]; subst c.

(** Computes the digit of a known character and picks its numeral. *)
Ltac digit_value :=
  unfold uint_cons;
  repeat match goal with
         | |- context [(?a - 48)%N] =>
           let v := eval vm_compute in (a - 48)%N in change (a - 48)%N with v
         end;
  cbv beta iota.

Lemma uint_text_of_text (s : pystr) :
  forallb is_ascii_digit s = true -> uint_text (uint_of_text s) = s.
Proof.
  induction s as [|c s IH]; [reflexivity|].
  cbn [forallb]. intro H. apply andb_true_iff in H as [Hc Hs].
  specialize (IH Hs). cbn [uint_of_text].
  digit_cases c Hc; cbn; now rewrite IH.
Qed.

Lemma uint_text_digits (u : Decimal.uint) : forallb is_ascii_digit (uint_text u) = true.
Proof. induction u; cbn; auto. Qed.

Lemma uint_text_length (u : Decimal.uint) :
  List.length (uint_text u) = Decimal.nb_digits u.
Proof. induction u; cbn; auto. Qed.

Lemma uint_of_text_digits (s : pystr) :
  forallb is_ascii_digit s = true -> Decimal.nb_digits (uint_of_text s) = List.length s.
Proof.
  intro H. rewrite <- uint_text_length. now rewrite uint_text_of_text.
Qed.

Lemma int_of_digits_acc (s : pystr) (acc : positive) :
  forallb is_ascii_digit s = true ->
  fold_left (fun a c => (a * 10 + (c - 48))%N) s (N.pos acc)
  = N.pos (Pos.of_uint_acc (uint_of_text s) acc).
Proof.
  revert acc; induction s as [|c s IH]; intros acc H; [reflexivity|].
  cbn [forallb] in H. apply andb_true_iff in H as [Hc Hs].
  cbn [fold_left uint_of_text].
  digit_cases c Hc; digit_value; cbn [Pos.of_uint_acc];
    rewrite <- (IH _ Hs); f_equal; lia.
Qed.

Lemma int_of_digits_of_uint (s : pystr) :
  forallb is_ascii_digit s = true -> int_of_digits s = N.of_uint (uint_of_text s).
Proof.
  unfold int_of_digits, N.of_uint.
  induction s as [|c s IH]; intro H; [reflexivity|].
  cbn [forallb] in H. apply andb_true_iff in H as [Hc Hs].
  cbn [fold_left uint_of_text].
  digit_cases c Hc; digit_value; cbn [Pos.of_uint N.add N.mul];
    first [ now apply IH | now apply int_of_digits_acc ].
Qed.

Lemma is_int_literal_digits (s : pystr) :
  is_int_literal s = true ->
  s <> [] /\ forallb is_ascii_digit s = true /\ (List.length s <= 18)%nat.
Proof.
  unfold is_int_literal. destruct s as [|c s]; [discriminate|].
  intro H. apply andb_true_iff in H as [Hd Hl]. apply Nat.leb_le in Hl.
  repeat split; auto. discriminate.
Qed.

(** Reading an integer literal and writing the number back gives an integer
    literal again ... *)
Lemma text_of_int_literal (s : pystr) :
  is_int_literal s = true -> is_int_literal (text_of_int (int_of_digits s)) = true.
Proof.
  intro H. apply is_int_literal_digits in H as (Hne & Hd & Hl).
  unfold text_of_int. rewrite (int_of_digits_of_uint s Hd).
  rewrite DecimalN.Unsigned.to_of.
  assert (Hu : uint_of_text s <> Decimal.Nil).
  { apply DecimalFacts.nb_digits_n0. rewrite (uint_of_text_digits s Hd).
    destruct s; [congruence|discriminate]. }
  pose proof (DecimalFacts.nb_digits_unorm _ Hu) as Hn.
  rewrite (uint_of_text_digits s Hd) in Hn.
  unfold is_int_literal.
  destruct (uint_text (Decimal.unorm (uint_of_text s))) as [|c t] eqn:E.
  - exfalso. assert (Hz : Decimal.nb_digits (Decimal.unorm (uint_of_text s)) = 0%nat)
      by (now rewrite <- uint_text_length, E).
    apply DecimalFacts.nb_digits_0 in Hz. unfold Decimal.unorm in Hz.
    destruct (Decimal.nzhead (uint_of_text s)); discriminate.
  - rewrite <- E, uint_text_digits, uint_text_length. cbn [andb].
    apply Nat.leb_le. lia.
Qed.

(** ... and the same text when it does not begin with 0. *)
Lemma text_of_int_round_trip (s : pystr) :
  forallb is_ascii_digit s = true -> no_leading_zero s = true -> s <> [] ->
  text_of_int (int_of_digits s) = s.
Proof.
  intros Hd Hz Hne. unfold text_of_int.
  rewrite (int_of_digits_of_uint s Hd), DecimalN.Unsigned.to_of.
  rewrite <- (uint_text_of_text s Hd) at 2. f_equal.
  destruct s as [|c s]; [congruence|].
  cbn [forallb] in Hd. apply andb_true_iff in Hd as [Hc _].
  cbn [no_leading_zero] in Hz. cbn [uint_of_text].
  digit_cases c Hc; try discriminate Hz; reflexivity.
Qed.

Lemma column_text_round_trip (cells : list pystr) :
  Forall (fun c => no_leading_zero c = true) cells ->
  column_text (read_year_month_column cells) = cells.
Proof.
  intro Hz. unfold read_year_month_column.
  destruct cells as [|c0 cells0] eqn:Ec; [reflexivity|]. rewrite <- Ec in *. clear Ec.
  destruct (forallb is_int_literal cells) eqn:Hlit; [|reflexivity].
  cbn [column_text]. rewrite map_map.
  rewrite forallb_forall in Hlit. rewrite Forall_forall in Hz.
  rewrite <- (map_id cells) at 2. apply map_ext_in. intros c Hc.
  destruct (is_int_literal_digits c (Hlit c Hc)) as (Hne & Hd & _).
  apply text_of_int_round_trip; auto.
Qed.

Lemma mark_keeps_numeric (l : ledger_file) (ym : pystr) :
  numeric_ledger l -> is_int_literal ym = true ->
  numeric_ledger (mark_period_as_processed l ym).
Proof.
  destruct l as [| |cells]; cbn [numeric_ledger mark_period_as_processed].
  - intros _ H. cbn. now rewrite H.
  - auto.
  - intros Hc Hym. rewrite forallb_app. cbn [forallb]. rewrite Hym, andb_true_r.
    unfold read_year_month_column.
    destruct cells as [|c0 cells0] eqn:Ec; [reflexivity|]. rewrite <- Ec in *. clear Ec.
    rewrite Hc. cbn [column_text]. rewrite map_map.
    rewrite forallb_forall in *. intros t Ht.
    apply in_map_iff in Ht as (c & <- & Hin).
    apply text_of_int_literal. now apply Hc.
Qed.

Lemma numeric_ledger_unseen (l : ledger_file) (ym : pystr) :
  numeric_ledger l -> is_period_processed l ym = false.
Proof.
  destruct l as [| |cells]; try reflexivity.
  cbn [numeric_ledger]. apply int_ledger_matches_nothing.
Qed.

(** A period read off a name in 0-9 is an integer literal. *)
Lemma period_is_int_literal (s ym : pystr) :
  search_payments_period s = Some ym -> in_alphabet s = true ->
  is_int_literal ym = true.
Proof.
  intros H Ha. apply re_search_some in H as (pre & suf & -> & H).
  apply period_here_some in H as (Hl & Hd & b & ->).
  unfold extracted_name in Ha. rewrite !in_alphabet_app in Ha.
  apply andb_true_iff in Ha as [_ Ha]. apply andb_true_iff in Ha as [Ha _].
  apply andb_true_iff in Ha as [_ Ha]. apply andb_true_iff in Ha as [Ha _].
  unfold is_int_literal. destruct ym as [|c ym]; [discriminate|].
  rewrite (digits_in_alphabet _ Hd Ha), Hl. reflexivity.
Qed.

(* ================================================================== *)
(** ** Facts about the loop and the ledger *)

Lemma after_last_slash_in_alphabet (cur s : pystr) :
  in_alphabet cur = true -> in_alphabet s = true ->
  in_alphabet (after_last_slash cur s) = true.
Proof.
  unfold in_alphabet. revert cur.
  induction s as [|c s IH]; intros cur Hcur Hs; cbn [after_last_slash]; [exact Hcur|].
  cbn [forallb] in Hs. apply andb_true_iff in Hs as [_ Hs].
  destruct (c =? slash)%N; now apply IH.
Qed.

Lemma basename_in_alphabet (p : pystr) :
  in_alphabet p = true -> in_alphabet (basename p) = true.
Proof. intro H. unfold basename. now apply after_last_slash_in_alphabet. Qed.

Lemma process_file_numeric (e : env) (w : world) (p : pystr) :
  numeric_ledger (ledger w) -> in_alphabet p = true ->
  numeric_ledger (ledger (snd (process_file e w p))) /\
  omap started (fst (process_file e w p))
  = filter (fun ym => str_geb ym MIN_YEAR_MONTH)
           (match period_of_path p with Some ym => [ym] | None => [] end).
Proof.
  intros Hn Ha. apply basename_in_alphabet in Ha.
  file_cases e w p; cbn [omap started filter];
    try (rewrite (numeric_ledger_unseen _ _ Hn) in Hgo; cbn [negb] in Hgo;
         rewrite andb_true_r in Hgo; rewrite Hgo);
    (split; [|reflexivity]); try exact Hn.
  apply mark_keeps_numeric; [exact Hn|]. eapply period_is_int_literal; eauto.
Qed.

Lemma process_files_numeric (e : env) (ps : list pystr) (w : world) :
  numeric_ledger (ledger w) -> Forall (fun p => in_alphabet p = true) ps ->
  numeric_ledger (ledger (snd (process_files e w ps))) /\
  omap started (fst (process_files e w ps))
  = filter (fun ym => str_geb ym MIN_YEAR_MONTH) (omap period_of_path ps).
Proof.
  revert w; induction ps as [|p ps IH]; intros w Hn Ha; [now split|].
  rewrite process_files_cons. cbn [fst snd].
  inversion Ha as [|? ? Hp Hps]; subst.
  destruct (process_file_numeric e w p Hn Hp) as [Hn1 Hs1].
  destruct (IH _ Hn1 Hps) as [Hn2 Hs2]. split; [exact Hn2|].
  rewrite omap_app, Hs1, Hs2. cbn [omap].
  destruct (period_of_path p); [|reflexivity].
  cbn [filter]. now destruct (str_geb p0 MIN_YEAR_MONTH).
Qed.

(* ================================================================== *)
(** ** Facts about the payment-actions extractor *)

Lemma answer_throws_cons (e : env) (k : nat) (r : row) (rs : list row) :
  answer_throws e k (r :: rs) <->
  api_user_actions e k (cell r col_payment_uuid) = Json Throws \/
  answer_throws e (S k) rs.
Proof.
  unfold answer_throws. split.
  - intros ([|i] & r' & Hn & Hf).
    + injection Hn as <-. rewrite Nat.add_0_r in Hf. now left.
    + right. exists i, r'. split; [exact Hn|].
      now replace (S k + i)%nat with (k + S i)%nat by lia.
  - intros [Hf|(i & r' & Hn & Hf)].
    + exists 0%nat, r. rewrite Nat.add_0_r. now split.
    + exists (S i), r'. split; [exact Hn|].
      now replace (k + S i)%nat with (S k + i)%nat by lia.
Qed.

(** The loop raises exactly when some answer throws. *)
Lemma collect_actions_none (e : env) (rs : list row) (k : nat) :
  fst (collect_actions e k rs) = None <-> answer_throws e k rs.
Proof.
  revert k; induction rs as [|r rs IH]; intro k.
  - cbn [collect_actions fst]. split; [discriminate|].
    intros (i & r & H & _). destruct i; discriminate.
  - rewrite answer_throws_cons, <- IH. cbn [collect_actions].
    unfold get_payment_actions.
    destruct (api_user_actions e k (cell r col_payment_uuid)) as [| | |data];
      [ | | |destruct data as [|l|]; [ | |cbn [fst]; split; auto]];
      (destruct (collect_actions e (S k) rs) as [[more|] k']; cbn [fst];
       (split;
        [ try discriminate; intros _; now right
        | try reflexivity; intros [H|H]; discriminate H ])).
Qed.

(** What the loop has collected when it ends. *)
Lemma collect_actions_some (e : env) (rs : list row) (k : nat) (all : list row) :
  fst (collect_actions e k rs) = Some all ->
  all = List.concat (map (fun ir => obtained_actions e (fst ir) (snd ir)) (timed k rs)) /\
  snd (collect_actions e k rs) = (k + List.length rs)%nat.
Proof.
  unfold timed.
  revert k all; induction rs as [|r rs IH]; intros k all;
    cbn [collect_actions List.length seq combine map List.concat fst snd].
  - intro H. injection H as <-. split; [reflexivity|lia].
  - unfold get_payment_actions, obtained_actions at 1.
    destruct (api_user_actions e k (cell r col_payment_uuid)) as [| | |data];
      [ | | |destruct data as [|l|]; [ | |discriminate]];
      (destruct (collect_actions e (S k) rs) as [[more|] k'] eqn:Ec; [|discriminate];
       cbn [fst snd]; intro H; injection H as <-;
       destruct (IH (S k) more) as [-> Hk]; [now rewrite Ec|];
       rewrite Ec in Hk; cbn [snd] in Hk; split; [reflexivity|lia]).
Qed.

Lemma never_throws_here (e : env) (k : nat) (rs : list row) :
  never_throws e -> ~ answer_throws e k rs.
Proof. intros H (i & r & _ & Hf). now apply H in Hf. Qed.

Lemma lookup_upsert_other (p q : pystr) (f : file) (fs : list (pystr * file)) :
  q <> p -> lookup q (upsert p f fs) = lookup q fs.
Proof.
  intro H. rewrite lookup_upsert.
  destruct (str_eqb p q) eqn:E; [|reflexivity].
  apply str_eqb_eq in E. congruence.
Qed.

Lemma lookup_upsert_same (p : pystr) (f : file) (fs : list (pystr * file)) :
  lookup p (upsert p f fs) = Some f.
Proof. now rewrite lookup_upsert, str_eqb_refl. Qed.

(* ================================================================== *)
(** ** Facts about the action-details extractor *)

Lemma collect_details_none (e : env) (rs : list row) (k : nat) :
  fst (collect_details e k rs) = None <-> connection_drops e k rs.
Proof.
  unfold connection_drops.
  revert k; induction rs as [|r rs IH]; intro k; cbn [collect_details].
  - split; [discriminate|]. intros (i & r & H & _). destruct i; discriminate.
  - unfold get_action_details.
    destruct (api_action_details e k (cell r col_action_id)) as [| | |[|[p|]]] eqn:E;
      cbn [fst].
    + split; [|reflexivity]. intros _. exists 0%nat, r. rewrite Nat.add_0_r. auto.
    + rewrite IH. split.
      * intros (i & r' & Hn & Hf). exists (S i), r'. split; [exact Hn|].
        now replace (k + S i)%nat with (S k + i)%nat by lia.
      * intros ([|i] & r' & Hn & Hf).
        -- injection Hn as <-. rewrite Nat.add_0_r in Hf. congruence.
        -- exists i, r'. split; [exact Hn|].
           now replace (S k + i)%nat with (k + S i)%nat by lia.
    + rewrite IH. split.
      * intros (i & r' & Hn & Hf). exists (S i), r'. split; [exact Hn|].
        now replace (k + S i)%nat with (S k + i)%nat by lia.
      * intros ([|i] & r' & Hn & Hf).
        -- injection Hn as <-. rewrite Nat.add_0_r in Hf. congruence.
        -- exists i, r'. split; [exact Hn|].
           now replace (S k + i)%nat with (k + S i)%nat by lia.
    + rewrite IH. split.
      * intros (i & r' & Hn & Hf). exists (S i), r'. split; [exact Hn|].
        now replace (k + S i)%nat with (S k + i)%nat by lia.
      * intros ([|i] & r' & Hn & Hf).
        -- injection Hn as <-. rewrite Nat.add_0_r in Hf. congruence.
        -- exists i, r'. split; [exact Hn|].
           now replace (S k + i)%nat with (k + S i)%nat by lia.
    + assert (Hfst : fst (match collect_details e (S k) rs with
                          | (Some more, k') => (Some (p :: more), k')
                          | (None, k') => (None, k')
                          end) = None <-> fst (collect_details e (S k) rs) = None).
      { destruct (collect_details e (S k) rs) as [[more|] k']; cbn [fst];
          split; congruence. }
      rewrite Hfst, IH. split.
      * intros (i & r' & Hn & Hf). exists (S i), r'. split; [exact Hn|].
        now replace (k + S i)%nat with (S k + i)%nat by lia.
      * intros ([|i] & r' & Hn & Hf).
        -- injection Hn as <-. rewrite Nat.add_0_r in Hf. congruence.
        -- exists i, r'. split; [exact Hn|].
           now replace (S k + i)%nat with (k + S i)%nat by lia.
    + rewrite IH. split.
      * intros (i & r' & Hn & Hf). exists (S i), r'. split; [exact Hn|].
        now replace (k + S i)%nat with (S k + i)%nat by lia.
      * intros ([|i] & r' & Hn & Hf).
        -- injection Hn as <-. rewrite Nat.add_0_r in Hf. congruence.
        -- exists i, r'. split; [exact Hn|].
           now replace (S k + i)%nat with (k + S i)%nat by lia.
Qed.


(* ================================================================== *)
(** ** Facts about the names of the files *)

Lemma digit_not_slash (s : pystr) :
  forallb is_digit s = true -> existsb (N.eqb slash) s = false.
Proof.
  induction s as [|c s IH]; [reflexivity|].
  cbn [forallb existsb]. intro H. apply andb_true_iff in H as [Hc Hs].
  rewrite (IH Hs), orb_false_r.
  destruct (N.eqb_spec slash c) as [<-|]; [discriminate Hc|reflexivity].
Qed.

Lemma extracted_name_plain (stem ym : pystr) :
  existsb (N.eqb slash) stem = false -> forallb is_digit ym = true ->
  existsb (N.eqb slash) (extracted_name stem ym) = false.
Proof.
  intros Hs Hd. unfold extracted_name.
  rewrite !existsb_app, Hs, (digit_not_slash ym Hd). reflexivity.
Qed.

Lemma basename_path_join (d n : pystr) :
  existsb (N.eqb slash) n = false -> basename (path_join d n) = n.
Proof.
  intro Hn. unfold basename, path_join.
  generalize (d ++ slash :: n) at 1. induction d as [|c d IH]; intro cur.
  - cbn [app after_last_slash]. rewrite N.eqb_refl. now apply after_last_slash_none.
  - cbn [app after_last_slash]. destruct (c =? slash)%N; apply IH.
Qed.

Lemma payments_csv_filepath_inj (ym ym' : pystr) :
  payments_csv_filepath ym = payments_csv_filepath ym' -> ym = ym'.
Proof.
  unfold payments_csv_filepath, path_join, extracted_name. intro H.
  apply app_inv_head in H. injection H as H.
  now apply app_inv_tail in H.
Qed.

Lemma metadata_is_no_period_file (ym : pystr) :
  metadata_filepath <> payments_csv_filepath ym.
Proof. intro H. vm_compute in H. discriminate H. Qed.

Lemma digit_start_metadata (c : N) (s : pystr) :
  is_digit c = true -> starts_with payments_metadata (c :: s) = false.
Proof.
  intro H. unfold starts_with, payments_metadata. cbn [strip_prefix].
  destruct (N.eqb_spec 112 c) as [<-|]; [discriminate H|reflexivity].
Qed.

Lemma strip_prefix_app_cons (a p s : pystr) (x c : N) :
  strip_prefix (a ++ x :: p) (a ++ c :: s)
  = if (x =? c)%N then strip_prefix p s else None.
Proof.
  induction a as [|y a IH]; cbn [app strip_prefix]; [reflexivity|].
  now rewrite N.eqb_refl.
Qed.

Lemma payments_digit_metadata (c : N) (s : pystr) :
  is_digit c = true -> starts_with payments_metadata (payments_ ++ c :: s) = false.
Proof.
  intro H. unfold starts_with.
  change payments_metadata with (payments_ ++ 109%N :: etadata).
  rewrite strip_prefix_app_cons.
  destruct (N.eqb_spec 109 c) as [<-|]; [discriminate H|reflexivity].
Qed.

Lemma contains_cons (sub s : pystr) (x : N) :
  contains sub (x :: s) = starts_with sub (x :: s) || contains sub s.
Proof. reflexivity. Qed.

Lemma contains_after_digits (ds tl : pystr) :
  forallb is_digit ds = true ->
  contains payments_metadata (ds ++ tl) = contains payments_metadata tl.
Proof.
  induction ds as [|c ds IH]; [reflexivity|].
  cbn [forallb app]. intro H. apply andb_true_iff in H as [Hc Hd].
  now rewrite contains_cons, digit_start_metadata, IH.
Qed.

(** The file of a period is no index. *)
Lemma period_file_is_no_metadata (ym : pystr) :
  forallb is_digit ym = true ->
  contains payments_metadata (payments_csv_filepath ym) = false.
Proof.
  intro Hd. destruct ym as [|c ym]; [reflexivity|].
  cbn [forallb] in Hd. apply andb_true_iff in Hd as [Hc Hd].
  unfold payments_csv_filepath, path_join, extracted_name,
    TPO_API_DATA_PATH, PAYMENTS_SUBFOLDER, tpo_payments_.
  cbn [app]. rewrite !contains_cons.
  rewrite (contains_after_digits ym EXTRACTED_csv Hd).
  repeat match goal with
         | |- context [starts_with ?a ?b] =>
           replace (starts_with a b) with false
             by first [ reflexivity
                      | symmetry; apply payments_digit_metadata; exact Hc
                      | symmetry; apply digit_start_metadata; exact Hc ]
         end.
  reflexivity.
Qed.

Lemma period_file_is_globbed (ym : pystr) :
  forallb is_digit ym = true -> globbed (payments_csv_filepath ym) = true.
Proof.
  intro Hd. unfold globbed.
  assert (Hs : strip_prefix payments_folder_slash (payments_csv_filepath ym)
               = Some (extracted_name tpo_payments_ ym)) by reflexivity.
  rewrite Hs.
  rewrite (@extracted_name_plain tpo_payments_ ym eq_refl Hd). cbn [negb andb].
  unfold fnmatch_payments, extracted_name. rewrite strip_prefix_app.
  unfold ends_with. rewrite rev_app_distr. reflexivity.
Qed.

Lemma period_file_is_read_digits (ym : pystr) :
  List.length ym = 6%nat -> forallb is_digit ym = true ->
  period_of_path (payments_csv_filepath ym) = Some ym.
Proof.
  intros Hl Hd.
  unfold period_of_path, payments_csv_filepath.
  rewrite basename_path_join by (now apply extracted_name_plain).
  apply re_search_here. now apply period_here_name.
Qed.

Lemma period_file_is_read (ym : pystr) :
  six_digits ym -> period_of_path (payments_csv_filepath ym) = Some ym.
Proof.
  intros [Hl Hd]. apply ascii_digits_are_digits in Hd.
  now apply period_file_is_read_digits.
Qed.

Lemma actions_file_is_read (ym : pystr) :
  six_digits ym ->
  search_actions_period (basename (actions_csv_filepath ym)) = Some ym.
Proof.
  intros [Hl Hd]. apply ascii_digits_are_digits in Hd.
  unfold actions_csv_filepath.
  rewrite basename_path_join by (now apply extracted_name_plain).
  apply re_search_here. now apply period_here_name.
Qed.

(* ================================================================== *)
(** ** Facts about the pattern of the comment *)

Lemma re_search_first (A : Type) (here : pystr -> option A) (s : pystr) (a : A) :
  re_search here s = Some a ->
  exists pre suf, s = pre ++ suf /\ here suf = Some a /\
    forall x y, pre = x ++ y -> y <> [] -> here (y ++ suf) = None.
Proof.
  induction s as [|c s IH]; cbn [re_search]; intro H.
  - destruct (here []) eqn:E; [|discriminate]. injection H as ->.
    exists [], []. repeat split; auto.
    intros x y Hxy Hy. now destruct x, y.
  - destruct (here (c :: s)) eqn:E.
    + injection H as ->. exists [], (c :: s). repeat split; auto.
      intros x y Hxy Hy. now destruct x, y.
    + destruct (IH H) as (pre & suf & -> & Hs & Hno).
      exists (c :: pre), suf. repeat split; auto.
      intros x y Hxy Hy. destruct x as [|c' x].
      * cbn [app] in Hxy. subst y. exact E.
      * injection Hxy as _ Hxy. now apply (Hno x y).
Qed.

(** A text that the letters of a pattern match under [re.IGNORECASE]. *)
Lemma ci_eq_lower (y : N) : ci_eq (to_lower y) y = true.
Proof. unfold ci_eq. now rewrite N.eqb_refl. Qed.

(** Below U+0500 a letter is matched by the characters whose lower case it
    is, and by no other. *)
Lemma ci_eq_alphabet (x y : N) :
  ci_eq x y = true -> (y <? 1280)%N = true -> to_lower y = x.
Proof.
  unfold ci_eq. intros H Hy. apply N.ltb_lt in Hy.
  apply orb_true_iff in H as [H|H]; [now apply N.eqb_eq|].
  exfalso. apply existsb_exists in H as (c & Hc & Hyc).
  apply N.eqb_eq in Hyc. subst c. unfold case_partners in Hc.
  repeat match type of Hc with
         | In _ (if ?b then _ else _) => destruct b
         end;
    cbn [In] in Hc;
    repeat match type of Hc with
           | _ \/ _ => destruct Hc as [Hc|Hc]
           end;
    try contradiction; subst y; discriminate.
Qed.

Lemma to_lower_below (y : N) : (y <= to_lower y)%N.
Proof.
  unfold to_lower.
  destruct ((65 <=? y) && (y <=? 90))%N; [lia|].
  destruct ((1024 <=? y) && (y <=? 1039))%N; [lia|].
  destruct ((1040 <=? y) && (y <=? 1071))%N; lia.
Qed.

(** A text whose lower case lies below U+0500 lies below U+0500. *)
Lemma lower_in_alphabet (m : pystr) :
  in_alphabet (lower m) = true -> in_alphabet m = true.
Proof.
  unfold in_alphabet, lower. induction m as [|c m IH]; [reflexivity|].
  cbn [map forallb]. intro H. apply andb_true_iff in H as [Hc Hm].
  rewrite (IH Hm), andb_true_r. apply N.ltb_lt in Hc. apply N.ltb_lt.
  pose proof (to_lower_below c). lia.
Qed.

Lemma strip_prefix_ci_some (p s m r : pystr) :
  strip_prefix_ci p s = Some (m, r) ->
  s = m ++ r /\ (in_alphabet m = true -> lower m = p).
Proof.
  revert s m r; induction p as [|x p IH]; intros s m r H; cbn [strip_prefix_ci] in H.
  - injection H as <- <-. auto.
  - destruct s as [|c s]; [discriminate|].
    destruct (ci_eq x c) eqn:Hc; [|discriminate].
    destruct (strip_prefix_ci p s) as [[m' r']|] eqn:E; [|discriminate].
    injection H as <- <-. destruct (IH _ _ _ E) as [-> Hl].
    split; [reflexivity|]. unfold in_alphabet. cbn [forallb lower map].
    intro Ha. apply andb_true_iff in Ha as [Hac Ham].
    rewrite (ci_eq_alphabet x c Hc Hac). f_equal. now apply Hl.
Qed.

Lemma strip_prefix_ci_lower (m r : pystr) :
  strip_prefix_ci (lower m) (m ++ r) = Some (m, r).
Proof.
  induction m as [|c m IH]; [reflexivity|].
  cbn [lower map app strip_prefix_ci]. rewrite ci_eq_lower.
  unfold lower in IH. now rewrite IH.
Qed.

Lemma strip_prefix_refl (p : pystr) : strip_prefix p p = Some [].
Proof. rewrite <- (app_nil_r p) at 2. apply strip_prefix_app. Qed.

(** When a pattern matches at a text that begins in Latin or Cyrillic
    letters, the pattern and the lower case of that beginning agree as far
    as both go. *)
Lemma strip_prefix_ci_agrees (p m rest : pystr) :
  in_alphabet m = true -> strip_prefix_ci p (m ++ rest) <> None ->
  exists tl, strip_prefix p (lower m ++ tl) <> None.
Proof.
  unfold in_alphabet.
  revert m; induction p as [|x p IH]; intros m Ha H.
  - exists []. discriminate.
  - destruct m as [|c m].
    + exists (x :: p). cbn [lower map app]. now rewrite strip_prefix_refl.
    + cbn [app strip_prefix_ci] in H. cbn [forallb] in Ha.
      apply andb_true_iff in Ha as [Hc Ha].
      destruct (ci_eq x c) eqn:Hx; [|now elim H].
      destruct (IH m Ha) as (tl & Htl).
      { intro Hn. rewrite Hn in H. now elim H. }
      exists tl. cbn [lower map app strip_prefix].
      rewrite (ci_eq_alphabet x c Hx Hc), N.eqb_refl. exact Htl.
Qed.

Lemma digit_not_space (c : N) : is_digit c = true -> is_space c = false.
Proof.
  intro H. unfold is_digit in H. apply existsb_exists in H as (z & Hz & H).
  apply andb_true_iff in H as [H1 H2]. apply N.leb_le in H1, H2.
  assert (Hall : forallb (fun z => forallb (fun i => negb (is_space (z + i)))
                                           [0; 1; 2; 3; 4; 5; 6; 7; 8; 9]%N)
                         digit_zeros = true) by (vm_compute; reflexivity).
  rewrite forallb_forall in Hall. specialize (Hall z Hz).
  rewrite forallb_forall in Hall.
  assert (Hin : In (c - z)%N [0; 1; 2; 3; 4; 5; 6; 7; 8; 9]%N).
  { cbn [In].
    assert (Hc : (c - z = 0 \/ c - z = 1 \/ c - z = 2 \/ c - z = 3 \/ c - z = 4 \/
                  c - z = 5 \/ c - z = 6 \/ c - z = 7 \/ c - z = 8 \/ c - z = 9)%N)
      by lia.
    intuition auto. }
  specialize (Hall _ Hin). replace (z + (c - z))%N with c in Hall by lia.
  now apply negb_true_iff.
Qed.

Lemma skip_spaces_split (s : pystr) :
  exists sp, s = sp ++ skip_spaces s /\ forallb is_space sp = true.
Proof.
  induction s as [|c s (sp & Hs & Hsp)]; [now exists []|].
  cbn [skip_spaces]. destruct (is_space c) eqn:Hc.
  - exists (c :: sp). cbn [app forallb]. rewrite Hc, Hsp. now rewrite <- Hs.
  - now exists [].
Qed.

Lemma skip_spaces_app (sp : pystr) (c : N) (t : pystr) :
  forallb is_space sp = true -> is_space c = false ->
  skip_spaces (sp ++ c :: t) = c :: t.
Proof.
  intros Hsp Hc. induction sp as [|x sp IH]; cbn [app skip_spaces].
  - now rewrite Hc.
  - cbn [forallb] in Hsp. apply andb_true_iff in Hsp as [Hx Hsp].
    rewrite Hx. now apply IH.
Qed.

(** What a match of the alternation and its continuation is made of. *)
Lemma month_then_year_some (alts : list (pystr * pystr)) (s m y : pystr) :
  month_then_year alts s = Some (m, y) ->
  exists name mm sp post,
    In (name, mm) alts /\ (in_alphabet m = true -> lower m = name) /\
    s = m ++ sp ++ y ++ post /\
    forallb is_space sp = true /\
    List.length y = 4%nat /\ forallb is_digit y = true.
Proof.
  induction alts as [|[name mm] alts IH]; cbn [month_then_year]; [discriminate|].
  intro H.
  destruct (strip_prefix_ci name s) as [[m' r]|] eqn:E;
    [|destruct (IH H) as (name' & mm' & sp & post & Hin & Hrest);
      exists name', mm', sp, post; split; [now right|exact Hrest]].
  destruct (take_digits 4 (skip_spaces r)) as [[y' tl]|] eqn:Ey;
    [|destruct (IH H) as (name' & mm' & sp & post & Hin & Hrest);
      exists name', mm', sp, post; split; [now right|exact Hrest]].
  injection H as <- <-.
  apply strip_prefix_ci_some in E as [-> Hl].
  apply take_digits_some in Ey as (Ey & Hlen & Hd).
  destruct (skip_spaces_split r) as (sp & Hr & Hsp).
  exists name, mm, sp, tl. split; [now left|]. split; [exact Hl|].
  split; [|auto]. rewrite Hr at 1. now rewrite Ey.
Qed.

(** The alternative of a month matches, provided no other name of the
    alternation matches at the text. *)
Lemma month_then_year_hit (alts : list (pystr * pystr)) (m rest y tl : pystr) :
  take_digits 4 (skip_spaces rest) = Some (y, tl) ->
  In (lower m) (map fst alts) ->
  (forall n', In n' (map fst alts) -> n' <> lower m ->
              strip_prefix_ci n' (m ++ rest) = None) ->
  month_then_year alts (m ++ rest) = Some (m, y).
Proof.
  intros Hy. induction alts as [|[name mm] alts IH]; cbn [map fst In]; [contradiction|].
  intros Hin Hno. cbn [month_then_year].
  destruct (list_eq_dec N.eq_dec name (lower m)) as [->|Hne].
  - now rewrite strip_prefix_ci_lower, Hy.
  - rewrite Hno by (auto).
    apply IH.
    + destruct Hin as [Hin|Hin]; [contradiction|exact Hin].
    + intros n' Hn'. apply Hno. now right.
Qed.

(** No name of a month starts with another one. *)
Lemma month_names_apart (name n' tl : pystr) :
  In name (map fst month_dict) -> In n' (map fst month_dict) -> n' <> name ->
  strip_prefix n' (name ++ tl) = None.
Proof.
  unfold month_dict. cbn [map fst In]. intros H H' Hne.
  repeat (destruct H as [H|H]; [|idtac]); try contradiction; subst name;
    (repeat (destruct H' as [H'|H']; [|idtac]); try contradiction; subst n';
     first [reflexivity | now elim Hne]).
Qed.

Lemma month_names_in_alphabet (name : pystr) :
  In name (map fst month_dict) -> in_alphabet name = true.
Proof.
  unfold month_dict. cbn [map fst In]. intro H.
  repeat (destruct H as [H|H]; [subst name; reflexivity|]). contradiction.
Qed.

Lemma month_dict_get (name mm : pystr) :
  In (name, mm) month_dict ->
  dict_get month_dict name = Some mm /\ List.length mm = 2%nat /\
  forallb is_ascii_digit mm = true.
Proof.
  unfold month_dict. cbn [In]. intro H.
  repeat (destruct H as [H|H]; [|idtac]); try contradiction;
    injection H as <- <-; repeat split; reflexivity.
Qed.

Lemma dict_get_in (d : list (pystr * pystr)) (k v : pystr) :
  dict_get d k = Some v -> In (k, v) d.
Proof.
  induction d as [|[k' v'] d IH]; cbn [dict_get In]; [discriminate|].
  destruct (str_eqb k' k) eqn:E; [|auto].
  apply str_eqb_eq in E. intro H. injection H as <-. subst. now left.
Qed.

Lemma comment_here_some (s m y : pystr) :
  comment_here s = Some (m, y) ->
  exists z name mm sp post,
    s = z ++ m ++ sp ++ y ++ post /\
    (in_alphabet z = true -> lower z = za_) /\
    In (name, mm) month_dict /\ (in_alphabet m = true -> lower m = name) /\
    forallb is_space sp = true /\
    List.length y = 4%nat /\ forallb is_digit y = true.
Proof.
  unfold comment_here. intro H.
  destruct (strip_prefix_ci za_ s) as [[z r]|] eqn:E; [|discriminate].
  apply strip_prefix_ci_some in E as [-> Hz].
  apply month_then_year_some in H as (name & mm & sp & post & Hin & Hl & -> & Hrest).
  exists z, name, mm, sp, post. auto.
Qed.

Lemma comment_here_hit (z m sp y post mm : pystr) :
  lower z = za_ -> In (lower m, mm) month_dict ->
  forallb is_space sp = true ->
  List.length y = 4%nat -> forallb is_digit y = true ->
  comment_here (z ++ m ++ sp ++ y ++ post) = Some (m, y).
Proof.
  intros Hz Hin Hsp Hl Hd. unfold comment_here.
  rewrite <- Hz, strip_prefix_ci_lower.
  assert (Hname : In (lower m) (map fst month_dict))
    by (apply in_map_iff; now exists (lower m, mm)).
  apply month_then_year_hit with (tl := post).
  - destruct y as [|c y]; [discriminate Hl|].
    cbn [forallb] in Hd. pose proof Hd as Hd'.
    apply andb_true_iff in Hd' as [Hc _].
    cbn [app]. rewrite skip_spaces_app by (auto using digit_not_space).
    change (c :: y ++ post) with ((c :: y) ++ post).
    rewrite <- Hl. now apply take_digits_app.
  - exact Hname.
  - intros n' Hn' Hne.
    destruct (strip_prefix_ci n' (m ++ sp ++ y ++ post)) as [[m' r']|] eqn:E;
      [|reflexivity].
    exfalso.
    destruct (@strip_prefix_ci_agrees n' m (sp ++ y ++ post)) as (tl & Htl).
    + apply lower_in_alphabet. now apply month_names_in_alphabet.
    + now rewrite E.
    + apply Htl. now apply month_names_apart.
Qed.

(** The period of a comment is four digits and the two digits of a month. *)
Lemma derived_period_digits (c : option value) (ym : pystr) :
  extract_year_month_from_comment c = Some ym ->
  List.length ym = 6%nat /\ forallb is_digit ym = true.
Proof.
  unfold extract_year_month_from_comment. intro H.
  destruct c as [[s|t]|]; try discriminate.
  destruct (re_search comment_here s) as [[m y]|] eqn:E; [|discriminate].
  apply re_search_some in E as (pre & suf & _ & Hs).
  apply comment_here_some in Hs as (z & name & mm & sp & post & _ & _ & _ & _ & _ & Hly & Hdy).
  destruct (dict_get month_dict (lower m)) as [month|] eqn:Eg; [|discriminate].
  injection H as <-. apply dict_get_in in Eg.
  destruct (month_dict_get Eg) as (_ & Hlm & Hdm).
  split; [rewrite length_app; now rewrite Hly, Hlm|].
  rewrite forallb_app, Hdy. now apply ascii_digits_are_digits.
Qed.

(* ================================================================== *)
(** ** Facts about the payments extractor *)

Lemma mem_in (k : pystr) (l : list pystr) : mem k l = true <-> In k l.
Proof.
  induction l as [|x l IH]; cbn [mem In]; [split; [discriminate|contradiction]|].
  rewrite orb_true_iff, IH. split; intros [H|H]; auto.
  - left. now apply str_eqb_eq.
  - left. subst. apply str_eqb_refl.
Qed.

Lemma mem_false (k : pystr) (l : list pystr) : mem k l = false <-> ~ In k l.
Proof.
  rewrite <- mem_in. destruct (mem k l); split; congruence.
Qed.

Lemma dedup_in (seen l : list pystr) (x : pystr) :
  In x (dedup seen l) <-> In x l /\ ~ In x seen.
Proof.
  revert seen; induction l as [|y l IH]; intro seen; cbn [dedup In]; [tauto|].
  destruct (mem y seen) eqn:E.
  - apply mem_in in E. rewrite IH. split.
    + intros [H1 H2]. auto.
    + intros [[->|H1] H2]; [contradiction|auto].
  - apply mem_false in E. cbn [In]. rewrite IH. cbn [In]. split.
    + intros [->|[H1 H2]]; auto.
    + intros [[->|H1] H2]; [now left|].
      destruct (list_eq_dec N.eq_dec y x) as [->|Hne]; [now left|right; tauto].
Qed.

Lemma dedup_nodup (seen l : list pystr) : NoDup (dedup seen l).
Proof.
  revert seen; induction l as [|y l IH]; intro seen; cbn [dedup]; [constructor|].
  destruct (mem y seen); [apply IH|].
  constructor; [|apply IH].
  rewrite dedup_in. cbn [In]. tauto.
Qed.

Lemma unique_year_months_in (data : list record) (ym : pystr) :
  In ym (unique_year_months data) <->
  exists r, In r data /\ year_month_of r = Some ym.
Proof.
  unfold unique_year_months. rewrite dedup_in, omap_in. cbn [In]. tauto.
Qed.

Lemma unique_year_months_nil (data : list record) :
  unique_year_months data = [] <-> filter notna data = [].
Proof.
  split; intro H.
  - destruct (filter notna data) as [|r rs] eqn:E; [reflexivity|].
    assert (Hr : In r (filter notna data)) by (rewrite E; now left).
    apply filter_In in Hr as [Hr Hn]. unfold notna in Hn.
    destruct (year_month_of r) as [ym|] eqn:Ey; [|discriminate].
    assert (Hin : In ym (unique_year_months data))
      by (apply unique_year_months_in; eauto).
    rewrite H in Hin. contradiction.
  - destruct (unique_year_months data) as [|ym yms] eqn:E; [reflexivity|].
    assert (Hin : In ym (unique_year_months data)) by (rewrite E; now left).
    apply unique_year_months_in in Hin as (r & Hr & Hy).
    assert (Hf : In r (filter notna data))
      by (apply filter_In; split; [exact Hr|unfold notna; now rewrite Hy]).
    rewrite H in Hf. contradiction.
Qed.

Lemma list_sum_cons (x : nat) (l : list nat) : list_sum (x :: l) = (x + list_sum l)%nat.
Proof. reflexivity. Qed.

Lemma list_sum_zero (A : Type) (l : list A) : list_sum (map (fun _ => 0%nat) l) = 0%nat.
Proof. induction l as [|x l IH]; [reflexivity|]. cbn [map]. now rewrite list_sum_cons, IH. Qed.

Lemma list_sum_add (A : Type) (f g : A -> nat) (l : list A) :
  list_sum (map (fun x => (f x + g x)%nat) l)
  = (list_sum (map f l) + list_sum (map g l))%nat.
Proof.
  induction l as [|x l IH]; [reflexivity|].
  cbn [map]. rewrite !list_sum_cons, IH. lia.
Qed.

(** In a list without repetition one entry equals a given text, or none. *)
Lemma count_one (y : pystr) (l : list pystr) :
  NoDup l ->
  list_sum (map (fun x => if str_eqb y x then 1%nat else 0%nat) l)
  = if mem y l then 1%nat else 0%nat.
Proof.
  induction 1 as [|x l Hx Hnd IH]; [reflexivity|].
  cbn [map mem]. rewrite list_sum_cons, IH.
  destruct (str_eqb y x) eqn:E.
  - apply str_eqb_eq in E. subst x. rewrite str_eqb_refl. cbn [orb].
    apply mem_false in Hx. now rewrite Hx.
  - destruct (str_eqb x y) eqn:E'; [|reflexivity].
    apply str_eqb_eq in E'. subst x. now rewrite str_eqb_refl in E.
Qed.

Lemma tagged_count (yms : list pystr) (data : list record) :
  NoDup yms ->
  (forall r ym, In r data -> year_month_of r = Some ym -> In ym yms) ->
  list_sum (map (fun ym => List.length (filter (tagged ym) data)) yms)
  = List.length (filter notna data).
Proof.
  intros Hnd. induction data as [|r data IH]; intro Hall.
  - cbn [filter List.length]. apply list_sum_zero.
  - rewrite (map_ext _ (fun ym => ((if tagged ym r then 1 else 0)
                                   + List.length (filter (tagged ym) data))%nat))
      by (intro ym; cbn [filter]; now destruct (tagged ym r)).
    rewrite list_sum_add, IH by (intros r' ym Hr; apply Hall; now right).
    cbn [filter].
    destruct (year_month_of r) as [y|] eqn:E.
    + assert (Hn : notna r = true) by (unfold notna; now rewrite E).
      rewrite Hn. cbn [List.length].
      rewrite (map_ext (fun ym => if tagged ym r then 1%nat else 0%nat)
                       (fun ym => if str_eqb y ym then 1%nat else 0%nat))
        by (intro ym; unfold tagged; now rewrite E).
      rewrite (count_one y Hnd).
      assert (Hy : In y yms) by (apply (Hall r); [now left|exact E]).
      apply mem_in in Hy. now rewrite Hy.
    + assert (Hn : notna r = false) by (unfold notna; now rewrite E).
      rewrite Hn.
      rewrite (map_ext (fun ym => if tagged ym r then 1%nat else 0%nat)
                       (fun _ => 0%nat))
        by (intro ym; unfold tagged; now rewrite E).
      now rewrite list_sum_zero.
Qed.

Lemma cell_last (l : row) (k v : pystr) :
  (forall kv, In kv l -> str_eqb (fst kv) k = false) ->
  cell (l ++ [(k, v)]) k = v.
Proof.
  induction l as [|[k' v'] l IH]; intro H; cbn [app cell].
  - now rewrite str_eqb_refl.
  - pose proof (H (k', v') (or_introl eq_refl)) as Hk. cbn [fst] in Hk.
    rewrite Hk. apply IH.
    intros kv Hkv. apply H. now right.
Qed.

Lemma with_year_month_cell (ym : pystr) (r : record) :
  cell (with_year_month ym r) col_year_month = ym.
Proof.
  unfold with_year_month. apply cell_last.
  intros kv Hkv. apply in_map_iff in Hkv as (kv' & <- & Hkv').
  apply filter_In in Hkv' as [_ Hk]. cbn [fst]. now apply negb_true_iff.
Qed.

Lemma lookup_in (p : pystr) (f : file) (fs : list (pystr * file)) :
  lookup p fs = Some f -> In p (map fst fs).
Proof.
  induction fs as [|[q g] fs IH]; cbn [lookup map fst In]; [discriminate|].
  destruct (str_eqb q p) eqn:E; [|auto].
  apply str_eqb_eq in E. auto.
Qed.

Lemma record_get_key (r : record) (k : pystr) :
  has_key k r = true -> In k (map fst r).
Proof.
  unfold has_key. induction r as [|[k' v] r IH]; cbn [record_get map fst In];
    [discriminate|].
  destruct (str_eqb k' k) eqn:E; [|auto].
  apply str_eqb_eq in E. auto.
Qed.

Lemma data_columns_key (data : list record) (k : pystr) :
  existsb (has_key k) data = true -> mem k (data_columns data) = true.
Proof.
  intro H. apply existsb_exists in H as (r & Hr & Hk).
  apply mem_in. unfold data_columns. apply dedup_in. split; [|auto].
  apply in_or_app. left. apply in_concat.
  exists (map fst r). split; [now apply in_map|now apply record_get_key].
Qed.

Lemma data_columns_year_month (data : list record) :
  mem col_year_month (data_columns data) = true.
Proof.
  apply mem_in. unfold data_columns. apply dedup_in. split; [|auto].
  apply in_or_app. right. now left.
Qed.

(** The loop over the periods when every write succeeds and the column
    payment_uuid is there. *)
Lemma write_periods_ok (e : env) (data : list record) (yms : list pystr) (d : disk) :
  writes_succeed e ->
  exists d',
    write_periods e true data yms d
    = (Some (List.concat
               (map (fun ym => map (metadata_row ym (payments_csv_filepath ym))
                                   (period_rows data ym)) yms)), d') /\
    (forall ym, In ym yms ->
                lookup (payments_csv_filepath ym) (files d')
                = Some (Csv (period_table data ym))) /\
    (forall q, (forall ym, In ym yms -> q <> payments_csv_filepath ym) ->
               lookup q (files d') = lookup q (files d)).
Proof.
  intro Hw. revert d; induction yms as [|ym yms IH]; intro d.
  - exists d. cbn [write_periods map List.concat]. repeat split; auto.
    intros ym [].
  - cbn [write_periods]. rewrite Hw.
    destruct (IH (write (payments_csv_filepath ym) (Csv (period_table data ym)) d))
      as (d' & Heq & Hin & Hout).
    rewrite Heq. exists d'. split; [reflexivity|]. split.
    + intros ym' Hym'.
      destruct (in_dec (list_eq_dec N.eq_dec) ym' yms) as [Hi|Hni]; [now apply Hin|].
      destruct Hym' as [<-|Hi]; [|contradiction].
      rewrite Hout.
      * cbn [write files]. apply lookup_upsert_same.
      * intros ym'' Hi Heq'. apply payments_csv_filepath_inj in Heq'. now subst.
    + intros q Hq. rewrite Hout by (intros ym' Hi; apply Hq; now right).
      cbn [write files]. apply lookup_upsert_other. apply Hq. now left.
Qed.

(* ================================================================== *)
(** ** Facts about runs of the orchestrator *)

Lemma action_details_script_clean (e : env) (d : disk) (p : pystr) :
  never_drops e -> fst (action_details_script e d p) = 0%Z.
Proof.
  intro Hn. unfold action_details_script.
  destruct (negb (token_set e)); [reflexivity|].
  destruct (read_csv e d p) as [t| |]; try reflexivity.
  destruct (rows t) as [|r rs] eqn:Er; [reflexivity|].
  destruct (negb (mem col_action_id (columns t))); [reflexivity|].
  destruct (search_actions_period (basename p)) as [ym|]; [|reflexivity].
  destruct (collect_details e (clock d) (r :: rs)) as [[all|] k] eqn:E.
  - now destruct (save_actions_details_to_csv e all (details_csv_filepath ym) _).
  - exfalso.
    assert (Hd : connection_drops e (clock d) (r :: rs))
      by (apply collect_details_none; now rewrite E).
    destruct Hd as (i & r' & _ & Hf). now apply Hn in Hf.
Qed.

(** An exception leaves [extract_payment_actions] exactly when the input is
    accepted and an answer makes the loop raise. *)
Lemma extract_payment_actions_raises (e : env) (d : disk) (path : pystr) :
  fst (extract_payment_actions e d path) = Exception <->
  exists t ym,
    read_csv e d path = ReadOk t /\
    mem col_payment_uuid (columns t) = true /\
    mem col_year_month (columns t) = true /\
    search_payments_period (basename path) = Some ym /\
    answer_throws e (clock d) (rows t).
Proof.
  unfold extract_payment_actions.
  destruct (read_csv e d path) as [t| |] eqn:Hr;
    try (split; [discriminate|intros (t' & ym & Ht & _); discriminate]).
  destruct (mem col_payment_uuid (columns t)) eqn:Hu; cbn [negb orb];
    [|split; [discriminate|intros (t' & ym & Ht & Hu' & _); congruence]].
  destruct (mem col_year_month (columns t)) eqn:Hy; cbn [negb];
    [|split; [discriminate|intros (t' & ym & Ht & _ & Hy' & _); congruence]].
  destruct (search_payments_period (basename path)) as [ym|] eqn:Hp;
    [|split; [discriminate|intros (t' & ym & _ & _ & _ & Hp' & _); discriminate]].
  pose proof (collect_actions_none e (rows t) (clock d)) as Hnone.
  destruct (collect_actions e (clock d) (rows t)) as [[all|] k]; cbn [fst] in *.
  - split.
    + destruct all; [discriminate|].
      now destruct (save_actions_to_csv e (r :: all) (actions_csv_filepath ym) _).
    + intros (t' & ym' & Ht & _ & _ & _ & Hth). injection Ht as <-.
      apply Hnone in Hth. discriminate.
  - split; [|reflexivity]. intros _. exists t, ym.
    repeat match goal with |- _ /\ _ => split end; auto. now apply Hnone.
Qed.

Lemma extract_payment_actions_returns (e : env) (d : disk) (path : pystr) :
  never_throws e -> fst (extract_payment_actions e d path) <> Exception.
Proof.
  intros Hn H. apply extract_payment_actions_raises in H
    as (t & ym & _ & _ & _ & _ & Hth).
  now apply (@never_throws_here e (clock d) (rows t) Hn).
Qed.

Lemma process_period_clean (e : env) (w : world) (p ym : pystr) :
  always_launches e -> never_throws e -> never_drops e ->
  fst (process_period e w p ym)
  = [StageRun EXTRACT_PAYMENT_ACTIONS_SCRIPT ym p (Returned true);
     StageRun EXTRACT_ACTION_DETAILS_SCRIPT ym (actions_csv_filepath ym) (Returned true);
     Marked ym].
Proof.
  intros Hl Ht Hn. unfold process_period, run_script. rewrite Hl.
  cbn [script_process].
  pose proof (@payment_actions_script_zero e (tick (the_disk w)) p
                (@extract_payment_actions_returns e (tick (the_disk w)) p Ht)) as H1.
  destruct (payment_actions_script e (tick (the_disk w)) p) as [c1 d1].
  cbn [fst] in H1. subst c1. cbn [Z.eqb]. rewrite Hl.
  pose proof (@action_details_script_clean e (tick d1) (actions_csv_filepath ym) Hn) as H2.
  destruct (action_details_script e (tick d1) (actions_csv_filepath ym)) as [c2 d2].
  cbn [fst] in H2. subst c2. reflexivity.
Qed.

Lemma process_file_clean (e : env) (w : world) (p : pystr) :
  always_launches e -> never_throws e -> never_drops e ->
  omap marked (fst (process_file e w p)) = omap started (fst (process_file e w p)) /\
  Forall (fun ev => match ev with
                    | StageRun _ _ _ r => r = Returned true
                    | Errored _ => False
                    | _ => True
                    end) (fst (process_file e w p)).
Proof.
  intros Hl Ht Hn. unfold process_file.
  destruct (search_payments_period (basename p)) as [ym|]; [|split; [reflexivity|now repeat constructor]].
  destruct (str_geb ym MIN_YEAR_MONTH && negb (is_period_processed (ledger w) ym));
    [|split; [reflexivity|now repeat constructor]].
  pose proof (@process_period_clean e w p ym Hl Ht Hn) as H.
  destruct (process_period e w p ym) as [log w']. cbn [fst] in *. subst log.
  split; [reflexivity|now repeat constructor].
Qed.

Lemma process_files_clean (e : env) (w : world) (ps : list pystr) :
  always_launches e -> never_throws e -> never_drops e ->
  omap marked (fst (process_files e w ps)) = omap started (fst (process_files e w ps)) /\
  Forall (fun ev => match ev with
                    | StageRun _ _ _ r => r = Returned true
                    | Errored _ => False
                    | _ => True
                    end) (fst (process_files e w ps)).
Proof.
  intros Hl Ht Hn. revert w; induction ps as [|p ps IH]; intro w.
  - split; [reflexivity|constructor].
  - rewrite process_files_cons. cbn [fst].
    destruct (@process_file_clean e w p Hl Ht Hn) as [H1 H2].
    destruct (IH (snd (process_file e w p))) as [H3 H4].
    split; [now rewrite !omap_app, H1, H3|].
    apply Forall_app. now split.
Qed.

(** In a sorted list the entries of empty key stand first. *)
Lemma sorted_empty_first (key : pystr -> pystr) (l : list pystr) :
  StronglySorted (key_le key) l ->
  l = filter (fun p => str_eqb (key p) []) l
      ++ filter (fun p => negb (str_eqb (key p) [])) l.
Proof.
  induction 1 as [|x l Hs IH Hx]; [reflexivity|].
  cbn [filter]. destruct (key x) as [|c k] eqn:Ek; cbn [str_eqb negb].
  - cbn [app]. now rewrite <- IH.
  - assert (Hall : forall y, In y l -> str_eqb (key y) [] = false).
    { intros y Hy. rewrite Forall_forall in Hx. specialize (Hx y Hy).
      unfold key_le, str_le in Hx. rewrite Ek in Hx.
      destruct (key y); [discriminate Hx|reflexivity]. }
    assert (H1 : filter (fun p => str_eqb (key p) []) l = []).
    { clear -Hall. induction l as [|y l IH]; [reflexivity|].
      cbn [filter]. rewrite (Hall y (or_introl eq_refl)).
      apply IH. intros z Hz. apply Hall. now right. }
    assert (H2 : filter (fun p => negb (str_eqb (key p) [])) l = l).
    { clear -Hall. induction l as [|y l IH]; [reflexivity|].
      cbn [filter]. rewrite (Hall y (or_introl eq_refl)). cbn [negb].
      f_equal. apply IH. intros z Hz. apply Hall. now right. }
    now rewrite H1, H2.
Qed.

Lemma period_not_empty (p ym : pystr) : period_of_path p = Some ym -> ym <> [].
Proof.
  unfold period_of_path, search_payments_period. intro H.
  apply re_search_some in H as (pre & suf & _ & H).
  apply period_here_some in H as (Hl & _). intros ->. discriminate Hl.
Qed.

(** On a globbed path the sort key is empty exactly when the name carries
    no period. *)
Lemma key_empty (p : pystr) :
  globbed p = true ->
  str_eqb (extract_year_month_from_filename p) [] = negb (has_period p).
Proof.
  intro Hg. rewrite (key_of_globbed _ Hg). unfold has_period.
  destruct (period_of_path p) as [ym|] eqn:E; [|reflexivity].
  apply period_not_empty in E. now destruct ym.
Qed.

Lemma process_files_stray (e : env) (w : world) (bad good : list pystr) :
  Forall (fun p => has_period p = false) bad ->
  process_files e w (bad ++ good)
  = (map (fun p => BadName (basename p)) bad ++ fst (process_files e w good),
     snd (process_files e w good)).
Proof.
  induction 1 as [|p bad Hp Hbad IH];
    [cbn [app map]; now destruct (process_files e w good)|].
  cbn [app map]. rewrite process_files_bad_name, IH; [reflexivity|].
  unfold has_period in Hp. now destruct (period_of_path p).
Qed.



(* ================================================================== *)
(** ** Facts about [process_action_details] *)

Lemma str_eqb_neq (a b : pystr) : a <> b -> str_eqb a b = false.
Proof.
  intro H. destruct (str_eqb a b) eqn:E; [|reflexivity].
  apply str_eqb_eq in E. contradiction.
Qed.

Lemma jfind_none (d : list (pystr * json)) (k : pystr) :
  jfind d k = None <-> ~ In k (map fst d).
Proof.
  induction d as [|[k' v] d IH]; cbn [jfind map fst In]; [tauto|].
  destruct (str_eqb k' k) eqn:E.
  - apply str_eqb_eq in E. split; [discriminate|]. intro H. elim H. now left.
  - rewrite IH. split; [|tauto]. intros H [H'|H']; [|contradiction].
    subst. now rewrite str_eqb_refl in E.
Qed.

Lemma jfind_app (d1 d2 : list (pystr * json)) (k : pystr) :
  jfind (d1 ++ d2) k = match jfind d1 k with Some v => Some v | None => jfind d2 k end.
Proof.
  induction d1 as [|[k' v] d1 IH]; cbn [app jfind]; [reflexivity|].
  now destruct (str_eqb k' k).
Qed.

Lemma jfind_assign (d : list (pystr * json)) (k q : pystr) (v : json) :
  jfind (assign d k v) q = if str_eqb k q then Some v else jfind d q.
Proof.
  induction d as [|[k' v'] d IH]; cbn [assign jfind]; [reflexivity|].
  destruct (str_eqb k' k) eqn:E; cbn [jfind].
  - apply str_eqb_eq in E. subst k'. now destruct (str_eqb k q).
  - rewrite IH. destruct (str_eqb k' q) eqn:Ek, (str_eqb k q) eqn:Eq; try reflexivity.
    apply str_eqb_eq in Ek, Eq. subst. now rewrite str_eqb_refl in E.
Qed.

Lemma assign_fresh (d : list (pystr * json)) (k : pystr) (v : json) :
  ~ In k (map fst d) -> assign d k v = d ++ [(k, v)].
Proof.
  induction d as [|[k' v'] d IH]; cbn [assign map fst In app]; [reflexivity|].
  intro H. rewrite str_eqb_neq by tauto. f_equal. apply IH. tauto.
Qed.

Lemma assign_keys (d : list (pystr * json)) (k : pystr) (v : json) :
  map fst (assign d k v)
  = if mem k (map fst d) then map fst d else map fst d ++ [k].
Proof.
  induction d as [|[k' v'] d IH]; cbn [assign map fst mem app]; [reflexivity|].
  destruct (str_eqb k' k) eqn:E; cbn [orb map fst]; [reflexivity|].
  rewrite IH. now destruct (mem k (map fst d)).
Qed.

Lemma assign_all_cons (d l : list (pystr * json)) (k : pystr) (v : json) :
  assign_all d ((k, v) :: l) = assign_all (assign d k v) l.
Proof. reflexivity. Qed.

(** Assignments to new, pairwise different keys append in order. *)
Lemma assign_all_fresh (d l : list (pystr * json)) :
  NoDup (map fst l) ->
  (forall k, In k (map fst l) -> ~ In k (map fst d)) ->
  assign_all d l = d ++ l.
Proof.
  revert d; induction l as [|[k v] l IH]; intros d Hnd Hnew.
  - cbn. now rewrite app_nil_r.
  - rewrite assign_all_cons. cbn [map fst] in Hnd, Hnew.
    inversion Hnd as [|? ? Hk Hl]; subst.
    rewrite assign_fresh by (apply Hnew; now left).
    rewrite IH; [now rewrite <- app_assoc|exact Hl|].
    intros q Hq. rewrite map_app, in_app_iff. cbn [map fst In].
    intros [H|[H|[]]]; [now apply (Hnew q (or_intror Hq))|subst; contradiction].
Qed.

Lemma dedup_seen (s1 s2 l : list pystr) :
  (forall x, mem x s1 = mem x s2) -> dedup s1 l = dedup s2 l.
Proof.
  revert s1 s2; induction l as [|y l IH]; intros s1 s2 H; cbn [dedup]; [reflexivity|].
  rewrite <- H. destruct (mem y s1); [now apply IH|].
  f_equal. apply IH. intro x. cbn [mem]. now rewrite H.
Qed.

Lemma mem_app (x : pystr) (a b : list pystr) : mem x (a ++ b) = mem x a || mem x b.
Proof.
  induction a as [|y a IH]; cbn [app mem]; [reflexivity|].
  now rewrite IH, orb_assoc.
Qed.

(** The keys after a run of assignments: the old ones, then the new ones
    in the order of their first assignment. *)
Lemma assign_all_keys (d l : list (pystr * json)) :
  map fst (assign_all d l) = map fst d ++ dedup (map fst d) (map fst l).
Proof.
  revert d; induction l as [|[k v] l IH]; intro d.
  - cbn. now rewrite app_nil_r.
  - rewrite assign_all_cons, IH, assign_keys. cbn [map fst dedup].
    destruct (mem k (map fst d)) eqn:E; [reflexivity|].
    rewrite <- app_assoc. cbn [app]. do 2 f_equal.
    apply dedup_seen. intro x. rewrite mem_app. cbn [mem].
    now rewrite orb_false_r, orb_comm.
Qed.

(** The value after a run of assignments: the one assigned last. *)
Lemma jfind_assign_all (d l : list (pystr * json)) (q : pystr) :
  jfind (assign_all d l) q
  = match jfind (rev l) q with Some v => Some v | None => jfind d q end.
Proof.
  revert d; induction l as [|[k v] l IH]; intro d; [reflexivity|].
  rewrite assign_all_cons, IH. cbn [rev]. rewrite jfind_app, jfind_assign.
  cbn [jfind]. now destruct (jfind (rev l) q), (str_eqb k q).
Qed.

Lemma fixed_key_no_metadata (k n : pystr) :
  In k fixed_keys -> k <> Keys.metadata_ ++ n.
Proof.
  intros H ->. unfold fixed_keys, main_fields, history_fields in H.
  cbn [map fst app In] in H.
  repeat (destruct H as [H|H]; [discriminate H|]). exact H.
Qed.

Lemma fixed_keys_nodup : NoDup fixed_keys.
Proof.
  assert (H : dedup [] fixed_keys = fixed_keys) by reflexivity.
  rewrite <- H. apply dedup_nodup.
Qed.

(** When the comprehension fails. *)
Lemma gather_failed (items : list json) :
  gather items = Failed <-> Exists (fun it => item_pair it = Raises) items.
Proof.
  induction items as [|it items IH]; cbn [gather].
  - split; [discriminate|]. intro H. inversion H.
  - rewrite Exists_cons, <- IH.
    destruct (item_pair it) as [n v| |]; destruct (gather items);
      split; try discriminate; try tauto; try (intros [H|H]; discriminate).
Qed.

Lemma gather_pairs (items : list json) (pairs : list (pystr * json)) :
  gather items = Gathered pairs <->
  Forall2 (fun it nv => item_pair it = Pair (fst nv) (snd nv)) items pairs.
Proof.
  revert pairs; induction items as [|it items IH]; intro pairs; cbn [gather].
  - split.
    + intro H. injection H as <-. constructor.
    + intro H. inversion H. reflexivity.
  - split.
    + intro H. destruct (item_pair it) as [n v| |] eqn:E; [|discriminate|].
      * destruct (gather items) as [l| |] eqn:G; try discriminate.
        injection H as <-. constructor; [exact E|]. now apply IH.
      * destruct (gather items); discriminate.
    + intro H. inversion H as [|? [n v] ? l Hp Hrest]; subst.
      cbn [fst snd] in Hp. rewrite Hp.
      apply IH in Hrest. now rewrite Hrest.
Qed.

Lemma nodup_prefix (p : pystr) (l : list pystr) :
  NoDup l -> NoDup (map (app p) l).
Proof.
  induction 1 as [|x l Hx Hl IH]; cbn [map]; constructor; [|exact IH].
  intro H. apply in_map_iff in H as (y & Hy & Hin).
  apply app_inv_head in Hy. now subst.
Qed.

Lemma history_part_keys (o hist : list (pystr * json)) :
  history_part o = Some hist -> map fst hist = map fst history_fields.
Proof.
  unfold history_part. intro H.
  destruct (jfind o Keys.history) as [h|];
    [destruct (truthy h);
     [destruct (first_item h) as [[| | | | |entry]|]; try discriminate|]|];
    injection H as <-; reflexivity.
Qed.

Lemma metadata_part_keys (o md : list (pystr * json)) :
  metadata_part o = Gathered md -> NoDup (map fst md).
Proof.
  unfold metadata_part. intro H.
  destruct (jfind o Keys.metadata) as [m|]; [|injection H as <-; constructor].
  destruct (truthy m); [|injection H as <-; constructor].
  destruct (iterate m) as [items|]; [|discriminate].
  destruct (gather items) as [pairs| |]; try discriminate.
  injection H as <-. rewrite assign_all_keys. apply dedup_nodup.
Qed.

(** The result when nothing raises. *)
Lemma process_data (o hist md : list (pystr * json)) :
  history_part o = Some hist -> metadata_part o = Gathered md ->
  process_action_details (JObj o)
  = Data (map (fun k => (k, jget o k)) main_fields ++ hist
          ++ map (fun kv => (Keys.metadata_ ++ fst kv, snd kv)) md).
Proof.
  intros Hh Hm. unfold process_action_details. rewrite Hh, Hm.
  pose proof (history_part_keys _ Hh) as Hk.
  pose proof (metadata_part_keys _ Hm) as Hnd.
  assert (Hmain : map fst (map (fun k => (k, jget o k)) main_fields) = main_fields)
    by (rewrite map_map; apply map_id).
  pose proof fixed_keys_nodup as Hfix. unfold fixed_keys in Hfix.
  set (main := map (fun k => (k, jget o k)) main_fields) in *.
  set (pref := map (fun kv => (Keys.metadata_ ++ fst kv, snd kv)) md).
  assert (E1 : assign_all [] main = main).
  { rewrite assign_all_fresh; [reflexivity| |auto].
    rewrite Hmain. now apply NoDup_app_remove_r in Hfix. }
  assert (E2 : assign_all main hist = main ++ hist).
  { apply assign_all_fresh.
    - rewrite Hk. now apply NoDup_app_remove_l in Hfix.
    - rewrite Hk, Hmain. intros k Hin Hin'.
      unfold main_fields, history_fields in Hin, Hin'. cbn [map fst In] in Hin, Hin'.
      repeat (destruct Hin as [Hin|Hin]; [subst k|]); try contradiction;
        repeat (destruct Hin' as [Hin'|Hin']; [discriminate Hin'|]); exact Hin'. }
  assert (E3 : assign_all (main ++ hist) pref = (main ++ hist) ++ pref).
  { apply assign_all_fresh.
    - unfold pref. rewrite map_map. cbn [fst].
      rewrite <- (map_map fst (app Keys.metadata_)). now apply nodup_prefix.
    - intros k Hin Hin'. unfold pref in Hin. rewrite map_map in Hin. cbn [fst] in Hin.
      apply in_map_iff in Hin as ([n v] & <- & _). cbn [fst] in Hin'.
      rewrite map_app, Hmain, Hk in Hin'.
      now apply (@fixed_key_no_metadata (Keys.metadata_ ++ n) n). }
  rewrite E1, E2, E3. now rewrite <- app_assoc.
Qed.

Lemma process_data_inv (a : json) (d : list (pystr * json)) :
  process_action_details a = Data d ->
  exists o hist md,
    a = JObj o /\ history_part o = Some hist /\ metadata_part o = Gathered md /\
    d = map (fun k => (k, jget o k)) main_fields ++ hist
        ++ map (fun kv => (Keys.metadata_ ++ fst kv, snd kv)) md.
Proof.
  intro H. destruct a as [| | | | |o]; try discriminate.
  destruct (history_part o) as [hist|] eqn:Hh;
    [|unfold process_action_details in H; now rewrite Hh in H].
  destruct (metadata_part o) as [md| |] eqn:Hm;
    try (unfold process_action_details in H; rewrite Hh, Hm in H; discriminate).
  rewrite (process_data _ Hh Hm) in H. injection H as <-.
  exists o, hist, md. auto.
Qed.

Lemma jfind_prefix (p n : pystr) (md : list (pystr * json)) :
  jfind (map (fun kv => (p ++ fst kv, snd kv)) md) (p ++ n) = jfind md n.
Proof.
  induction md as [|[k v] md IH]; cbn [map jfind fst snd]; [reflexivity|].
  rewrite IH. destruct (str_eqb k n) eqn:E.
  - apply str_eqb_eq in E. subst. now rewrite str_eqb_refl.
  - rewrite str_eqb_neq; [reflexivity|].
    intro H. apply app_inv_head in H. subst. now rewrite str_eqb_refl in E.
Qed.

Lemma jfind_fixed_only (o hist md : list (pystr * json)) (n : pystr) :
  map fst hist = map fst history_fields ->
  jfind (map (fun k => (k, jget o k)) main_fields ++ hist
         ++ map (fun kv => (Keys.metadata_ ++ fst kv, snd kv)) md)
        (Keys.metadata_ ++ n)
  = jfind md n.
Proof.
  intro Hk. rewrite !jfind_app.
  assert (H1 : jfind (map (fun k => (k, jget o k)) main_fields) (Keys.metadata_ ++ n) = None).
  { apply jfind_none. rewrite map_map. cbn [fst]. rewrite map_id. intro H.
    apply (@fixed_key_no_metadata (Keys.metadata_ ++ n) n); [|reflexivity].
    unfold fixed_keys. apply in_or_app. now left. }
  assert (H2 : jfind hist (Keys.metadata_ ++ n) = None).
  { apply jfind_none. rewrite Hk. intro H.
    apply (@fixed_key_no_metadata (Keys.metadata_ ++ n) n); [|reflexivity].
    unfold fixed_keys. apply in_or_app. now right. }
  rewrite H1, H2. apply jfind_prefix.
Qed.

(* ================================================================== *)
(** ** Stages that cannot do their work *)

(** A payments extractor that cannot do its work ends with status 0 and
    writes nothing. *)
Lemma payments_script_fails (e : env) (d : disk) :
  payments_extraction_fails e d ->
  fst (payments_script e d) = 0%Z /\ files (snd (payments_script e d)) = files d.
Proof.
  intro H. split; [apply payments_script_status|].
  unfold payments_extraction_fails in H. unfold payments_script.
  destruct (token_set e) eqn:Htok; cbn [negb]; [|reflexivity].
  destruct H as [H|[H|(data & Hd & Hc)]].
  - discriminate H.
  - destruct (api_user_payments e (clock d)) as [| | |data]; try reflexivity.
    now elim (H data).
  - rewrite Hd, Hc. reflexivity.
Qed.

Lemma extract_payment_actions_false (e : env) (d : disk) (path : pystr) :
  fst (extract_payment_actions e d path) = Value false ->
  extract_payment_actions e d path = (Value false, d).
Proof.
  unfold extract_payment_actions.
  destruct (read_csv e d path) as [t| |]; try reflexivity.
  destruct (negb (mem col_payment_uuid (columns t)) || negb (mem col_year_month (columns t)));
    [reflexivity|].
  destruct (search_payments_period (basename path)) as [ym|]; [|reflexivity].
  destruct (collect_actions e (clock d) (rows t)) as [[[|a l]|] k]; cbn [fst];
    try discriminate.
  destruct (save_actions_to_csv e (a :: l) (actions_csv_filepath ym)
                                {| clock := k; files := files d |}); cbn [fst]; discriminate.
Qed.

(** A payment-actions extractor that cannot do its work ends with status 0
    and leaves the disk as it was. *)
Lemma payment_actions_script_fails (e : env) (d : disk) (path : pystr) :
  actions_stage_fails e d path -> payment_actions_script e d path = (0%Z, d).
Proof.
  intro H. unfold actions_stage_fails in H. unfold payment_actions_script.
  destruct (token_set e) eqn:Htok; cbn [negb]; [|reflexivity].
  destruct H as [H|H]; [discriminate H|].
  now rewrite (extract_payment_actions_false e d path H).
Qed.

(** An action-details extractor that cannot do its work ends with status 0
    and leaves the disk as it was. *)
Lemma action_details_script_fails (e : env) (d : disk) (path : pystr) :
  details_stage_fails e d path -> action_details_script e d path = (0%Z, d).
Proof.
  intro H. unfold details_stage_fails in H. unfold action_details_script.
  destruct (token_set e) eqn:Htok; cbn [negb]; [|reflexivity].
  destruct H as [H|[H|[H|[(t & Ht & Hc)|H]]]].
  - discriminate H.
  - now rewrite H.
  - now rewrite H.
  - rewrite Ht. destruct (rows t); [reflexivity|]. now rewrite Hc.
  - destruct (read_csv e d path) as [t| |]; try reflexivity.
    destruct (rows t); [reflexivity|].
    destruct (negb (mem col_action_id (columns t))); [reflexivity|].
    now rewrite H.
Qed.

(** What [run_script] returns for a script that starts. *)
Lemma run_script_runs (e : env) (s : script) (arg : option pystr) (d : disk) :
  launch_at e (clock d) = Runs ->
  run_script e s arg d
  = (Returned (fst (script_process e s arg (tick d)) =? 0)%Z,
     snd (script_process e s arg (tick d))).
Proof.
  intro H. unfold run_script. rewrite H.
  now destruct (script_process e s arg (tick d)).
Qed.

(** The first lines of the turn of a period that passes the guards. *)
Lemma process_file_started (e : env) (w : world) (p ym : pystr) :
  period_of_path p = Some ym ->
  str_geb ym MIN_YEAR_MONTH = true ->
  is_period_processed (ledger w) ym = false ->
  process_file e w p
  = (Evaluated ym :: Started ym :: fst (process_period e w p ym),
     snd (process_period e w p ym)).
Proof.
  intros Hp Hmin Hl. unfold process_file.
  unfold period_of_path in Hp. cbv zeta. rewrite Hp, Hmin, Hl. cbn [andb negb].
  now destruct (process_period e w p ym).
Qed.

(** The times of the calls along a list of rows. *)
Lemma timed_app (k : nat) (a b : list row) :
  timed k (a ++ b) = timed k a ++ timed (k + List.length a) b.
Proof.
  unfold timed. revert k; induction a as [|x a IH]; intro k.
  - cbn [app List.length seq combine]. now rewrite Nat.add_0_r.
  - cbn [app List.length seq combine]. rewrite IH.
    now replace (S k + List.length a)%nat with (k + S (List.length a))%nat by lia.
Qed.

Lemma timed_cons (k : nat) (r : row) (rs : list row) :
  timed k (r :: rs) = (k, r) :: timed (S k) rs.
Proof. reflexivity. Qed.

(** The loop of the actions extractor, when no answer makes it raise. *)
Lemma collect_actions_ends (e : env) (rs : list row) (k : nat) :
  ~ answer_throws e k rs ->
  collect_actions e k rs
  = (Some (List.concat (map (fun ir => obtained_actions e (fst ir) (snd ir)) (timed k rs))),
     (k + List.length rs)%nat).
Proof.
  intro H.
  destruct (collect_actions e k rs) as [[all|] k'] eqn:E.
  - destruct (@collect_actions_some e rs k all) as [-> Hk]; [now rewrite E|].
    rewrite E in Hk. cbn [snd] in Hk. now subst k'.
  - elim H. apply collect_actions_none. now rewrite E.
Qed.

(* ================================================================== *)
(** ** The claims *)

(** C1, as the specification words it, fails.  In the run where the one
    payment of January 2024 has one action and the API rejects every request
    for the detail of an action, the actions stage writes its file, the
    details stage obtains nothing, warns that there is nothing to save and
    ends normally, status 0; the period is marked although no details file
    exists. *)
Lemma marked_without_details_file :
  ~ marked_periods_have_artifacts env_no_details empty_world.
Proof.
  intro H. destruct (H (py "202401")) as [_ Hdetails].
  - vm_compute. do 5 right. left. reflexivity.
  - apply Hdetails. vm_compute. reflexivity.
Qed.

(** C1, amended: in every run, a period is marked only right after the
    payment-actions stage and then the action-details stage of that very
    period have reported success to the orchestrator ([run_script] returned
    True for each); and the ledger changes only by those marks. *)
Theorem mark_only_after_both_stages
        (e : env) (w : world) (before later : list event) (ym : pystr) :
  fst (etl_pipeline e w) = before ++ Marked ym :: later ->
  both_stages_reported_success before ym /\
  ledger (snd (etl_pipeline e w))
  = fold_left mark_period_as_processed (omap marked (fst (etl_pipeline e w))) (ledger w).
Proof.
  unfold etl_pipeline.
  destruct (run_script e EXTRACT_PAYMENTS_SCRIPT None (the_disk w)) as [[[|]|] d1] eqn:Hrun;
    cbn [fst snd]; intro H.
  - destruct (process_files e {| the_disk := d1; ledger := ledger w |}
                            (payments_csv_files (files d1))) as [log w'] eqn:Hloop.
    cbn [fst snd] in *. split.
    + destruct before as [|ev before]; [discriminate|].
      injection H as <- H.
      pose proof (process_files_marked e (payments_csv_files (files d1))
                    {| the_disk := d1; ledger := ledger w |} before later ym) as Hm.
      rewrite Hloop in Hm. destruct (Hm H) as (log0 & path & -> & Hp).
      exists (PaymentsRun (Returned true) :: log0), path. now split.
    + pose proof (process_files_ledger e (payments_csv_files (files d1))
                    {| the_disk := d1; ledger := ledger w |}) as Hl.
      rewrite Hloop in Hl. exact Hl.
  - destruct before as [|? [|? ?]]; discriminate.
  - destruct before as [|? [|? ?]]; discriminate.
Qed.

Lemma mark_only_after_both_stages_witness :
  both_stages_reported_success
    (firstn 5 (fst (etl_pipeline env_no_actions empty_world))) (py "202401") /\
  ledger (snd (etl_pipeline env_no_actions empty_world))
  = fold_left mark_period_as_processed
              (omap marked (fst (etl_pipeline env_no_actions empty_world)))
              (ledger empty_world).
Proof.
  apply (@mark_only_after_both_stages env_no_actions empty_world
           (firstn 5 (fst (etl_pipeline env_no_actions empty_world))) [] (py "202401")).
  vm_compute. reflexivity.
Defined.

(** C3, on the code: a downstream stage that cannot do its work (no token,
    input file not found or unreadable, required column missing, no period
    in the name of the file) logs the error and ends with status 0, so that
    [run_script] returns True and the period is not abandoned.  After a
    failed actions stage the details stage is run; after a failed details
    stage the period is marked; without token both fail and the period is
    marked.  In the run where February 2020 has no action, the details
    stage of 202002 finds no file and the ledger ends with 202001, 202002
    and 202003; in the run where the API is down and the payments file of
    202001 cannot be parsed, both stages fail and 202001 is marked.  A
    turn is abandoned, and the loop goes on, only when
    [run_script] does not return True: the process ends with another
    status, as in the run where the connection drops for February. *)
Theorem failed_stage_is_taken_for_success
        (e : env) (w : world) (p ym : pystr) :
  always_launches e ->
  period_of_path p = Some ym ->
  str_geb ym MIN_YEAR_MONTH = true ->
  is_period_processed (ledger w) ym = false ->
  (actions_stage_fails e (tick (the_disk w)) p ->
   exists r rest,
     fst (process_file e w p)
     = Evaluated ym :: Started ym
       :: StageRun EXTRACT_PAYMENT_ACTIONS_SCRIPT ym p (Returned true)
       :: StageRun EXTRACT_ACTION_DETAILS_SCRIPT ym (actions_csv_filepath ym) r :: rest) /\
  (forall d1,
      run_script e EXTRACT_PAYMENT_ACTIONS_SCRIPT (Some p) (the_disk w) = (Returned true, d1) ->
      details_stage_fails e (tick d1) (actions_csv_filepath ym) ->
      process_file e w p
      = ([Evaluated ym; Started ym;
          StageRun EXTRACT_PAYMENT_ACTIONS_SCRIPT ym p (Returned true);
          StageRun EXTRACT_ACTION_DETAILS_SCRIPT ym (actions_csv_filepath ym) (Returned true);
          Marked ym],
         {| the_disk := tick d1; ledger := mark_period_as_processed (ledger w) ym |})) /\
  (token_set e = false ->
   In (Marked ym) (fst (process_file e w p)) /\
   ledger (snd (process_file e w p)) = mark_period_as_processed (ledger w) ym) /\
  quiet_february_example /\
  unreadable_file_example /\
  (forall s arg r rest,
      In (StageRun s ym arg r) (fst (process_file e w p)) ->
      r <> Returned true ->
      turn_abandoned e w p rest) /\
  partial_failure_example.
Proof.
  intros Hlaunch Hp Hmin Hled.
  assert (Hdetails : forall d1,
             run_script e EXTRACT_PAYMENT_ACTIONS_SCRIPT (Some p) (the_disk w)
             = (Returned true, d1) ->
             details_stage_fails e (tick d1) (actions_csv_filepath ym) ->
             process_file e w p
             = ([Evaluated ym; Started ym;
                 StageRun EXTRACT_PAYMENT_ACTIONS_SCRIPT ym p (Returned true);
                 StageRun EXTRACT_ACTION_DETAILS_SCRIPT ym (actions_csv_filepath ym)
                          (Returned true);
                 Marked ym],
                {| the_disk := tick d1;
                   ledger := mark_period_as_processed (ledger w) ym |})).
  { intros d1 Hrun Hfail.
    rewrite (@process_file_started e w p ym Hp Hmin Hled).
    unfold process_period. rewrite Hrun.
    rewrite (@run_script_runs e EXTRACT_ACTION_DETAILS_SCRIPT
                             (Some (actions_csv_filepath ym)) d1 (Hlaunch (clock d1))).
    cbn [script_process].
    rewrite (action_details_script_fails Hfail).
    reflexivity. }
  assert (Hactions : actions_stage_fails e (tick (the_disk w)) p ->
                     run_script e EXTRACT_PAYMENT_ACTIONS_SCRIPT (Some p) (the_disk w)
                     = (Returned true, tick (the_disk w))).
  { intro Hfail.
    rewrite (@run_script_runs e EXTRACT_PAYMENT_ACTIONS_SCRIPT (Some p) (the_disk w)
                             (Hlaunch (clock (the_disk w)))).
    cbn [script_process].
    rewrite (payment_actions_script_fails Hfail).
    reflexivity. }
  split; [|split; [|split; [|split; [|split; [|split]]]]].
  - intro Hfail. specialize (Hactions Hfail).
    rewrite (@process_file_started e w p ym Hp Hmin Hled).
    unfold process_period. rewrite Hactions. cbn [fst].
    destruct (run_script e EXTRACT_ACTION_DETAILS_SCRIPT (Some (actions_csv_filepath ym))
                         (tick (the_disk w))) as [[[|]|] d2]; cbn [fst]; eauto.
  - exact Hdetails.
  - intro Htok.
    assert (Hfail : actions_stage_fails e (tick (the_disk w)) p) by now left.
    rewrite (Hdetails (tick (the_disk w)) (Hactions Hfail)); [|now left].
    cbn [fst snd ledger]. split; [|reflexivity].
    do 4 right. left. reflexivity.
  - unfold quiet_february_example. split; [|split].
    + vm_compute. reflexivity.
    + vm_compute. do 9 right. left. reflexivity.
    + vm_compute. reflexivity.
  - unfold unreadable_file_example. split; [|split].
    + right. vm_compute. reflexivity.
    + vm_compute. reflexivity.
    + vm_compute. reflexivity.
  - intros s arg r rest Hin Hr.
    destruct (@process_file_failure e w p s ym arg r Hin Hr) as [Hl Hm].
    unfold turn_abandoned. repeat split.
    + exact Hl.
    + exact Hm.
    + apply process_files_cons.
    + apply process_files_evaluated.
  - unfold partial_failure_example. split; [|split].
    + vm_compute. do 9 right. left. reflexivity.
    + vm_compute. reflexivity.
    + vm_compute. reflexivity.
Qed.

Lemma failed_stage_is_taken_for_success_witness :
  let d1 := snd (run_script env_quiet_february EXTRACT_PAYMENT_ACTIONS_SCRIPT
                            (Some (payments_csv_filepath (py "202002")))
                            (the_disk world_before_quiet_february)) in
  details_stage_fails env_quiet_february (tick d1) (actions_csv_filepath (py "202002")) /\
  process_file env_quiet_february world_before_quiet_february
               (payments_csv_filepath (py "202002"))
  = ([Evaluated (py "202002"); Started (py "202002");
      StageRun EXTRACT_PAYMENT_ACTIONS_SCRIPT (py "202002")
               (payments_csv_filepath (py "202002")) (Returned true);
      StageRun EXTRACT_ACTION_DETAILS_SCRIPT (py "202002")
               (actions_csv_filepath (py "202002")) (Returned true);
      Marked (py "202002")],
     {| the_disk := tick d1;
        ledger := mark_period_as_processed (ledger world_before_quiet_february)
                                           (py "202002") |}).
Proof.
  cbv zeta.
  assert (Hfail : details_stage_fails env_quiet_february
                    (tick (snd (run_script env_quiet_february EXTRACT_PAYMENT_ACTIONS_SCRIPT
                                           (Some (payments_csv_filepath (py "202002")))
                                           (the_disk world_before_quiet_february))))
                    (actions_csv_filepath (py "202002"))).
  { right. left. vm_compute. reflexivity. }
  split; [exact Hfail|].
  refine (proj1 (proj2 (@failed_stage_is_taken_for_success
                          env_quiet_february world_before_quiet_february
                          (payments_csv_filepath (py "202002")) (py "202002")
                          _ _ _ _))
                _ _ Hfail).
  - intro k. reflexivity.
  - vm_compute. reflexivity.
  - vm_compute. reflexivity.
  - vm_compute. reflexivity.
  - vm_compute. reflexivity.
Defined.

(** C4, on the code: a Payment Extractor that fails (no token, no JSON
    from the API, no comment in the answer) logs the error and ends with
    status 0; [run_script] returns True, the files are discovered and the
    loop runs over what the folder holds.  With the API down and a file of
    an earlier run in the folder, 202405 is processed and added to the
    ledger.  A payments script that starts never makes [run_script] return
    anything but True; the run is aborted, log of one line, ledger and
    files unchanged, only when the script cannot be started or the
    interpreter ends with another status, as when python leaves with
    status 2. *)
Theorem failed_payments_extraction_goes_on (e : env) (w : world) :
  launch_at e (clock (the_disk w)) = Runs ->
  payments_extraction_fails e (tick (the_disk w)) ->
  (exists d1,
      run_script e EXTRACT_PAYMENTS_SCRIPT None (the_disk w) = (Returned true, d1) /\
      files d1 = files (the_disk w) /\
      etl_pipeline e w
      = (PaymentsRun (Returned true)
           :: fst (process_files e {| the_disk := d1; ledger := ledger w |}
                                 (payments_csv_files (files (the_disk w)))),
         snd (process_files e {| the_disk := d1; ledger := ledger w |}
                            (payments_csv_files (files (the_disk w)))))) /\
  (payments_extraction_fails env_api_down (tick (the_disk world_odd_names)) /\
   In (Marked (py "202405")) (fst (etl_pipeline env_api_down world_odd_names)) /\
   ledger world_odd_names = LedgerRows [py "202404"] /\
   ledger (snd (etl_pipeline env_api_down world_odd_names))
   = LedgerRows [py "202404"; py "202405"]) /\
  (forall e' w',
      launch_at e' (clock (the_disk w')) = Runs ->
      fst (run_script e' EXTRACT_PAYMENTS_SCRIPT None (the_disk w')) = Returned true) /\
  (forall e' w' r d1,
      run_script e' EXTRACT_PAYMENTS_SCRIPT None (the_disk w') = (r, d1) ->
      r <> Returned true ->
      etl_pipeline e' w' = ([PaymentsRun r], {| the_disk := d1; ledger := ledger w' |}) /\
      files d1 = files (the_disk w')) /\
  etl_pipeline env_no_script world_odd_names
  = ([PaymentsRun (Returned false)],
     {| the_disk := tick (the_disk world_odd_names); ledger := ledger world_odd_names |}).
Proof.
  intros Hlaunch Hfail.
  split; [|split; [|split; [|split; [|reflexivity]]]].
  - destruct (payments_script_fails Hfail) as [Hstatus Hfiles].
    exists (snd (payments_script e (tick (the_disk w)))).
    assert (Hrun : run_script e EXTRACT_PAYMENTS_SCRIPT None (the_disk w)
                   = (Returned true, snd (payments_script e (tick (the_disk w))))).
    { rewrite (@run_script_runs e EXTRACT_PAYMENTS_SCRIPT None (the_disk w) Hlaunch).
      cbn [script_process]. now rewrite Hstatus. }
    split; [exact Hrun|]. split; [exact Hfiles|].
    unfold etl_pipeline. rewrite Hrun, Hfiles. cbn [files tick] in *.
    now destruct (process_files e _ _).
  - split; [|split; [|split]].
    + right. left. intros data. vm_compute. discriminate.
    + vm_compute. do 6 right. left. reflexivity.
    + reflexivity.
    + vm_compute. reflexivity.
  - intros e' w' Hl.
    rewrite (@run_script_runs e' EXTRACT_PAYMENTS_SCRIPT None (the_disk w') Hl).
    cbn [script_process fst]. now rewrite payments_script_status.
  - intros e' w' r d1 Hrun Hr. split.
    + unfold etl_pipeline. rewrite Hrun.
      destruct r as [[|]|]; [now elim Hr|reflexivity|reflexivity].
    + eapply payments_run_failure; eauto.
Qed.

Lemma failed_payments_extraction_goes_on_witness :
  exists d1,
    run_script env_api_down EXTRACT_PAYMENTS_SCRIPT None (the_disk world_odd_names)
    = (Returned true, d1) /\
    files d1 = files (the_disk world_odd_names) /\
    etl_pipeline env_api_down world_odd_names
    = (PaymentsRun (Returned true)
         :: fst (process_files env_api_down
                               {| the_disk := d1; ledger := ledger world_odd_names |}
                               (payments_csv_files (files (the_disk world_odd_names)))),
       snd (process_files env_api_down
                          {| the_disk := d1; ledger := ledger world_odd_names |}
                          (payments_csv_files (files (the_disk world_odd_names))))).
Proof.
  refine (proj1 (@failed_payments_extraction_goes_on env_api_down world_odd_names _ _)).
  - reflexivity.
  - right. left. intros data. vm_compute. discriminate.
Defined.


(** C7: for a period below 201801 the orchestrator starts nothing, runs no
    downstream script and marks nothing, whatever the ledger holds; a stage
    that is run is run on the file of its period, and the ledger changes by
    marks only. *)
Theorem below_minimum_never_processed (e : env) (w : world) (ym : pystr) (ev : event) :
  str_ltb ym MIN_YEAR_MONTH = true ->
  In ev (fst (etl_pipeline e w)) ->
  untouched ym ev /\ stage_argument_fits ev /\
  ledger (snd (etl_pipeline e w))
  = fold_left mark_period_as_processed (omap marked (fst (etl_pipeline e w))) (ledger w).
Proof.
  intros Hlt Hin. split; [|split].
  - assert (H : Forall (untouched ym) (fst (etl_pipeline e w))).
    { apply etl_pipeline_Forall.
      - intro r. unfold untouched. repeat split; intros; discriminate.
      - intros w' p. now apply process_file_minimum. }
    rewrite Forall_forall in H. apply (H ev Hin).
  - assert (H : Forall stage_argument_fits (fst (etl_pipeline e w))).
    { apply etl_pipeline_Forall.
      - intro r. exact I.
      - intros w' p. apply process_file_arguments. }
    rewrite Forall_forall in H. apply (H ev Hin).
  - apply etl_pipeline_ledger.
Qed.

Lemma below_minimum_never_processed_witness :
  untouched (py "201712") (Skipped (py "201712")) /\
  stage_argument_fits (Skipped (py "201712")) /\
  ledger (snd (etl_pipeline env_old_period empty_world))
  = fold_left mark_period_as_processed
              (omap marked (fst (etl_pipeline env_old_period empty_world)))
              (ledger empty_world).
Proof.
  apply (@below_minimum_never_processed env_old_period empty_world
           (py "201712") (Skipped (py "201712"))).
  - vm_compute. reflexivity.
  - vm_compute. do 2 right. left. reflexivity.
Defined.

(** C8: the pattern tpo_payments_<six digits>_EXTRACTED.csv gives the six
    digits (202405 for tpo_payments_202405_EXTRACTED.csv) and nothing else
    gives a period, a digit being any decimal digit of Unicode;
    [extract_year_month_from_filename] returns the period the pattern
    gives and the empty string when it gives none, and on the files of the
    payments folder this is the period the loop reads off the file name;
    the candidate periods are exactly the periods of the
    files of the payments folder whose path does not contain
    "payments_metadata", so that the index and the names without period
    add nothing to them; a file whose name carries no period is logged and
    passed over, the world unchanged and the rest of the list processed as
    it would be without it. *)
Theorem period_discovery :
  search_payments_period (py "tpo_payments_202405_EXTRACTED.csv") = Some (py "202405") /\
  (forall ym, List.length ym = 6 -> forallb is_digit ym = true ->
              search_payments_period (extracted_name tpo_payments_ ym) = Some ym) /\
  (forall s ym, search_payments_period s = Some ym ->
                List.length ym = 6 /\ forallb is_digit ym = true /\
                exists a b, s = a ++ extracted_name tpo_payments_ ym ++ b) /\
  (extract_year_month_from_filename (in_payments "tpo_payments_202405_EXTRACTED.csv")
   = py "202405" /\
   extract_year_month_from_filename (in_payments "tpo_payments_foo.csv") = [] /\
   extract_year_month_from_filename (in_payments "tpo_payments_metadata.csv") = []) /\
  (forall s,
      extract_year_month_from_filename s
      = match search_payments_period s with Some ym => ym | None => [] end) /\
  (forall p, globbed p = true ->
             extract_year_month_from_filename p
             = match period_of_path p with Some ym => ym | None => [] end) /\
  (forall fs ym,
      In ym (candidate_periods fs) <->
      exists p, In p (map fst fs) /\ globbed p = true /\
                contains payments_metadata p = false /\ period_of_path p = Some ym) /\
  (forall fs p, contains payments_metadata p = true -> ~ In p (payments_csv_files fs)) /\
  (contains payments_metadata (in_payments "tpo_payments_metadata.csv") = true /\
   period_of_path (in_payments "tpo_payments_metadata.csv") = None /\
   globbed metadata_filepath = false) /\
  (forall e w p rest,
      period_of_path p = None ->
      process_files e w (p :: rest)
      = (BadName (basename p) :: fst (process_files e w rest),
         snd (process_files e w rest))) /\
  (forall e w fs,
      omap evaluated (fst (process_files e w (payments_csv_files fs)))
      = candidate_periods fs) /\
  (candidate_periods (files (the_disk world_odd_names)) = [py "202405"] /\
   firstn 3 (fst (etl_pipeline env_api_down world_odd_names))
   = [PaymentsRun (Returned true); BadName (py "tpo_payments_foo.csv");
      Evaluated (py "202405")]).
Proof.
  repeat match goal with |- _ /\ _ => split end.
  - vm_compute. reflexivity.
  - intros ym Hl Hd. apply re_search_here. now apply period_here_name.
  - intros s ym H. apply re_search_some in H as (pre & suf & -> & H).
    apply period_here_some in H as (Hl & Hd & b & ->). eauto.
  - vm_compute. reflexivity.
  - vm_compute. reflexivity.
  - vm_compute. reflexivity.
  - intro s. reflexivity.
  - intros p. apply key_of_globbed.
  - apply candidate_periods_in.
  - intros fs p. apply metadata_not_candidate.
  - vm_compute. reflexivity.
  - vm_compute. reflexivity.
  - vm_compute. reflexivity.
  - intros e w p rest. apply process_files_bad_name.
  - intros e w fs. apply process_files_evaluated.
  - vm_compute. reflexivity.
  - vm_compute. reflexivity.
Qed.

(** C5, on the code: once a period is written to the ledger,
    [is_period_processed] still answers False for it.  [pd.read_csv] reads
    a column of integer literals as int64 and the period asked for is a
    [str], which is found in no int64 column; so a second run starts the
    period again.  With no ledger file the answer is False, as specified. *)
Theorem marked_period_reads_as_unprocessed :
  mark_period_as_processed LedgerMissing (py "202001") = LedgerRows [py "202001"] /\
  is_period_processed (mark_period_as_processed LedgerMissing (py "202001")) (py "202001")
  = false /\
  (forall ym, is_period_processed LedgerMissing ym = false) /\
  (forall cells ym, forallb is_int_literal cells = true ->
                    is_period_processed (LedgerRows cells) ym = false) /\
  In (Started (py "201801"))
     (fst (etl_pipeline env_old_period (snd (etl_pipeline env_old_period empty_world)))).
Proof.
  split; [reflexivity|]. split; [|split; [|split]].
  - apply int_ledger_matches_nothing. reflexivity.
  - intro ym. reflexivity.
  - intros cells ym. apply int_ledger_matches_nothing.
  - vm_compute. do 4 right. left. reflexivity.
Qed.

(** C2, on the code: a missing input file, a missing required column and
    a name without period each end both downstream scripts with status 0.  [extract_payment_actions] returns False on each
    of them, but its result is dropped and the script ends normally; the
    details script leaves through [exit()], whose status is 0; the payments
    script catches everything.  [run_script] therefore returns True. *)
Theorem extractors_leave_with_status_zero (e : env) (d : disk) (path : pystr) :
  read_csv e d path = ReadFileNotFound \/
  (exists t, read_csv e d path = ReadOk t /\
             mem col_payment_uuid (columns t) = false /\
             mem col_action_id (columns t) = false) \/
  (search_payments_period (basename path) = None /\
   search_actions_period (basename path) = None) ->
  (fst (extract_payment_actions e d path) = Value false /\
   fst (payment_actions_script e d path) = 0%Z) /\
  action_details_script e d path = (0%Z, d) /\
  fst (payments_script e d) = 0%Z.
Proof.
  intro H. split; [split|split].
  - rewrite extract_payment_actions_failures; [reflexivity|].
    destruct H as [H|[(t & Ht & Hu & _)|[H _]]]; eauto 6.
  - apply payment_actions_script_zero.
    rewrite extract_payment_actions_failures; [discriminate|].
    destruct H as [H|[(t & Ht & Hu & _)|[H _]]]; eauto 6.
  - destruct H as [H|[(t & Ht & _ & Ha)|[_ H]]].
    + now apply action_details_not_found.
    + eapply action_details_no_column; eauto.
    + now apply action_details_bad_name.
  - apply payments_script_status.
Qed.

Lemma extractors_leave_with_status_zero_witness :
  ((fst (extract_payment_actions env_api_down disk_of_failures (py "in/nowhere.csv"))
    = Value false /\
    fst (payment_actions_script env_api_down disk_of_failures (py "in/nowhere.csv")) = 0%Z) /\
   action_details_script env_api_down disk_of_failures (py "in/nowhere.csv")
   = (0%Z, disk_of_failures) /\
   fst (payments_script env_api_down disk_of_failures) = 0%Z) /\
  fst (run_script env_api_down EXTRACT_PAYMENT_ACTIONS_SCRIPT
                  (Some (py "in/nowhere.csv")) disk_of_failures) = Returned true /\
  fst (run_script env_api_down EXTRACT_ACTION_DETAILS_SCRIPT
                  (Some (py "in/nowhere.csv")) disk_of_failures) = Returned true /\
  fst (run_script env_api_down EXTRACT_PAYMENT_ACTIONS_SCRIPT
                  (Some (py "in/tpo_payments_202405_EXTRACTED.csv")) disk_of_failures)
  = Returned true /\
  fst (run_script env_api_down EXTRACT_ACTION_DETAILS_SCRIPT
                  (Some (py "in/tpo_payment_actions_202405_EXTRACTED.csv")) disk_of_failures)
  = Returned true /\
  fst (run_script env_api_down EXTRACT_PAYMENT_ACTIONS_SCRIPT
                  (Some (py "in/payments.csv")) disk_of_failures) = Returned true /\
  fst (run_script env_api_down EXTRACT_ACTION_DETAILS_SCRIPT
                  (Some (py "in/actions.csv")) disk_of_failures) = Returned true.
Proof.
  split.
  - apply (@extractors_leave_with_status_zero env_api_down disk_of_failures
             (py "in/nowhere.csv")).
    left. vm_compute. reflexivity.
  - repeat split; vm_compute; reflexivity.
Defined.

(** C10: on a readable payments file with both columns and a period in
    its name, when no call yields an action, [extract_payment_actions]
    returns True and writes no file: an actions file that did not exist
    still does not exist, and the script ends with status 0. *)
Theorem no_actions_is_still_success
        (e : env) (d : disk) (path : pystr) (t : table) (ym : pystr) :
  read_csv e d path = ReadOk t ->
  mem col_payment_uuid (columns t) = true ->
  mem col_year_month (columns t) = true ->
  search_payments_period (basename path) = Some ym ->
  (forall k uuid, no_actions (api_user_actions e k uuid)) ->
  fst (extract_payment_actions e d path) = Value true /\
  files (snd (extract_payment_actions e d path)) = files d /\
  (lookup (actions_csv_filepath ym) (files d) = None ->
   lookup (actions_csv_filepath ym) (files (snd (extract_payment_actions e d path))) = None) /\
  fst (payment_actions_script e d path) = 0%Z.
Proof.
  intros Hr Hu Hy Hp Hno.
  destruct (extract_payment_actions_nothing e d path Hr Hu Hy Hp Hno) as [Hok Hfiles].
  split; [exact Hok|]. split; [exact Hfiles|]. split.
  - intro Habsent. now rewrite Hfiles.
  - apply payment_actions_script_zero. rewrite Hok. discriminate.
Qed.

Lemma no_actions_is_still_success_witness :
  fst (extract_payment_actions env_no_actions disk_january
                               (payments_csv_filepath (py "202401"))) = Value true /\
  files (snd (extract_payment_actions env_no_actions disk_january
                                      (payments_csv_filepath (py "202401"))))
  = files disk_january /\
  (lookup (actions_csv_filepath (py "202401")) (files disk_january) = None ->
   lookup (actions_csv_filepath (py "202401"))
          (files (snd (extract_payment_actions env_no_actions disk_january
                                               (payments_csv_filepath (py "202401")))))
   = None) /\
  fst (payment_actions_script env_no_actions disk_january
                              (payments_csv_filepath (py "202401"))) = 0%Z.
Proof.
  apply (@no_actions_is_still_success env_no_actions disk_january
           (payments_csv_filepath (py "202401"))
           (period_table [payment "p1" "Выплата за январь 2024"] (py "202401"))
           (py "202401")).
  - vm_compute. reflexivity.
  - vm_compute. reflexivity.
  - vm_compute. reflexivity.
  - vm_compute. reflexivity.
  - intros k uuid. exact I.
Defined.




(* ================================================================== *)
(** ** Further properties of the code *)

(** X1: marking appends.  On a ledger whose lines are integer literals in
    0-9 of at most 18 digits, none beginning with the digit 0,
    [mark_period_as_processed] of such a literal leaves every line as it
    was and adds the period as the last line, although the lines go through
    int64 and back; so after marking p1 .. pn on a missing ledger the file
    holds exactly p1 .. pn.  A line with leading zeros does not survive the
    next mark: 001201 is written back as 1201. *)
Theorem ledger_keeps_marked_periods (cells yms : list pystr) :
  Forall (fun c => is_int_literal c = true /\ no_leading_zero c = true) cells ->
  Forall (fun c => is_int_literal c = true /\ no_leading_zero c = true) yms ->
  fold_left mark_period_as_processed yms (LedgerRows cells) = LedgerRows (cells ++ yms) /\
  (yms <> [] -> fold_left mark_period_as_processed yms LedgerMissing = LedgerRows yms) /\
  mark_period_as_processed (LedgerRows [py "001201"]) (py "202001")
  = LedgerRows [py "1201"; py "202001"].
Proof.
  intros Hc Hy.
  assert (Hz : forall l : list pystr,
             Forall (fun c => is_int_literal c = true /\ no_leading_zero c = true) l ->
             Forall (fun c => no_leading_zero c = true) l).
  { intros l Hl. eapply Forall_impl; [|exact Hl]. now intros c [_ H]. }
  apply Hz in Hc. apply Hz in Hy. clear Hz.
  assert (Hrows : forall ys cs,
             Forall (fun c => no_leading_zero c = true) cs ->
             Forall (fun c => no_leading_zero c = true) ys ->
             fold_left mark_period_as_processed ys (LedgerRows cs) = LedgerRows (cs ++ ys)).
  { induction ys as [|y ys IH]; intros cs Hcs Hys; cbn [fold_left].
    - now rewrite app_nil_r.
    - apply Forall_cons_iff in Hys as [Hy0 Hys].
      cbn [mark_period_as_processed]. rewrite column_text_round_trip by exact Hcs.
      rewrite IH; [now rewrite <- app_assoc| |exact Hys].
      apply Forall_app. split; [exact Hcs|]. now constructor. }
  split; [now apply Hrows|]. split; [|reflexivity].
  intro Hne. destruct yms as [|y ys]; [congruence|].
  apply Forall_cons_iff in Hy as [Hy0 Hys]. cbn [fold_left mark_period_as_processed].
  apply (Hrows ys [y]); [now constructor|exact Hys].
Qed.

Lemma ledger_keeps_marked_periods_witness :
  fold_left mark_period_as_processed [py "202002"; py "202003"] (LedgerRows [py "202001"])
  = LedgerRows ([py "202001"] ++ [py "202002"; py "202003"]) /\
  ([py "202002"; py "202003"] <> [] ->
   fold_left mark_period_as_processed [py "202002"; py "202003"] LedgerMissing
   = LedgerRows [py "202002"; py "202003"]) /\
  mark_period_as_processed (LedgerRows [py "001201"]) (py "202001")
  = LedgerRows [py "1201"; py "202001"].
Proof.
  apply (@ledger_keeps_marked_periods [py "202001"] [py "202002"; py "202003"]).
  - repeat constructor.
  - repeat constructor.
Defined.

(** X2: a ledger that is missing, unreadable or made of integer literals
    in 0-9 of at most 18 digits never makes the orchestrator skip a period
    when the paths of the files the loop goes through are Latin, Greek or
    Cyrillic text, so that the digits of their periods are 0-9.  In such a
    run the periods started are exactly the candidate periods at or above
    MIN_YEAR_MONTH, in their order, whatever was marked before; and the
    ledger the run leaves is again of that kind. *)
Theorem numeric_ledger_never_skips (e : env) (w : world) (d1 : disk) :
  numeric_ledger (ledger w) ->
  run_script e EXTRACT_PAYMENTS_SCRIPT None (the_disk w) = (Returned true, d1) ->
  forallb in_alphabet (payments_csv_files (files d1)) = true ->
  numeric_ledger (ledger (snd (etl_pipeline e w))) /\
  omap started (fst (etl_pipeline e w))
  = filter (fun ym => str_geb ym MIN_YEAR_MONTH) (candidate_periods (files d1)).
Proof.
  intros Hn Hrun Ha. unfold etl_pipeline. rewrite Hrun.
  assert (Hall : Forall (fun p => in_alphabet p = true) (payments_csv_files (files d1))).
  { apply Forall_forall. now apply forallb_forall. }
  pose proof (@process_files_numeric e (payments_csv_files (files d1))
                {| the_disk := d1; ledger := ledger w |} Hn Hall) as [H1 H2].
  destruct (process_files _ _ _) as [log w']. cbn [fst snd omap started] in *.
  split; [exact H1|exact H2].
Qed.

Lemma numeric_ledger_never_skips_witness :
  numeric_ledger (ledger (snd (etl_pipeline env_old_period
                                             (snd (etl_pipeline env_old_period empty_world))))) /\
  omap started (fst (etl_pipeline env_old_period
                                  (snd (etl_pipeline env_old_period empty_world))))
  = filter (fun ym => str_geb ym MIN_YEAR_MONTH)
           (candidate_periods
              (files (snd (run_script env_old_period EXTRACT_PAYMENTS_SCRIPT None
                                      (the_disk (snd (etl_pipeline env_old_period
                                                                   empty_world))))))).
Proof.
  apply (@numeric_ledger_never_skips env_old_period
           (snd (etl_pipeline env_old_period empty_world))).
  - vm_compute. reflexivity.
  - vm_compute. reflexivity.
  - vm_compute. reflexivity.
Defined.

(** X3: [extract_payment_actions] returns False exactly when the input
    cannot be read, when the column payment_uuid or year_month is missing,
    or when the file name carries no period; and whenever it returns False
    it has called nothing and written nothing. *)
Theorem extract_payment_actions_refuses (e : env) (d : disk) (path : pystr) :
  (fst (extract_payment_actions e d path) = Value false <->
   (forall t, read_csv e d path <> ReadOk t) \/
   (exists t, read_csv e d path = ReadOk t /\
              (mem col_payment_uuid (columns t) = false \/
               mem col_year_month (columns t) = false)) \/
   (exists t, read_csv e d path = ReadOk t /\
              search_payments_period (basename path) = None)) /\
  (fst (extract_payment_actions e d path) = Value false ->
   snd (extract_payment_actions e d path) = d).
Proof.
  split.
  2:{ intro H. now rewrite (@extract_payment_actions_false e d path H). }
  unfold extract_payment_actions.
  destruct (read_csv e d path) as [t| |] eqn:Hr.
  - destruct (mem col_payment_uuid (columns t)) eqn:Hu;
      destruct (mem col_year_month (columns t)) eqn:Hy; cbn [negb orb].
    + destruct (search_payments_period (basename path)) as [ym|] eqn:Hp.
      * destruct (collect_actions e (clock d) (rows t)) as [[[|a all]|] k];
          [ | destruct (save_actions_to_csv e (a :: all) (actions_csv_filepath ym)
                                            {| clock := k; files := files d |}) | ];
          cbn [fst snd];
          (split; [discriminate|]);
          (intros [H|[(t' & Ht & [H|H])|(t' & Ht & H)]];
           [ now elim (H t)
           | injection Ht as <-; congruence
           | injection Ht as <-; congruence
           | discriminate ]).
      * split; [|reflexivity]. intros _. right. right. now exists t.
    + split; [|reflexivity]. intros _. right. left. exists t. auto.
    + split; [|reflexivity]. intros _. right. left. exists t. auto.
    + split; [|reflexivity]. intros _. right. left. exists t. auto.
  - split; [|reflexivity]. intros _. left. intros t. discriminate.
  - split; [|reflexivity]. intros _. left. intros t. discriminate.
Qed.



(** X5: the loop of [extract_payment_actions] over the rows of the payments
    frame as read.  It raises exactly when the answer to the call made for
    one of the rows is one on which the test or [extend] raises.
    Otherwise [all_actions] is, in the order of the rows, the actions
    answered for each row, the i-th call being made for the payment_uuid of
    the i-th row; a row whose call fails, or whose answer has no "actions"
    or an empty list of them, adds nothing and takes nothing away. *)
Theorem one_call_per_payment (e : env) (k : nat) (rs : list row) :
  (fst (collect_actions e k rs) = None <-> answer_throws e k rs) /\
  (~ answer_throws e k rs ->
   fst (collect_actions e k rs)
   = Some (List.concat (map (fun ir => obtained_actions e (fst ir) (snd ir)) (timed k rs)))) /\
  (forall a r b,
      rs = a ++ r :: b ->
      ~ answer_throws e k rs ->
      no_actions (api_user_actions e (k + List.length a) (cell r col_payment_uuid)) ->
      fst (collect_actions e k rs)
      = Some (List.concat (map (fun ir => obtained_actions e (fst ir) (snd ir)) (timed k a))
              ++ List.concat (map (fun ir => obtained_actions e (fst ir) (snd ir))
                                  (timed (S (k + List.length a)) b)))).
Proof.
  split; [apply collect_actions_none|]. split.
  - intro H. now rewrite (collect_actions_ends H).
  - intros a r b -> Hno Hr. rewrite (collect_actions_ends Hno). cbn [fst].
    rewrite timed_app, timed_cons, map_app, concat_app. cbn [map List.concat fst snd].
    assert (Hnil : obtained_actions e (k + List.length a) r = []).
    { unfold obtained_actions.
      destruct (api_user_actions e (k + List.length a) (cell r col_payment_uuid))
        as [| | |[|[|x l]|]]; try reflexivity; now elim Hr. }
    now rewrite Hnil.
Qed.

(** X6: the details script ends with status 1 exactly when it has a token,
    a readable actions file with the column action_id and a period in its
    name, and the connection drops at the call made for one of the rows
    (the handler of [get_action_details] then reads a name that was never
    bound).  In every other case the status is 0.  A run that ends with
    status 1 has written nothing, whatever details it had collected. *)
Theorem action_details_status (e : env) (d : disk) (path : pystr) :
  (fst (action_details_script e d path) = 1%Z <->
   token_set e = true /\
   exists t, read_csv e d path = ReadOk t /\
             mem col_action_id (columns t) = true /\
             (exists ym, search_actions_period (basename path) = Some ym) /\
             connection_drops e (clock d) (rows t)) /\
  (fst (action_details_script e d path) <> 1%Z ->
   fst (action_details_script e d path) = 0%Z) /\
  (fst (action_details_script e d path) = 1%Z ->
   files (snd (action_details_script e d path)) = files d).
Proof.
  unfold action_details_script.
  destruct (token_set e) eqn:Htok; cbn [negb].
  2:{ cbn [fst snd]. split; [|split]; try reflexivity.
      split; [discriminate|]. intros [H _]. discriminate. }
  destruct (read_csv e d path) as [t| |] eqn:Hr.
  2,3: cbn [fst snd]; (split; [|split]); try reflexivity;
       (split; [discriminate|]); intros (_ & t & Ht & _); discriminate.
  pose proof (collect_details_none e (rows t) (clock d)) as Hnone.
  destruct (rows t) as [|r rs] eqn:Hrows.
  { cbn [fst snd]. split; [|split]; try reflexivity.
    split; [discriminate|]. intros (_ & t' & Ht & _ & _ & (i & r & Hn & _)).
    injection Ht as <-. rewrite Hrows in Hn. destruct i; discriminate. }
  destruct (mem col_action_id (columns t)) eqn:Hcol; cbn [negb].
  2:{ cbn [fst snd]. split; [|split]; try reflexivity.
      split; [discriminate|]. intros (_ & t' & Ht & Hc & _).
      injection Ht as <-. congruence. }
  destruct (search_actions_period (basename path)) as [ym|] eqn:Hp.
  2:{ cbn [fst snd]. split; [|split]; try reflexivity.
      split; [discriminate|]. intros (_ & t' & Ht & _ & (ym & Hym) & _). discriminate. }
  destruct (collect_details e (clock d) (r :: rs)) as [[all|] k] eqn:Ec.
  - destruct (save_actions_details_to_csv e all (details_csv_filepath ym)
                                          {| clock := k; files := files d |}) as [b d2].
    cbn [fst snd]. split; [|split]; try reflexivity; try discriminate.
    split; [discriminate|]. intros (_ & t' & Ht & _ & _ & Hd).
    injection Ht as <-. rewrite Hrows in Hd. apply Hnone in Hd. discriminate.
  - cbn [fst snd files]. split; [|split]; try reflexivity.
    + split; [|reflexivity]. intros _. split; [reflexivity|].
      exists t. repeat split; auto; [now exists ym|].
      rewrite Hrows. now apply Hnone.
    + intro H. now elim H.
Qed.



(* ================================================================== *)
(** ** The names of the period files *)

(** X8 (extract_travelpayouts_payments.py, lines 126-131; etl_pipeline.py,
    [extract_year_month_from_filename] and lines 93-105;
    extract_travelpayouts_payment_actions.py, lines 103-114 and 136-138;
    extract_travelpayouts_action_details.py, lines 163-174).  The name the
    payments extractor gives the file of a six-digit period is read back to
    that period by the orchestrator (as sort key and as loop period) and by
    the payment-actions extractor; the name of the actions file is read back
    to it by the action-details extractor; and a file of that name in the
    listing makes the period a candidate of the run: the pattern of the glob
    takes it and the filter on "payments_metadata" keeps it. *)
Theorem period_file_name_round_trip (ym : pystr) (fs : list (pystr * file)) :
  six_digits ym ->
  period_of_path (payments_csv_filepath ym) = Some ym /\
  extract_year_month_from_filename (payments_csv_filepath ym) = ym /\
  search_actions_period (basename (actions_csv_filepath ym)) = Some ym /\
  (In (payments_csv_filepath ym) (map fst fs) ->
   In (payments_csv_filepath ym) (payments_csv_files fs) /\
   In ym (candidate_periods fs)).
Proof.
  intro H. pose proof (period_file_is_read H) as Hp.
  pose proof H as H6.
  destruct H as [Hl Hd]. apply ascii_digits_are_digits in Hd.
  pose proof (period_file_is_globbed ym Hd) as Hg.
  pose proof (period_file_is_no_metadata ym Hd) as Hm.
  split; [exact Hp|]. split; [|split].
  - rewrite (key_of_globbed _ Hg). now rewrite Hp.
  - apply actions_file_is_read. exact H6.
  - intro Hin. split.
    + apply (Permutation_in _ (Permutation_sym (payments_csv_files_perm fs))).
      apply filter_In. split; [|now rewrite Hm].
      apply filter_In. now split.
    + apply candidate_periods_in. exists (payments_csv_filepath ym). auto.
Qed.

Lemma period_file_name_round_trip_witness :
  let ym := py "202403" in
  let fs := [(payments_csv_filepath ym, Unparsable)] in
  six_digits ym /\
  period_of_path (payments_csv_filepath ym) = Some ym /\
  extract_year_month_from_filename (payments_csv_filepath ym) = ym /\
  search_actions_period (basename (actions_csv_filepath ym)) = Some ym /\
  (In (payments_csv_filepath ym) (map fst fs) ->
   In (payments_csv_filepath ym) (payments_csv_files fs) /\
   In ym (candidate_periods fs)).
Proof.
  cbv zeta.
  assert (H : six_digits (py "202403")) by (split; reflexivity).
  split; [exact H|].
  exact (@period_file_name_round_trip (py "202403")
           [(payments_csv_filepath (py "202403"), Unparsable)] H).
Defined.

(* ================================================================== *)
(** ** The period of a comment *)

(** X9 (extract_travelpayouts_payments.py, [extract_year_month_from_comment],
    lines 37-80).  For a comment of Latin, Greek or Cyrillic text the function
    answers a period exactly when the comment reads, at the leftmost place
    where the pattern matches, "за", a space, one of the twelve month names in
    any letter case, any white space (or none) and four digits; the period is
    then the four digits followed by the number of the month.  Whenever the
    pattern matches, the dictionary knows the month: the branch that warns
    about an unknown month is never taken.  A period, when there is one, is
    six digits. *)
Theorem comment_names_period (s ym : pystr) :
  in_alphabet s = true ->
  (extract_year_month_from_comment (Some (VStr s)) = Some ym <->
   exists pre z m sp y post mm,
     s = pre ++ z ++ m ++ sp ++ y ++ post /\
     names_period pre z m sp y post mm /\ ym = y ++ mm) /\
  (re_search comment_here s <> None ->
   extract_year_month_from_comment (Some (VStr s)) <> None) /\
  (extract_year_month_from_comment (Some (VStr s)) = Some ym -> six_digits ym).
Proof.
  intros Ha.
  assert (Hparts : forall pre suf m y,
             s = pre ++ suf -> comment_here suf = Some (m, y) ->
             exists z sp post mm,
               suf = z ++ m ++ sp ++ y ++ post /\
               lower z = za_ /\ In (lower m, mm) month_dict /\
               forallb is_space sp = true /\
               List.length y = 4%nat /\ forallb is_digit y = true /\
               forallb is_ascii_digit y = true).
  { intros pre suf m y Hs Hc.
    apply comment_here_some in Hc
      as (z & name & mm & sp & post & -> & Hz & Hin & Hm & Hsp & Hl & Hd).
    rewrite Hs in Ha. rewrite !in_alphabet_app in Ha.
    apply andb_true_iff in Ha as [_ Ha]. apply andb_true_iff in Ha as [Haz Ha].
    apply andb_true_iff in Ha as [Ham Ha]. apply andb_true_iff in Ha as [_ Ha].
    apply andb_true_iff in Ha as [Hay _].
    specialize (Hz Haz). specialize (Hm Ham). subst name.
    exists z, sp, post, mm. repeat split; auto.
    now apply digits_in_alphabet. }
  assert (Hto : extract_year_month_from_comment (Some (VStr s)) = Some ym ->
                exists pre z m sp y post mm,
                  s = pre ++ z ++ m ++ sp ++ y ++ post /\
                  names_period pre z m sp y post mm /\ ym = y ++ mm /\
                  forallb is_ascii_digit y = true).
  { cbn [extract_year_month_from_comment]. intro H.
    destruct (re_search comment_here s) as [[m y]|] eqn:E; [|discriminate].
    apply re_search_first in E as (pre & suf & Hs & Hc & Hno).
    destruct (Hparts pre suf m y Hs Hc)
      as (z & sp & post & mm & -> & Hz & Hin & Hsp & Hl & Hd & Hda).
    destruct (month_dict_get Hin) as (Hget & _).
    rewrite Hget in H. injection H as <-.
    exists pre, z, m, sp, y, post, mm. unfold names_period. auto 10. }
  split; [split|split].
  - intro H. destruct (Hto H) as (pre & z & m & sp & y & post & mm & H1 & H2 & H3 & _).
    exists pre, z, m, sp, y, post, mm. auto.
  - intros (pre & z & m & sp & y & post & mm & -> & (Hz & Hin & Hsp & Hl & Hd & Hno) & ->).
    cbn [extract_year_month_from_comment].
    rewrite (@re_search_leftmost _ comment_here pre _ _ Hno
               (@comment_here_hit z m sp y post mm Hz Hin Hsp Hl Hd)).
    destruct (month_dict_get Hin) as (Hget & _). now rewrite Hget.
  - cbn [extract_year_month_from_comment]. intro H.
    destruct (re_search comment_here s) as [[m y]|] eqn:E; [|now elim H].
    apply re_search_some in E as (pre & suf & Hs & Hc).
    destruct (Hparts pre suf m y Hs Hc) as (z & sp & post & mm & _ & _ & Hin & _).
    destruct (month_dict_get Hin) as (Hget & _). rewrite Hget. discriminate.
  - intro H. destruct (Hto H) as (pre & z & m & sp & y & post & mm & _ & Hn & -> & Hda).
    destruct Hn as (_ & Hin & _ & Hl & Hd & _).
    destruct (month_dict_get Hin) as (_ & Hlm & Hdm).
    split; [rewrite length_app; now rewrite Hl, Hlm|].
    rewrite forallb_app. now rewrite Hda, Hdm.
Qed.

Lemma comment_names_period_witness :
  let s := py "Выплата ЗА Декабрь 2019 г." in
  let ym := py "201912" in
  in_alphabet s = true /\
  (extract_year_month_from_comment (Some (VStr s)) = Some ym <->
   exists pre z m sp y post mm,
     s = pre ++ z ++ m ++ sp ++ y ++ post /\
     names_period pre z m sp y post mm /\ ym = y ++ mm) /\
  (re_search comment_here s <> None ->
   extract_year_month_from_comment (Some (VStr s)) <> None) /\
  (extract_year_month_from_comment (Some (VStr s)) = Some ym -> six_digits ym).
Proof.
  cbv zeta. split; [reflexivity|].
  exact (@comment_names_period (py "Выплата ЗА Декабрь 2019 г.") (py "201912") eq_refl).
Defined.

(* ================================================================== *)
(** ** What the payments extractor writes *)

(** X10 (extract_travelpayouts_payments.py, lines 106-123).  The payments
    whose comment names a period are split among the period files without
    loss and without repetition: the periods of the loop are pairwise
    different and are exactly the periods of some payment; no period file is
    empty; every row of the file of a period carries that period in its
    year_month column; and the sizes of the files add up to the number of
    payments that have a period. *)
Theorem payments_are_partitioned (data : list record) :
  NoDup (unique_year_months data) /\
  (forall ym, In ym (unique_year_months data) <->
              exists r, In r data /\ year_month_of r = Some ym) /\
  (forall ym, In ym (unique_year_months data) -> period_rows data ym <> []) /\
  (forall ym r, In r (period_rows data ym) -> cell r col_year_month = ym) /\
  list_sum (map (period_size data) (unique_year_months data))
  = List.length (filter notna data).
Proof.
  split; [apply dedup_nodup|]. split; [apply unique_year_months_in|].
  split; [|split].
  - intros ym Hin Hnil. apply unique_year_months_in in Hin as (r & Hr & Hy).
    assert (Hf : In (with_year_month ym r) (period_rows data ym)).
    { unfold period_rows. apply in_map. apply filter_In. split; [exact Hr|].
      unfold tagged. rewrite Hy. apply str_eqb_refl. }
    rewrite Hnil in Hf. contradiction.
  - intros ym r Hr. unfold period_rows in Hr.
    apply in_map_iff in Hr as (r0 & <- & _). apply with_year_month_cell.
  - unfold period_size, period_rows.
    rewrite (map_ext _ (fun ym => List.length (filter (tagged ym) data)))
      by (intro ym; apply length_map).
    apply tagged_count; [apply dedup_nodup|].
    intros r ym Hr Hy. apply unique_year_months_in. eauto.
Qed.

(** X11 (extract_travelpayouts_payments.py, lines 83-150, with
    extract_travelpayouts_payment_actions.py, lines 86-131, and
    etl_pipeline.py, lines 93-105).  When the token is set, the API answers
    JSON records with a comment and a payment_uuid column and every write
    succeeds, the run leaves, for every period of the data, the file of that
    period with the payments of the period under the columns of the whole
    frame; when there is a period at all it leaves the index
    payments_metadata.csv with one row per payment of a period; and it
    changes no other file.  The hand-over works: every period file it leaves
    is a candidate of the orchestrator's loop, and when [pd.read_csv] gives
    the payment-actions extractor the header that was written, the
    extractor does not return False on it: it returns True unless an answer
    to the call made for one of the rows read makes its loop raise. *)
Theorem payments_script_writes (e e' : env) (d : disk) (data : list record) :
  token_set e = true ->
  api_user_payments e (clock d) = Json data ->
  existsb (has_key col_comment) data = true ->
  existsb (has_key col_payment_uuid) data = true ->
  writes_succeed e ->
  let d' := snd (payments_script e d) in
  (forall ym, In ym (unique_year_months data) ->
     lookup (payments_csv_filepath ym) (files d') = Some (Csv (period_table data ym)) /\
     In ym (candidate_periods (files d')) /\
     (columns (read_back e' (period_table data ym)) = columns (period_table data ym) ->
      fst (extract_payment_actions e' d' (payments_csv_filepath ym)) <> Value false /\
      (~ answer_throws e' (clock d') (rows (read_back e' (period_table data ym))) ->
       fst (extract_payment_actions e' d' (payments_csv_filepath ym)) = Value true))) /\
  (unique_year_months data <> [] ->
     lookup metadata_filepath (files d') = Some (Csv (frame (metadata_rows data)))) /\
  (forall q, q <> metadata_filepath ->
     (forall ym, In ym (unique_year_months data) -> q <> payments_csv_filepath ym) ->
     lookup q (files d') = lookup q (files d)).
Proof.
  intros Ht Hapi Hc Hu Hw d'.
  assert (Hfiles :
    (forall ym, In ym (unique_year_months data) ->
       lookup (payments_csv_filepath ym) (files d') = Some (Csv (period_table data ym))) /\
    (unique_year_months data <> [] ->
       lookup metadata_filepath (files d') = Some (Csv (frame (metadata_rows data)))) /\
    (forall q, q <> metadata_filepath ->
       (forall ym, In ym (unique_year_months data) -> q <> payments_csv_filepath ym) ->
       lookup q (files d') = lookup q (files d))).
  { subst d'. unfold payments_script. rewrite Ht, Hapi, Hc, Hu. cbn [negb].
    destruct (filter notna data) as [|r0 rs0] eqn:Ef.
    - apply unique_year_months_nil in Ef. rewrite Ef. cbn [snd tick files].
      split; [intros ym []|]. split; [now intros []|reflexivity].
    - destruct (write_periods_ok data (unique_year_months data) (tick d) Hw)
        as (d1 & Heq & Hin & Hout).
      rewrite Heq, Hw. cbn [snd write files]. split; [|split].
      + intros ym Hym. rewrite lookup_upsert_other
          by (intro Hq; symmetry in Hq; now apply metadata_is_no_period_file in Hq).
        now apply Hin.
      + intros _. apply lookup_upsert_same.
      + intros q Hq Hno. rewrite lookup_upsert_other by exact Hq.
        now rewrite Hout. }
  destruct Hfiles as (Hper & Hmeta & Hother).
  split; [|split; [exact Hmeta|exact Hother]].
  intros ym Hym. pose proof (Hper ym Hym) as Hl.
  assert (H6 : List.length ym = 6%nat /\ forallb is_digit ym = true).
  { apply unique_year_months_in in Hym as (r & _ & Hy).
    unfold year_month_of in Hy. now apply derived_period_digits in Hy. }
  destruct H6 as [H6l H6d].
  pose proof (period_file_is_read_digits ym H6l H6d) as Hread.
  split; [exact Hl|]. split.
  - apply candidate_periods_in. exists (payments_csv_filepath ym).
    split; [now apply (lookup_in _ _ Hl)|].
    split; [now apply period_file_is_globbed|].
    split; [now apply period_file_is_no_metadata|].
    exact Hread.
  - intro Hcols.
    pose proof (collect_actions_none e' (rows (read_back e' (period_table data ym)))
                                     (clock d')) as Hnone.
    unfold extract_payment_actions, read_csv. rewrite Hl, Hcols.
    cbn [columns period_table].
    rewrite (data_columns_key _ _ Hu), data_columns_year_month. cbn [negb orb].
    change (search_payments_period (basename (payments_csv_filepath ym)))
      with (period_of_path (payments_csv_filepath ym)).
    rewrite Hread.
    destruct (collect_actions e' (clock d') (rows (read_back e' (period_table data ym))))
      as [[[|a all]|] k].
    + cbn [fst]. split; [discriminate|reflexivity].
    + destruct (save_actions_to_csv e' (a :: all) (actions_csv_filepath ym) _).
      cbn [fst]. split; [discriminate|reflexivity].
    + cbn [fst] in *. split; [discriminate|].
      intro Hno. elim Hno. now apply Hnone.
Qed.

Lemma payments_script_writes_witness :
  let e := env_three_months in
  let d := the_disk empty_world in
  let d' := snd (payments_script e d) in
  (token_set e = true /\ api_user_payments e (clock d) = Json three_months /\
   existsb (has_key col_comment) three_months = true /\
   existsb (has_key col_payment_uuid) three_months = true /\
   writes_succeed e) /\
  (forall ym, In ym (unique_year_months three_months) ->
     lookup (payments_csv_filepath ym) (files d')
     = Some (Csv (period_table three_months ym)) /\
     In ym (candidate_periods (files d')) /\
     (columns (read_back e (period_table three_months ym))
      = columns (period_table three_months ym) ->
      fst (extract_payment_actions e d' (payments_csv_filepath ym)) <> Value false /\
      (~ answer_throws e (clock d') (rows (read_back e (period_table three_months ym))) ->
       fst (extract_payment_actions e d' (payments_csv_filepath ym)) = Value true))) /\
  (unique_year_months three_months <> [] ->
     lookup metadata_filepath (files d') = Some (Csv (frame (metadata_rows three_months)))) /\
  (forall q, q <> metadata_filepath ->
     (forall ym, In ym (unique_year_months three_months) -> q <> payments_csv_filepath ym) ->
     lookup q (files d') = lookup q (files d)).
Proof.
  cbv zeta.
  assert (Hw : writes_succeed env_three_months) by (intros k p; reflexivity).
  split; [repeat match goal with |- _ /\ _ => split end; solve [reflexivity | exact Hw]|].
  exact (@payments_script_writes env_three_months env_three_months
           (the_disk empty_world) three_months eq_refl eq_refl eq_refl eq_refl Hw).
Defined.

(* ================================================================== *)
(** ** Runs of the orchestrator *)

(** X12 (etl_pipeline.py, [run_script] and lines 84-141, with the exits of
    the three extractors).  When every script is launched and runs its
    body, no answer of the actions endpoint makes the loop of the actions
    extractor raise and no request for the detail of an action fails below
    HTTP, every stage of the run is reported successful: the payments
    stage, and every stage of every period; and every period that is
    started is marked as processed.  This holds whether or not the token is
    set, the API answers, or a file can be read or written. *)
Theorem clean_run_marks_every_started_period (e : env) (w : world) :
  always_launches e -> never_throws e -> never_drops e ->
  (exists rest, fst (etl_pipeline e w) = PaymentsRun (Returned true) :: rest) /\
  omap marked (fst (etl_pipeline e w)) = omap started (fst (etl_pipeline e w)) /\
  Forall (fun ev => match ev with
                    | StageRun _ _ _ r => r = Returned true
                    | Errored _ => False
                    | _ => True
                    end) (fst (etl_pipeline e w)).
Proof.
  intros Hl Ht Hn. unfold etl_pipeline, run_script. rewrite Hl.
  cbn [script_process].
  pose proof (payments_script_status e (tick (the_disk w))) as H0.
  destruct (payments_script e (tick (the_disk w))) as [c d1].
  cbn [fst] in H0. subst c. cbn [Z.eqb].
  destruct (@process_files_clean e {| the_disk := d1; ledger := ledger w |}
              (payments_csv_files (files d1)) Hl Ht Hn) as [H1 H2].
  destruct (process_files e {| the_disk := d1; ledger := ledger w |}
              (payments_csv_files (files d1))) as [log w'].
  cbn [fst] in *. split; [now exists log|]. split.
  - cbn [omap marked started]. exact H1.
  - constructor; [exact I|exact H2].
Qed.

Lemma clean_run_marks_every_started_period_witness :
  let e := env_nothing_works in
  let w := world_odd_names in
  (always_launches e /\ never_throws e /\ never_drops e) /\
  (exists rest, fst (etl_pipeline e w) = PaymentsRun (Returned true) :: rest) /\
  omap marked (fst (etl_pipeline e w)) = omap started (fst (etl_pipeline e w)) /\
  Forall (fun ev => match ev with
                    | StageRun _ _ _ r => r = Returned true
                    | Errored _ => False
                    | _ => True
                    end) (fst (etl_pipeline e w)).
Proof.
  cbv zeta.
  assert (Hl : always_launches env_nothing_works) by (intro k; reflexivity).
  assert (Ht : never_throws env_nothing_works) by (intros k id; discriminate).
  assert (Hn : never_drops env_nothing_works) by (intros k id; discriminate).
  split; [now repeat split|].
  exact (@clean_run_marks_every_started_period env_nothing_works world_odd_names Hl Ht Hn).
Defined.

(** X13 (etl_pipeline.py, [extract_year_month_from_filename] and lines
    93-104, 134-135).  A file the glob accepts whose name carries no period gets the
    empty sort key: all such files stand first in the sorted list, in the
    order of the listing, wherever the listing has them; the loop logs an
    error for each of them and changes nothing, so that the files with a
    period are processed after them from the same state. *)
Theorem stray_names_come_first (e : env) (w : world) (fs : list (pystr * file)) :
  exists good,
    payments_csv_files fs
    = filter (fun p => negb (has_period p)) (listed_payments fs) ++ good /\
    Forall (fun p => has_period p = true) good /\
    process_files e w (payments_csv_files fs)
    = (map (fun p => BadName (basename p))
           (filter (fun p => negb (has_period p)) (listed_payments fs))
       ++ fst (process_files e w good),
       snd (process_files e w good)).
Proof.
  set (key := extract_year_month_from_filename).
  exists (filter (fun p => negb (str_eqb (key p) [])) (payments_csv_files fs)).
  assert (Hbad : filter (fun p => str_eqb (key p) []) (payments_csv_files fs)
                 = filter (fun p => negb (has_period p)) (listed_payments fs)).
  { unfold payments_csv_files. fold (listed_payments fs). fold key.
    rewrite (@sort_by_stable key [] (listed_payments fs)).
    apply filter_ext_in. intros p Hp. apply key_empty.
    unfold listed_payments, glob_payments in Hp.
    apply filter_In in Hp as [Hp _]. now apply filter_In in Hp as [_ Hg]. }
  assert (Hsplit : payments_csv_files fs
                   = filter (fun p => negb (has_period p)) (listed_payments fs)
                     ++ filter (fun p => negb (str_eqb (key p) [])) (payments_csv_files fs)).
  { rewrite <- Hbad. apply sorted_empty_first. apply sort_by_sorted. }
  split; [exact Hsplit|]. split.
  - apply Forall_forall. intros p Hp. apply filter_In in Hp as [Hp Hk].
    apply payments_csv_files_in in Hp as (Hg & _).
    unfold key in Hk. rewrite (key_empty _ Hg) in Hk.
    now destruct (has_period p).
  - rewrite Hsplit at 1. apply process_files_stray.
    apply Forall_forall. intros p Hp. apply filter_In in Hp as [_ Hp].
    now apply negb_true_iff.
Qed.



(* ================================================================== *)
(** ** What is kept of the detail of an action *)

(** X15 (extract_travelpayouts_action_details.py, [process_action_details],
    lines 65-109, and lines 191-194 of the main block).  A result of
    [process_action_details] comes from a JSON object and is never empty: its
    keys are the seven basic fields and the five history fields, in that
    order, followed by keys that start with "metadata_"; no key stands
    twice, so the metadata never overwrite a basic or a history field.  The
    basic fields hold what [get] finds in the object (null when the key is
    missing); the history fields hold what [get] finds in the first entry
    of the history, whatever entries follow, and null when there is no
    history or an empty one. *)
Theorem processed_detail_shape (a : json) (d : list (pystr * json)) :
  process_action_details a = Data d ->
  exists o names,
    a = JObj o /\
    map fst d = fixed_keys ++ map (app Keys.metadata_) names /\
    NoDup (map fst d) /\
    d <> [] /\
    (forall k, In k main_fields -> jfind d k = Some (jget o k)) /\
    (forall entry rest,
        jfind o Keys.history = Some (JArr (JObj entry :: rest)) ->
        forall hk k, In (hk, k) history_fields -> jfind d hk = Some (jget entry k)) /\
    (jfind o Keys.history = None \/
     (exists h, jfind o Keys.history = Some h /\ truthy h = false) ->
     forall hk k, In (hk, k) history_fields -> jfind d hk = Some JNull).
Proof.
  intro H. apply process_data_inv in H as (o & hist & md & -> & Hh & Hm & ->).
  pose proof (history_part_keys _ Hh) as Hk.
  pose proof (metadata_part_keys _ Hm) as Hnd.
  exists o, (map fst md). split; [reflexivity|].
  assert (Hkeys : map fst (map (fun k => (k, jget o k)) main_fields ++ hist
                           ++ map (fun kv => (Keys.metadata_ ++ fst kv, snd kv)) md)
                  = fixed_keys ++ map (app Keys.metadata_) (map fst md)).
  { rewrite !map_app, Hk, !map_map. cbn [fst]. rewrite map_id.
    unfold fixed_keys. now rewrite <- app_assoc. }
  split; [exact Hkeys|]. split; [|split; [discriminate|]].
  { rewrite Hkeys. apply NoDup_app.
    - apply fixed_keys_nodup.
    - now apply nodup_prefix.
    - intros k Hin Hin'. apply in_map_iff in Hin' as (n & <- & _).
      now apply (@fixed_key_no_metadata (Keys.metadata_ ++ n) n). }
  split; [|split].
  - intros k Hin. unfold main_fields in Hin. cbn [In] in Hin.
    repeat (destruct Hin as [Hin|Hin]; [subst k; reflexivity|]). contradiction.
  - intros entry rest Hj hk k Hin. unfold history_part in Hh. rewrite Hj in Hh.
    cbn [truthy first_item] in Hh. injection Hh as <-.
    unfold history_fields in Hin. cbn [In] in Hin.
    repeat (destruct Hin as [Hin|Hin]; [injection Hin as <- <-; reflexivity|]).
    contradiction.
  - intros Hj hk k Hin.
    assert (Hhist : hist = map (fun kk => (fst kk, JNull)) history_fields).
    { unfold history_part in Hh. destruct Hj as [Hj|(h & Hj & Ht)]; rewrite Hj in Hh;
        [|rewrite Ht in Hh]; now injection Hh as <-. }
    subst hist. unfold history_fields in Hin. cbn [In] in Hin.
    repeat (destruct Hin as [Hin|Hin]; [injection Hin as <- <-; reflexivity|]).
    contradiction.
Qed.

Lemma processed_detail_shape_witness :
  process_action_details sample_action = Data sample_data /\
  exists o names,
    sample_action = JObj o /\
    map fst sample_data = fixed_keys ++ map (app Keys.metadata_) names /\
    NoDup (map fst sample_data) /\
    sample_data <> [] /\
    (forall k, In k main_fields -> jfind sample_data k = Some (jget o k)) /\
    (forall entry rest,
        jfind o Keys.history = Some (JArr (JObj entry :: rest)) ->
        forall hk k, In (hk, k) history_fields ->
                     jfind sample_data hk = Some (jget entry k)) /\
    (jfind o Keys.history = None \/
     (exists h, jfind o Keys.history = Some h /\ truthy h = false) ->
     forall hk k, In (hk, k) history_fields -> jfind sample_data hk = Some JNull).
Proof.
  split; [reflexivity|].
  exact (@processed_detail_shape sample_action sample_data eq_refl).
Defined.

(** X16 (extract_travelpayouts_action_details.py, [process_action_details],
    lines 65-109).  The function returns None, so that the main block drops
    the action without a row, exactly in these cases: the detail is no JSON
    object; its history is truthy but no list that starts with an object; or
    its metadata is truthy but no list, or a list with an item that is no
    object with both a name that can be hashed and a value.  One malformed
    item of the metadata thus costs the whole action. *)
Theorem detail_is_dropped (a : json) :
  process_action_details a = NoData <->
  (forall o, a <> JObj o) \/
  (exists o, a = JObj o /\ (history_malformed o \/ metadata_malformed o)).
Proof.
  split.
  - intro H. destruct a as [| | | | |o]; try (left; intros o; discriminate).
    right. exists o. split; [reflexivity|].
    unfold process_action_details in H.
    destruct (history_part o) as [hist|] eqn:Hh.
    + right. destruct (metadata_part o) as [md| |] eqn:Hm; try discriminate.
      clear H. unfold metadata_part in Hm.
      destruct (jfind o Keys.metadata) as [m|] eqn:Hj; [|discriminate].
      destruct (truthy m) eqn:Ht; [|discriminate].
      exists m. split; [exact Hj|]. split; [exact Ht|].
      intros items ->. cbn [iterate] in Hm. apply gather_failed.
      now destruct (gather items).
    + left. clear H. unfold history_part in Hh.
      destruct (jfind o Keys.history) as [h|] eqn:Hj; [|discriminate].
      destruct (truthy h) eqn:Ht; [|discriminate].
      exists h. split; [exact Hj|]. split; [exact Ht|].
      intros entry rest ->. discriminate Hh.
  - intros [Hno|(o & -> & [(h & Hj & Ht & Hno)|(m & Hj & Ht & Hbad)])].
    + destruct a as [| | | | |o]; try reflexivity. now elim (Hno o).
    + unfold process_action_details, history_part. rewrite Hj, Ht.
      destruct h as [|b|z t|[|c s]|[|x l]|f]; try reflexivity; try discriminate Ht.
      cbn [first_item]. destruct x as [| | | | |entry]; try reflexivity.
      now elim (Hno entry l).
    + unfold process_action_details.
      destruct (history_part o) as [hist|]; [|reflexivity].
      assert (Hm : metadata_part o = Failed).
      { unfold metadata_part. rewrite Hj, Ht.
        destruct m as [|b|z t|[|c s]|items|[|[k v] f]]; try reflexivity;
          try discriminate Ht.
        cbn [iterate]. specialize (Hbad items eq_refl).
        apply gather_failed in Hbad. now rewrite Hbad. }
      now rewrite Hm.
Qed.

(** X17 (extract_travelpayouts_action_details.py, [process_action_details],
    lines 95-101).  When every item of the metadata is an object with a
    string for a name and a value, the result has one key "metadata_<name>"
    for each name, in the order in which the names first appear, after the
    twelve fixed keys; a name that is given several times keeps the value
    that is given last. *)
Theorem metadata_last_value_wins (o : list (pystr * json)) (items : list json)
        (pairs d : list (pystr * json)) :
  jfind o Keys.metadata = Some (JArr items) ->
  Forall2 (fun it nv => item_pair it = Pair (fst nv) (snd nv)) items pairs ->
  process_action_details (JObj o) = Data d ->
  map fst d = fixed_keys ++ map (app Keys.metadata_) (dedup [] (map fst pairs)) /\
  forall n, jfind d (Keys.metadata_ ++ n) = last_value pairs n.
Proof.
  intros Hj Hp H.
  apply process_data_inv in H as (o' & hist & md & Ho & Hh & Hm & ->).
  injection Ho as <-.
  pose proof (history_part_keys _ Hh) as Hk.
  assert (Hmd : md = assign_all [] pairs).
  { unfold metadata_part in Hm. rewrite Hj in Hm.
    destruct items as [|it items].
    - inversion Hp. subst. cbn [truthy] in Hm. now injection Hm as <-.
    - cbn [truthy iterate] in Hm. apply gather_pairs in Hp. rewrite Hp in Hm.
      now injection Hm as <-. }
  split.
  - rewrite !map_app, Hk, !map_map. cbn [fst]. rewrite map_id.
    rewrite <- (map_map fst (app Keys.metadata_)), Hmd, assign_all_keys.
    cbn [map app]. unfold fixed_keys. now rewrite <- app_assoc.
  - intro n. rewrite (@jfind_fixed_only o hist md n Hk), Hmd, jfind_assign_all.
    unfold last_value. now destruct (jfind (rev pairs) n).
Qed.

Lemma metadata_last_value_wins_witness :
  (jfind sample_fields Keys.metadata = Some (JArr sample_items) /\
   Forall2 (fun it nv => item_pair it = Pair (fst nv) (snd nv)) sample_items sample_pairs /\
   process_action_details (JObj sample_fields) = Data sample_data) /\
  map fst sample_data
  = fixed_keys ++ map (app Keys.metadata_) (dedup [] (map fst sample_pairs)) /\
  forall n, jfind sample_data (Keys.metadata_ ++ n) = last_value sample_pairs n.
Proof.
  assert (H1 : jfind sample_fields Keys.metadata = Some (JArr sample_items))
    by reflexivity.
  assert (H2 : Forall2 (fun it nv => item_pair it = Pair (fst nv) (snd nv))
                       sample_items sample_pairs)
    by (repeat constructor).
  assert (H3 : process_action_details (JObj sample_fields) = Data sample_data)
    by reflexivity.
  split; [now repeat split|].
  exact (@metadata_last_value_wins sample_fields sample_items sample_pairs sample_data
           H1 H2 H3).
Defined.
